(** * Expense tracker ([src/app.py]): a shallow embedding and its properties

    The program is a Streamlit script over pandas.  The embedding keeps the
    shape of the script:

    - Python [str] values are [string]s (ASCII semantics for [strip] and
      [lower]);
    - a pandas cell is a dynamically typed value ([cell]); a [DataFrame] with
      the four columns of the program is a list of rows, with column reads
      and column assignments written as in the script ([getitem df c],
      [setitem df c s]);
    - [DataFrame] objects live in a heap of mutable objects, the CSV file and
      Streamlit's [session_state] are part of the same [World], and the
      functions of the script that touch them are written in a small
      state-and-error monad;
    - the amount type ([float] in the program) is a parameter [num] with its
      operations, so that nothing depends on a particular arithmetic; a sum
      is written as a left-to-right fold, which is the value of pandas'
      sum in exact arithmetic, and the statements about the value of a sum
      name the laws of exact arithmetic;
    - pandas' default sort ([kind="quicksort"], numpy's introsort) is embedded
      as numpy's portable C routine does it: median-of-three partitioning
      of segments of more than 16 elements, insertion sort of shorter ones,
      heapsort when the depth limit is exhausted;
    - one run of the script is [script c selected_category search_note],
      where [c] is the button pressed in that run; a CSV file is the table
      of its four columns (the text layer of quoting is not modelled), and
      its fields are read and parsed within their column, as pandas does. *)

From Stdlib Require Import ZArith String Ascii List Lia Bool Arith DecimalString.
From stdpp Require Import base option list gmap strings sorting.

Local Open Scope string_scope.
Local Open Scope nat_scope.

(* ===================================================================== *)
(** ** Python strings *)
(* ===================================================================== *)

Module PyStr.

(** [str.isspace] on one character (ASCII range): TAB..CR, FS..US, SPACE. *)
Definition isspace (c : ascii) : bool :=
  let n := nat_of_ascii c in
  ((9 <=? n) && (n <=? 13)) || ((28 <=? n) && (n <=? 32)).

Fixpoint lstrip_chars (s : list ascii) : list ascii :=
  match s with
  | [] => []
  | c :: s' => if isspace c then lstrip_chars s' else s
  end.

Definition rstrip_chars (s : list ascii) : list ascii :=
  rev (lstrip_chars (rev s)).

(** [s.strip()] *)
Definition strip (s : string) : string :=
  string_of_list_ascii (rstrip_chars (lstrip_chars (list_ascii_of_string s))).

Definition lower_char (c : ascii) : ascii :=
  let n := nat_of_ascii c in
  if (65 <=? n) && (n <=? 90) then ascii_of_nat (n + 32) else c.

(** [s.lower()] *)
Fixpoint lower (s : string) : string :=
  match s with
  | EmptyString => EmptyString
  | String c s' => String (lower_char c) (lower s')
  end.

(** [bool(s)]: a string is truthy when it is not empty. *)
Definition truthy (s : string) : bool :=
  match s with EmptyString => false | _ => true end.

Fixpoint startswith (p s : list ascii) : bool :=
  match p, s with
  | [], _ => true
  | _ :: _, [] => false
  | a :: p', b :: s' => if Ascii.eqb a b then startswith p' s' else false
  end.

Fixpoint contains_chars (p s : list ascii) : bool :=
  startswith p s ||
  match s with
  | [] => false
  | _ :: s' => contains_chars p s'
  end.

(** [p in s]: [p] occurs in [s] as a contiguous substring. *)
Definition contains (p s : string) : bool :=
  contains_chars (list_ascii_of_string p) (list_ascii_of_string s).

End PyStr.

(* ===================================================================== *)
(** ** Regular expressions: the fragment of [re] that is modelled *)
(* ===================================================================== *)

(** [Series.str.contains(pat)] is called with its default [regex=True]: the
    keyword is compiled with [re.compile] and searched with [search].  The
    fragment modelled here is the patterns made of ordinary characters and
    of [.]; a pattern that uses any other special character is outside the
    fragment and [compile] answers [None] for it (Python then either raises
    [re.error] or applies the full pattern language). *)
Module Re.

Inductive atom :=
| Lit (c : ascii)      (* an ordinary character matches itself *)
| AnyChar.             (* [.] matches any character except a newline *)

Definition special (c : ascii) : bool :=
  existsb (Ascii.eqb c)
          (list_ascii_of_string "\^$*+?{}[]()|").

Definition dot : ascii := "."%char.
Definition newline : ascii := ascii_of_nat 10.

Fixpoint compile_chars (p : list ascii) : option (list atom) :=
  match p with
  | [] => Some []
  | c :: p' =>
      if Ascii.eqb c dot then option_map (cons AnyChar) (compile_chars p')
      else if special c then None
      else option_map (cons (Lit c)) (compile_chars p')
  end.

Definition compile (pat : string) : option (list atom) :=
  compile_chars (list_ascii_of_string pat).

Definition atom_matches (a : atom) (c : ascii) : bool :=
  match a with
  | Lit x => Ascii.eqb x c
  | AnyChar => negb (Ascii.eqb c newline)
  end.

(** the pattern matches at the start of [s] *)
Fixpoint match_here (r : list atom) (s : list ascii) : bool :=
  match r, s with
  | [], _ => true
  | _ :: _, [] => false
  | a :: r', c :: s' => atom_matches a c && match_here r' s'
  end.

Fixpoint search_chars (r : list atom) (s : list ascii) : bool :=
  match_here r s ||
  match s with
  | [] => false
  | _ :: s' => search_chars r s'
  end.

(** [r.search(s) is not None] *)
Definition search (r : list atom) (s : string) : bool :=
  search_chars r (list_ascii_of_string s).

End Re.

(* ===================================================================== *)
(** ** numpy's default sort ([kind="quicksort"]) *)
(* ===================================================================== *)

(** numpy's portable quicksort is an introsort on an array segment
    [pl..pr]: while the segment has more than [SMALL_QUICKSORT + 1] elements
    it is partitioned around the median of its first, middle and last
    element, the larger part is pushed on a stack of pending segments
    together with the decremented depth, and the smaller part is continued
    with; a short segment is finished by insertion sort; a pending segment
    whose depth is negative when it is popped is sorted by heapsort.

    A segment is modelled by the list of its elements ([pl] is position 0),
    the stack of pending segments by recursion: segments are disjoint, so the
    order in which they are finished does not change the array. *)
Module Npysort.
Section Sort.

Context {A : Type}.
Variable lt : A -> A -> bool.   (* [cmp(x, y) < 0] *)

Definition SMALL_QUICKSORT : nat := 15.

(** [INTP_SWAP(a[i], a[j])] *)
Definition swap (a : list A) (i j : nat) : list A :=
  match a !! i, a !! j with
  | Some x, Some y => <[j := x]> (<[i := y]> a)
  | _, _ => a
  end.

(** [if (cmp(a[i], a[j]) < 0) INTP_SWAP(a[i], a[j])] *)
Definition swap_if_less (a : list A) (i j : nat) : list A :=
  match a !! i, a !! j with
  | Some x, Some y => if lt x y then swap a i j else a
  | _, _ => a
  end.

(** number of leading elements that satisfy [p] *)
Fixpoint skip_while (p : A -> bool) (l : list A) : nat :=
  match l with
  | x :: l' => if p x then S (skip_while p l') else 0
  | [] => 0
  end.

(** [do { ++pi; } while (cmp(a[pi], vp) < 0);] *)
Definition scan_up (a : list A) (vp : A) (pi : nat) : nat :=
  S pi + skip_while (fun x => lt x vp) (drop (S pi) a).

(** [do { --pj; } while (cmp(vp, a[pj]) < 0);] *)
Definition scan_down (a : list A) (vp : A) (pj : nat) : nat :=
  pj - 1 - skip_while (fun x => lt vp x) (rev (take pj a)).

(** the [for (;;)] loop of the partition *)
Fixpoint partition_loop (fuel : nat) (a : list A) (vp : A) (pi pj : nat)
  : list A * nat :=
  match fuel with
  | 0 => (a, pi)
  | S fuel' =>
      let pi := scan_up a vp pi in
      let pj := scan_down a vp pj in
      if pj <=? pi then (a, pi)
      else partition_loop fuel' (swap a pi pj) vp pi pj
  end.

(** One partition step on a segment: the segment after it and the final
    position [pi] of the pivot. *)
Definition partition (a : list A) : list A * nat :=
  let pr := length a - 1 in
  let pm := Nat.div2 pr in
  let a := swap_if_less a pm 0 in
  let a := swap_if_less a pr pm in
  let a := swap_if_less a pm 0 in
  match a !! pm with
  | None => (a, 0)
  | Some vp =>
      let pj := pr - 1 in
      let a := swap a pm pj in
      let '(a, pi) := partition_loop (length a) a vp 0 pj in
      (swap a pi (pr - 1), pi)
  end.

(** The inner [while] of the insertion sort: [vi] moves left over the
    elements of the sorted prefix that are greater than it.  The prefix is
    given from right to left. *)
Fixpoint insert_from_right (vi : A) (rprefix : list A) : list A :=
  match rprefix with
  | [] => [vi]
  | y :: rp => if lt vi y then y :: insert_from_right vi rp
               else vi :: rprefix
  end.

Definition insertion_sort (a : list A) : list A :=
  rev (fold_left (fun rp vi => insert_from_right vi rp) a []).

(** Heapsort.  The C routine indexes the heap from 1 ([a = tosort - 1]);
    [heap_get a k] is its [a[k]]. *)
Definition heap_get (a : list A) (k : nat) (d : A) : A :=
  default d (a !! (k - 1)).

Definition heap_set (a : list A) (k : nat) (x : A) : list A :=
  <[k - 1 := x]> a.

(** [for (i = l, j = l << 1; j <= n;) { ... } a[i] = tmp;] *)
Fixpoint sift_down (fuel : nat) (a : list A) (tmp : A) (i n : nat) : list A :=
  match fuel with
  | 0 => heap_set a i tmp
  | S fuel' =>
      let j := 2 * i in
      if n <? j then heap_set a i tmp
      else
        let j := if (j <? n) && lt (heap_get a j tmp) (heap_get a (S j) tmp)
                 then S j else j in
        if lt tmp (heap_get a j tmp)
        then sift_down fuel' (heap_set a i (heap_get a j tmp)) tmp j n
        else heap_set a i tmp
  end.

(** [for (l = n >> 1; l > 0; --l) { tmp = a[l]; ... }] *)
Definition build_heap (a : list A) : list A :=
  let n := length a in
  fold_left
    (fun a l => match a !! (l - 1) with
                | Some tmp => sift_down n a tmp l n
                | None => a
                end)
    (rev (seq 1 (Nat.div2 n))) a.

(** [for (; n > 1;) { tmp = a[n]; a[n] = a[1]; n -= 1; ... }] *)
Definition extract_all (a : list A) : list A :=
  fold_left
    (fun a n => match a !! (n - 1), a !! 0 with
                | Some tmp, Some top =>
                    sift_down n (heap_set a n top) tmp 1 (n - 1)
                | _, _ => a
                end)
    (rev (seq 2 (length a - 1))) a.

Definition heapsort (a : list A) : list A := extract_all (build_heap a).

(** The main loop on one segment, entered with depth [cdepth] (an integer:
    it can become negative). [check] tells whether the segment was popped
    from the stack of pending segments, where the depth test is made, or is
    continued by the inner [while], where it is not. *)
Fixpoint quicksort_segment
         (fuel : nat) (check : bool) (cdepth : Z) (a : list A) : list A :=
  match fuel with
  | 0 => a
  | S fuel' =>
      if check && (cdepth <? 0)%Z then heapsort a
      else if SMALL_QUICKSORT <? length a - 1 then
        let '(a, pi) := partition a in
        let cdepth := (cdepth - 1)%Z in
        let left := take pi a in
        let right := drop (S pi) a in
        let pivot := take 1 (drop pi a) in
        if length left <? length right
        then quicksort_segment fuel' false cdepth left ++ pivot
               ++ quicksort_segment fuel' true cdepth right
        else quicksort_segment fuel' true cdepth left ++ pivot
               ++ quicksort_segment fuel' false cdepth right
      else insertion_sort a
  end.

(** [npy_get_msb(num) * 2] *)
Definition depth_limit (num : nat) : Z := Z.of_nat (Nat.log2 num) * 2.

Definition quicksort (a : list A) : list A :=
  quicksort_segment (S (length a)) true (depth_limit (length a)) a.

(** *** The order, and the heap order, in which the sort is specified *)

(** [x <= y]: [y] is not less than [x]. *)
Definition le (x y : A) : Prop := lt y x = false.

(** a list in descending order, as the insertion sort keeps the sorted
    prefix from right to left *)
Definition descending (l : list A) : Prop :=
  StronglySorted (fun x y => le y x) l.

(** The heap order on the positions [l..n] (counted from 1): no element is
    less than one of its children. *)
Definition heap_from (a : list A) (l n : nat) : Prop :=
  forall k c x y, l <= k -> c = 2 * k \/ c = 2 * k + 1 -> c <= n ->
    a !! (k - 1) = Some x -> a !! (c - 1) = Some y -> lt x y = false.

(** The state of [sift_down]: the heap order holds except around the hole
    [i], where [tmp] is to be placed; the parent of the hole is not less
    than [tmp] nor than the children of the hole. *)
Definition heap_except (a : list A) (tmp : A) (l i n : nat) : Prop :=
  (forall k c x y, l <= k -> k <> i -> c = 2 * k \/ c = 2 * k + 1 -> c <= n ->
     c <> i -> a !! (k - 1) = Some x -> a !! (c - 1) = Some y -> lt x y = false)
  /\ (forall k x, l <= k -> i = 2 * k \/ i = 2 * k + 1 ->
        a !! (k - 1) = Some x ->
        lt x tmp = false
        /\ forall c y, c = 2 * i \/ c = 2 * i + 1 -> c <= n ->
             a !! (c - 1) = Some y -> lt x y = false).

End Sort.

(** [np.argsort(v, kind="quicksort")]: the indices of [v] in sorted order.
    Each entry of the index array is carried with the key it points to. *)
Definition argsort {K : Type} (klt : K -> K -> bool) (v : list K) : list nat :=
  map snd (quicksort (fun x y => klt (fst x) (fst y))
                     (zip v (seq 0 (length v)))).

End Npysort.

(* ===================================================================== *)
(** ** Values: dates, amounts, cells *)
(* ===================================================================== *)

(** [datetime.date] *)
Record date := Date { year : nat; month : nat; day : nat }.

(** [a < b] on dates: year, then month, then day. *)
Definition date_ltb (a b : date) : bool :=
  (year a <? year b)
  || ((year a =? year b)
      && ((month a <? month b)
          || ((month a =? month b) && (day a <? day b)))).

(** [a == b] on dates *)
Definition date_eqb (a b : date) : bool :=
  (year a =? year b) && (month a =? month b) && (day a =? day b).

Definition digit (n : nat) : ascii := ascii_of_nat (48 + n mod 10).

Definition zfill2 (n : nat) : string :=
  String (digit (n / 10)) (String (digit n) EmptyString).

Definition zfill4 (n : nat) : string :=
  String (digit (n / 1000)) (String (digit (n / 100)) (zfill2 n)).

(** [str(d)], which is [d.isoformat()]: [YYYY-MM-DD]. *)
Definition isoformat (d : date) : string :=
  zfill4 (year d) ++ "-" ++ zfill2 (month d) ++ "-" ++ zfill2 (day d).

(** What the program takes from Python and pandas without the embedding
    looking inside: the numbers with their addition, comparisons and text
    form, and what pandas makes of the fields of the file.  pandas works
    column by column: [read_csv] reads a column as numbers when all of its
    fields are numbers, and [to_datetime] infers one date format from the
    column and applies it to every text of the column; so these two take
    the column besides the field ([None] is the coerced failure). *)
Class PyEnv (num : Type) := {
  f_zero : num;                            (* [0.0] *)
  f_add : num -> num -> num;               (* [x + y] *)
  f_ltb : num -> num -> bool;              (* [x < y] *)
  f_leb : num -> num -> bool;              (* [x <= y] *)
  f_str : num -> string;                   (* [str(x)] *)
  (* the value that [pd.read_csv] gives a field of [column] when it reads
     the column as numbers; [None] when it reads the column as texts *)
  read_csv_number : forall (column : list string), string -> option num;
  to_numeric_text : string -> option num;  (* [pd.to_numeric] on a text *)
  (* [pd.to_datetime(s, errors="coerce").dt.date] on a text of the column
     [s]; a cell of [s] that is not a text is [None] in [column] *)
  to_datetime_text : forall (column : list (option string)), string -> option date;
  to_datetime_number : num -> option date  (* the same on a number *)
}.

(** The laws of exact arithmetic, for the statements that need them
    (binary floating point satisfies the order laws on numbers that are not
    NaN, and the laws of addition only up to rounding). *)
Class ExactArith (num : Type) `{PyEnv num} : Prop := {
  f_add_assoc : forall x y z : num, f_add x (f_add y z) = f_add (f_add x y) z;
  f_add_comm : forall x y : num, f_add x y = f_add y x;
  f_add_zero_l : forall x : num, f_add f_zero x = x
}.

Class OrderedNum (num : Type) `{PyEnv num} : Prop := {
  f_ltb_irrefl : forall x : num, f_ltb x x = false;
  f_ltb_trans : forall x y z : num,
      f_ltb x y = true -> f_ltb y z = true -> f_ltb x z = true;
  f_ltb_ntrans : forall x y z : num,
      f_ltb x y = false -> f_ltb y z = false -> f_ltb x z = false
}.

Section Model.

Context {num : Type} `{PyEnv num}.

(** A cell of a DataFrame: values are dynamically typed. [CNaN] stands for
    the missing value ([NaN], [NaT], [None]). *)
Inductive cell :=
| CDate (d : date)
| CStr (s : string)
| CFloat (x : num)
| CNaN.

Definition isna (c : cell) : bool :=
  match c with CNaN => true | _ => false end.

(** [float(amount)]: the form hands over a [float] already. *)
Definition float (x : num) : num := x.

(* =================================================================== *)
(** ** DataFrames with the columns [date, category, amount, note] *)
(* =================================================================== *)

Inductive column := Col_date | Col_category | Col_amount | Col_note.

Record row := Row {
  r_date : cell; r_category : cell; r_amount : cell; r_note : cell }.

(** The rows in order; index labels are not modelled
    ([ignore_index=True], [reset_index(drop=True)] and [index=False] are
    therefore the identity). *)
Local Abbreviation DataFrame := (list row).

Local Abbreviation Series := (list cell).

Definition row_get (c : column) (r : row) : cell :=
  match c with
  | Col_date => r_date r
  | Col_category => r_category r
  | Col_amount => r_amount r
  | Col_note => r_note r
  end.

Definition row_set (c : column) (r : row) (v : cell) : row :=
  match c with
  | Col_date => Row v (r_category r) (r_amount r) (r_note r)
  | Col_category => Row (r_date r) v (r_amount r) (r_note r)
  | Col_amount => Row (r_date r) (r_category r) v (r_note r)
  | Col_note => Row (r_date r) (r_category r) (r_amount r) v
  end.

(** [df[c]] *)
Definition getitem (df : DataFrame) (c : column) : Series :=
  map (row_get c) df.

(** [df[c] = s], on the value of the frame *)
Definition setitem (df : DataFrame) (c : column) (s : Series) : DataFrame :=
  zip_with (row_set c) df s.

(** [df[mask]] *)
Definition select (df : DataFrame) (mask : list bool) : DataFrame :=
  map fst (filter (fun p => snd p = true) (zip df mask)).

(** [df.empty] *)
Definition empty (df : DataFrame) : bool :=
  match df with [] => true | _ => false end.

(** [df.take(indexer)] *)
Definition take_rows {X : Type} (df : list X) (indexer : list nat) : list X :=
  omap (fun i => df !! i) indexer.

(* =================================================================== *)
(** ** Series operations used by the program *)
(* =================================================================== *)

(** the text of a cell that holds a text *)
Definition text_of (c : cell) : option string :=
  match c with CStr t => Some t | _ => None end.

(** [pd.to_datetime(s, errors="coerce").dt.date] on one cell of the Series
    [s]: the format of a text is the one that pandas infers from [s]. *)
Definition to_datetime_cell (s : Series) (c : cell) : cell :=
  match c with
  | CStr t => match to_datetime_text (map text_of s) t with
              | Some d => CDate d
              | None => CNaN
              end
  | CFloat x => match to_datetime_number x with
                | Some d => CDate d
                | None => CNaN
                end
  | CDate d => CDate d
  | CNaN => CNaN
  end.

(** [pd.to_numeric(s, errors="coerce")] on one cell *)
Definition to_numeric_cell (c : cell) : cell :=
  match c with
  | CStr t => match to_numeric_text t with
              | Some x => CFloat x
              | None => CNaN
              end
  | CFloat x => CFloat x
  | _ => CNaN
  end.

(** [s.astype(str)] on one cell: [str(value)] *)
Definition astype_str_cell (c : cell) : cell :=
  match c with
  | CStr t => CStr t
  | CDate d => CStr (isoformat d)
  | CFloat x => CStr (f_str x)
  | CNaN => CStr "nan"
  end.

(** the text that [astype_str_cell] gives *)
Definition str_cell (c : cell) : string :=
  match c with
  | CStr t => t
  | CDate d => isoformat d
  | CFloat x => f_str x
  | CNaN => "nan"
  end.

(** [s.fillna(v)] on one cell *)
Definition fillna_cell (v : cell) (c : cell) : cell :=
  if isna c then v else c.

Definition to_datetime (s : Series) : Series := map (to_datetime_cell s) s.
Definition to_numeric (s : Series) : Series := map to_numeric_cell s.
Definition astype_str (s : Series) : Series := map astype_str_cell s.
Definition fillna (v : cell) (s : Series) : Series := map (fillna_cell v) s.

(** [df.dropna(subset=cols)]: the rows with no missing value in [cols] *)
Definition dropna (df : DataFrame) (cols : list column) : DataFrame :=
  select df (map (fun r => forallb (fun c => negb (isna (row_get c r))) cols) df).

(** [s.sum()]: missing values are skipped; [None] when a cell is not a
    number (Python raises or concatenates).  numpy adds the values in
    another order (pairwise); the fold is the sum in exact arithmetic, and
    the statements about the value of a sum assume [ExactArith]. *)
Fixpoint sum_from (acc : num) (s : Series) : option num :=
  match s with
  | [] => Some acc
  | CFloat x :: s' => sum_from (f_add acc x) s'
  | CNaN :: s' => sum_from acc s'
  | _ :: _ => None
  end.

Definition Series_sum (s : Series) : option num := sum_from f_zero s.

(** [s.str.lower()] on one cell: missing stays missing, a value that is
    not a string becomes missing *)
Definition str_lower_cell (c : cell) : cell :=
  match c with
  | CStr t => CStr (PyStr.lower t)
  | _ => CNaN
  end.

(** [s.str.contains(pat, na=False)] with the default [regex=True], for a
    compiled pattern *)
Definition str_contains_cell (r : list Re.atom) (c : cell) : bool :=
  match c with
  | CStr t => Re.search r t
  | _ => false
  end.

(** [s == v] for a string [v] *)
Definition eq_str_cell (v : string) (c : cell) : bool :=
  match c with
  | CStr t => String.eqb t v
  | _ => false
  end.

End Model.

Arguments cell : clear implicits.
Arguments row : clear implicits.

Abbreviation DataFrame num := (list (row num)) (only parsing).
Abbreviation Series num := (list (cell num)) (only parsing).

(* ===================================================================== *)
(** ** pandas: sorting, grouping, CSV *)
(* ===================================================================== *)

Section Pandas.

Context {num : Type} `{PyEnv num}.

(** [nargsort(items, kind="quicksort", ascending, na_position="last")]:
    missing keys ([None]) are set aside and placed last; for a descending
    sort the other keys are reversed, sorted ascending, and the result is
    reversed again. *)
Definition nargsort {K : Type} (klt : K -> K -> bool) (ascending : bool)
           (items : list (option K)) : list nat :=
  let idx := seq 0 (length items) in
  let non_nan := omap (fun p => (fun k => (k, snd p)) <$> fst p) (zip items idx) in
  let nan_idx := map snd (filter (fun p => fst p = None) (zip items idx)) in
  let non_nans := map fst non_nan in
  let non_nan_idx := map snd non_nan in
  let non_nans := if ascending then non_nans else rev non_nans in
  let non_nan_idx := if ascending then non_nan_idx else rev non_nan_idx in
  let indexer := take_rows non_nan_idx (Npysort.argsort klt non_nans) in
  let indexer := if ascending then indexer else rev indexer in
  indexer ++ nan_idx.

(** The key of a cell of the [date] column: a date, or missing; any other
    value cannot be compared with a date. *)
Definition date_key (c : cell num) : option (option date) :=
  match c with
  | CDate d => Some (Some d)
  | CNaN => Some None
  | _ => None
  end.

(** [df.sort_values(by="date", ascending=...).reset_index(drop=True)];
    [None] when the column holds values that Python cannot compare. *)
Definition sort_values_date (df : DataFrame num) (ascending : bool)
  : option (DataFrame num) :=
  keys ← mapM date_key (getitem df Col_date);
  Some (take_rows df (nargsort date_ltb ascending keys)).

Definition str_key (c : cell num) : option string :=
  match c with
  | CStr s => Some s
  | _ => None
  end.

(** The group keys of [groupby] (default [sort=True]): the distinct
    categories in ascending order. *)
Fixpoint insert_key (k : string) (ks : list string) : list string :=
  match ks with
  | [] => [k]
  | k' :: ks' =>
      if String.eqb k k' then ks
      else if String.ltb k k' then k :: ks
      else k' :: insert_key k ks'
  end.

Definition group_keys (cats : list string) : list string :=
  fold_right insert_key [] cats.

(** [df.groupby("category", as_index=False)["amount"].sum()]: one row
    (category, total) per group, groups in key order. *)
Definition groupby_category_sum (df : DataFrame num)
  : option (list (string * num)) :=
  cats ← mapM str_key (getitem df Col_category);
  mapM (fun k =>
          let group := select df (map (eq_str_cell k) (getitem df Col_category)) in
          total ← Series_sum (getitem group Col_amount);
          Some (k, total))
       (group_keys cats).

(** [g.sort_values("amount", ascending=...)] on the grouped frame *)
Definition sort_values_amount (g : list (string * num)) (ascending : bool)
  : list (string * num) :=
  take_rows g (nargsort f_ltb ascending (map (fun r => Some (snd r)) g)).

(** *** The CSV file

    The file is represented by its table: the header is the four column
    names, and each line is the four field texts of a row (the quoting
    layer of the CSV format is not modelled). *)
Record csv_row := CsvRow {
  csv_date : string; csv_category : string;
  csv_amount : string; csv_note : string }.

(** The texts that [read_csv] reads as a missing value
    ([keep_default_na=True]). *)
Definition na_values : list string :=
  [""; "#N/A"; "#N/A N/A"; "#NA"; "-1.#IND"; "-1.#QNAN"; "-NaN"; "-nan";
   "1.#IND"; "1.#QNAN"; "<NA>"; "N/A"; "NA"; "NULL"; "NaN"; "None";
   "n/a"; "nan"; "null"].

Definition is_missing (t : string) : bool := existsb (String.eqb t) na_values.

(** One field as [read_csv] hands it over, in the column with the fields
    [column]: missing, a number when the column is read as numbers, or its
    text. *)
Definition read_cell (column : list string) (t : string) : cell num :=
  if is_missing t then CNaN
  else match read_csv_number column t with
       | Some x => CFloat x
       | None => CStr t
       end.

(** One row of the file [table] as [read_csv] hands it over. *)
Definition read_row (table : list csv_row) (r : csv_row) : row num :=
  Row (read_cell (map csv_date table) (csv_date r))
      (read_cell (map csv_category table) (csv_category r))
      (read_cell (map csv_amount table) (csv_amount r))
      (read_cell (map csv_note table) (csv_note r)).

(** One field as [to_csv] writes it ([na_rep=""]). *)
Definition cell_text (c : cell num) : string :=
  match c with
  | CStr t => t
  | CDate d => isoformat d
  | CFloat x => f_str x
  | CNaN => ""
  end.

Definition write_row (r : row num) : csv_row :=
  CsvRow (cell_text (r_date r)) (cell_text (r_category r))
         (cell_text (r_amount r)) (cell_text (r_note r)).

End Pandas.

Arguments is_missing : simpl never.

(* ===================================================================== *)
(** ** The world of the script: objects, files, session, screen *)
(* ===================================================================== *)

Inductive message :=
| st_error (text : string)
| st_warning (text : string)
| st_success (text : string)
| st_info (text : string).

Section World.

Context {num : Type} `{PyEnv num}.

(** a reference to a [DataFrame] object *)
Definition loc := positive.

Record World := MkWorld {
  heap : gmap loc (DataFrame num);           (* the DataFrame objects *)
  files : gmap string (list csv_row);        (* path -> table of the file *)
  session_state : gmap string bool;          (* [st.session_state] *)
  screen : list message                      (* what was shown, in order *)
}.

(** Computations of the script: they read and change the world, and may
    raise ([None]). *)
Definition Py (X : Type) : Type := World -> option (X * World).

Definition ret {X} (x : X) : Py X := fun w => Some (x, w).

Definition bind {X Y} (m : Py X) (k : X -> Py Y) : Py Y :=
  fun w => match m w with
           | Some (x, w') => k x w'
           | None => None
           end.

Definition raise {X} : Py X := fun _ => None.

End World.

Arguments World : clear implicits.
Arguments Py : clear implicits.

Notation "x <- m ;; k" := (bind m (fun x => k))
  (at level 100, m at next level, k at level 200, right associativity,
   only parsing).
Notation "m ;;; k" := (bind m (fun _ => k))
  (at level 100, k at level 200, right associativity, only parsing).

Section Objects.

Context {num : Type} `{PyEnv num}.

(** a new object holding [df] *)
Definition new_frame (df : DataFrame num) : Py num loc :=
  fun w =>
    let l := fresh (dom (heap w)) in
    Some (l, MkWorld (<[l := df]> (heap w)) (files w) (session_state w) (screen w)).

(** the value of the object [l] *)
Definition read_frame (l : loc) : Py num (DataFrame num) :=
  fun w => match heap w !! l with
           | Some df => Some (df, w)
           | None => None
           end.

(** in-place update of the object [l] *)
Definition write_frame (l : loc) (df : DataFrame num) : Py num unit :=
  fun w => match heap w !! l with
           | Some _ => Some (tt, MkWorld (<[l := df]> (heap w)) (files w)
                                         (session_state w) (screen w))
           | None => None
           end.

(** [df.copy()]: a new object with the same data *)
Definition copy (l : loc) : Py num loc :=
  df <- read_frame l ;; new_frame df.

(** [df[c]] *)
Definition df_getitem (l : loc) (c : column) : Py num (Series num) :=
  df <- read_frame l ;; ret (getitem df c).

(** [df[c] = s]: changes the object [l] *)
Definition df_setitem (l : loc) (c : column) (s : Series num) : Py num unit :=
  df <- read_frame l ;; write_frame l (setitem df c s).

(** [df.dropna(subset=cols)]: a new object *)
Definition df_dropna (l : loc) (cols : list column) : Py num loc :=
  df <- read_frame l ;; new_frame (dropna df cols).

(** [pd.concat([a, b], ignore_index=True)]: a new object *)
Definition pd_concat (a b : loc) : Py num loc :=
  x <- read_frame a ;; y <- read_frame b ;; new_frame (x ++ y)%list.

(** [path.exists()] *)
Definition path_exists (path : string) : Py num bool :=
  fun w => Some (bool_decide (is_Some (files w !! path)), w).

(** [pd.read_csv(path)]: a new object; raises when there is no file *)
Definition read_csv (path : string) : Py num loc :=
  fun w => match files w !! path with
           | Some table => new_frame (map (read_row table) table) w
           | None => None
           end.

(** [df.to_csv(path, index=False)]: the file is overwritten in full *)
Definition to_csv (l : loc) (path : string) : Py num unit :=
  df <- read_frame l ;;
  fun w => Some (tt, MkWorld (heap w) (<[path := map write_row df]> (files w))
                             (session_state w) (screen w)).

(** [path.unlink(missing_ok=True)] *)
Definition unlink (path : string) : Py num unit :=
  fun w => Some (tt, MkWorld (heap w) (delete path (files w))
                             (session_state w) (screen w)).

(** [st.error], [st.warning], [st.success], [st.info] *)
Definition show (m : message) : Py num unit :=
  fun w => Some (tt, MkWorld (heap w) (files w) (session_state w)
                             (screen w ++ [m])%list).

(** [key in st.session_state] *)
Definition session_has (key : string) : Py num bool :=
  fun w => Some (bool_decide (is_Some (session_state w !! key)), w).

(** [st.session_state[key] = v] *)
Definition session_set (key : string) (v : bool) : Py num unit :=
  fun w => Some (tt, MkWorld (heap w) (files w)
                             (<[key := v]> (session_state w)) (screen w)).

(** [st.session_state.pop(key, None)] *)
Definition session_pop (key : string) : Py num unit :=
  fun w => Some (tt, MkWorld (heap w) (files w)
                             (delete key (session_state w)) (screen w)).

End Objects.

(* ===================================================================== *)
(** ** The program ([src/app.py]) *)
(* ===================================================================== *)

Definition CSV_PATH : string := "data/expenses.csv".

Definition CATEGORIES : list string :=
  ["Food"; "Rent"; "Transport"; "Groceries"; "Entertainment"; "Shopping";
   "Health"; "Other"].

Section App.

Context {num : Type} `{PyEnv num}.

(** [load_expenses(path)] *)
Definition load_expenses (path : string) : Py num loc :=
  present <- path_exists path ;;
  if negb present then new_frame []
  else
    df <- read_csv path ;;
    (* Clean types *)
    s <- df_getitem df Col_date ;;
    df_setitem df Col_date (to_datetime s) ;;;
    s <- df_getitem df Col_category ;;
    df_setitem df Col_category (astype_str s) ;;;
    s <- df_getitem df Col_amount ;;
    df_setitem df Col_amount (to_numeric s) ;;;
    s <- df_getitem df Col_note ;;
    df_setitem df Col_note (astype_str (fillna (CStr "") s)) ;;;
    (* Remove broken rows (if any) *)
    d <- df_dropna df [Col_date; Col_amount] ;;
    df <- copy d ;;
    ret df.

(** [save_expenses(df, path)] *)
Definition save_expenses (df : loc) (path : string) : Py num unit :=
  df_to_save <- copy df ;;
  s <- df_getitem df_to_save Col_date ;;
  df_setitem df_to_save Col_date (astype_str s) ;;;
  to_csv df_to_save path.

(** [add_expense(df, expense_date, category, amount, note)] *)
Definition add_expense (df : loc) (expense_date : date) (category : string)
           (amount : num) (note : string) : Py num loc :=
  new_row <- new_frame [Row (CDate expense_date) (CStr category)
                            (CFloat (float amount)) (CStr (PyStr.strip note))] ;;
  out <- pd_concat df new_row ;;
  ret out.

(** The body of [if submitted:]; the result is the object that the
    variable [df] names afterwards. *)
Definition submitted (df : loc) (expense_date : date) (category : string)
           (amount : num) (note : string) : Py num loc :=
  if f_leb amount f_zero then
    show (st_error "Amount must be greater than 0.") ;;;
    ret df
  else
    df <- add_expense df expense_date category amount note ;;
    save_expenses df CSV_PATH ;;;
    show (st_success "Expense added ✅") ;;;
    ret df.

(** [df_display]: newest first *)
Definition df_display (df : DataFrame num) : option (DataFrame num) :=
  sort_values_date df false.

(** The quick filters on [df_display]; [None] when the keyword is not a
    pattern of the modelled fragment. *)
Definition filtered (df_display : DataFrame num)
           (selected_category search_note : string) : option (DataFrame num) :=
  let filtered := df_display in
  let filtered :=
    if negb (String.eqb selected_category "All")
    then select filtered
                (map (eq_str_cell selected_category) (getitem filtered Col_category))
    else filtered in
  if PyStr.truthy (PyStr.strip search_note) then
    r ← Re.compile (PyStr.lower (PyStr.strip search_note));
    Some (select filtered
            (map (fun c => str_contains_cell r (str_lower_cell c))
                 (getitem filtered Col_note)))
  else Some filtered.

(** [total_spent = df["amount"].sum()] *)
Definition total_spent (df : DataFrame num) : option num :=
  Series_sum (getitem df Col_amount).

(** [by_category] *)
Definition by_category (df : DataFrame num) : option (list (string * num)) :=
  g ← groupby_category_sum df;
  Some (sort_values_amount g false).

(** What one run of the script shows below "Your expenses". *)
Inductive view :=
| NoExpensesYet
| Expenses (table : DataFrame num) (total : num)
           (summary : list (string * num)).

Definition your_expenses (df : DataFrame num)
           (selected_category search_note : string) : option view :=
  if empty df then Some NoExpensesYet
  else
    d ← df_display df;
    f ← filtered d selected_category search_note;
    t ← total_spent df;
    g ← by_category df;
    Some (Expenses f t g).

(** The body of [if st.button("Clear ALL data"):]; the result tells whether
    the script asks for a rerun. *)
Definition clear_all_data : Py num bool :=
  (* Safety: require a second confirmation *)
  show (st_warning "Click again to confirm deletion.") ;;;
  pending <- session_has "confirm_clear" ;;
  if negb pending then
    session_set "confirm_clear" true ;;;
    ret false
  else
    unlink CSV_PATH ;;;
    session_pop "confirm_clear" ;;;
    show (st_success "All data cleared. Refreshing...") ;;;
    ret true.

(** *** Valid expense records, and the frames that hold them *)

Record Expense := MkExpense {
  e_date : date; e_category : string; e_amount : num; e_note : string }.

Definition row_of (e : Expense) : row num :=
  Row (CDate (e_date e)) (CStr (e_category e))
      (CFloat (e_amount e)) (CStr (e_note e)).

Definition frame_of (es : list Expense) : DataFrame num := map row_of es.

(** Sum of a list of amounts, from [0.0], left to right. *)
Definition sum_amounts (xs : list num) : num := fold_left f_add xs f_zero.

(** The total of one category: the sum of the amounts of its records, in
    their order. *)
Definition group_total (es : list Expense) (category : string) : num :=
  sum_amounts (map e_amount
                   (List.filter (fun e => String.eqb (e_category e) category) es)).




(** The confirmation state of the clear-all control. *)
Inductive confirm_state := Idle | PendingConfirm.

Definition confirm_state_of (w : World num) : confirm_state :=
  match session_state w !! "confirm_clear" with
  | Some _ => PendingConfirm
  | None => Idle
  end.

(** One row of the frame after the four "clean types" assignments; [dates]
    is the [date] column before them. *)
Definition clean_row (dates : list (cell num)) (r : row num) : row num :=
  Row (to_datetime_cell dates (r_date r)) (astype_str_cell (r_category r))
      (to_numeric_cell (r_amount r))
      (astype_str_cell (fillna_cell (CStr "") (r_note r))).

(** *** What [load_expenses] makes of a row of the file [table]

    Each field is read within its column.  The date of a row is the date
    that the date parsing of the column gives its date field, its amount
    the number that its amount field is read or parsed as; a field that is
    missing gives none.  A row with a date and an amount is loaded with its
    category as text and its note defaulting to the empty string. *)
Definition parsed_date (table : list csv_row) (r : csv_row) : option date :=
  let column := map csv_date table in
  match to_datetime_cell (map (read_cell column) column)
                         (read_cell column (csv_date r)) with
  | CDate d => Some d
  | _ => None
  end.

Definition parsed_amount (table : list csv_row) (r : csv_row) : option num :=
  match to_numeric_cell (read_cell (map csv_amount table) (csv_amount r)) with
  | CFloat x => Some x
  | _ => None
  end.

Definition loaded_row (table : list csv_row) (r : csv_row) : option (row num) :=
  d ← parsed_date table r;
  x ← parsed_amount table r;
  Some (Row (CDate d)
            (CStr (str_cell (read_cell (map csv_category table) (csv_category r))))
            (CFloat x)
            (CStr (str_cell (fillna_cell (CStr "")
                               (read_cell (map csv_note table) (csv_note r)))))).

Definition load_spec (store : option (list csv_row)) : DataFrame num :=
  match store with
  | None => []
  | Some table => omap (loaded_row table) table
  end.

(** *** The specification's reading of [load], row by row

    A row is well formed when its date field parses as a calendar date and
    its amount field parses as a number: when the row, as the only row of a
    file, is loaded.  The specification's [load] keeps exactly the
    well-formed rows. *)
Definition well_formed (r : csv_row) : bool :=
  bool_decide (is_Some (loaded_row [r] r)).

Definition load_row_by_row (table : list csv_row) : list csv_row :=
  List.filter well_formed table.

(** *** The specification's reading of the filter: exact category match
    unless "All", and the stripped keyword as a case-insensitive substring
    of the note unless it is empty. *)
Definition category_matches (category : string) (r : row num) : bool :=
  String.eqb category "All" || eq_str_cell category (r_category r).

Definition note_matches (keyword : string) (r : row num) : bool :=
  negb (PyStr.truthy (PyStr.strip keyword))
  || match r_note r with
     | CStr t => PyStr.contains (PyStr.lower (PyStr.strip keyword)) (PyStr.lower t)
     | _ => false
     end.

(** *** The specification's reading of a stable sort by date: the rows of
    any one date are in the same order in the output as in the input. *)
Definition has_date (d : date) (r : row num) : bool :=
  match r_date r with
  | CDate d' => date_eqb d' d
  | _ => false
  end.

Definition keeps_order_of_equal_dates (input output : DataFrame num) : Prop :=
  forall d, List.filter (has_date d) output = List.filter (has_date d) input.

Definition filter_spec (df : DataFrame num) (category keyword : string)
  : DataFrame num :=
  List.filter (fun r => category_matches category r && note_matches keyword r) df.

End App.

Arguments Expense : clear implicits.
Arguments view : clear implicits.

(* ===================================================================== *)
(** ** An environment to run the model on examples *)
(* ===================================================================== *)

(** Whole-number amounts with exact arithmetic, written the way Python
    writes such floats ([5.0]); dates in the ISO form and in the form
    [MM/DD/YYYY].  It follows pandas 2 on these texts: a column all of
    whose fields are such numbers is read as numbers, and the date format
    of a column is that of its first text. *)
Definition Z_str (z : Z) : string :=
  DecimalString.NilZero.string_of_int (Z.to_int z) ++ ".0".

Definition drop_point_zero (t : string) : string :=
  let n := String.length t in
  if String.eqb (substring (n - 2) 2 t) ".0" then substring 0 (n - 2) t else t.

Definition Z_of_text (t : string) : option Z :=
  Z.of_int <$> DecimalString.NilZero.int_of_string (drop_point_zero t).

Definition nat_of_text (t : string) : option nat :=
  Nat.of_uint <$> DecimalString.NilZero.uint_of_string t.

Definition date_of_text (t : string) : option date :=
  if (String.length t =? 10)
     && String.eqb (substring 4 1 t) "-" && String.eqb (substring 7 1 t) "-"
  then
    y ← nat_of_text (substring 0 4 t);
    m ← nat_of_text (substring 5 2 t);
    d ← nat_of_text (substring 8 2 t);
    if (1 <=? m) && (m <=? 12) && (1 <=? d) && (d <=? 31)
    then Some (Date y m d) else None
  else None.

(** [MM/DD/YYYY] *)
Definition us_date_of_text (t : string) : option date :=
  if (String.length t =? 10)
     && String.eqb (substring 2 1 t) "/" && String.eqb (substring 5 1 t) "/"
  then
    m ← nat_of_text (substring 0 2 t);
    d ← nat_of_text (substring 3 2 t);
    y ← nat_of_text (substring 6 4 t);
    if (1 <=? m) && (m <=? 12) && (1 <=? d) && (d <=? 31)
    then Some (Date y m d) else None
  else None.

(** a text parsed on its own, in either form *)
Definition any_date_of_text (t : string) : option date :=
  match date_of_text t with
  | Some d => Some d
  | None => us_date_of_text t
  end.

(** the first text of a column *)
Fixpoint first_text (column : list (option string)) : option string :=
  match column with
  | [] => None
  | Some t :: _ => Some t
  | None :: column' => first_text column'
  end.

(** [pd.to_datetime] on a text of a column, as pandas 2 does it: the format
    is guessed from the first text of the column and every text is parsed
    with it; when no format is guessed, each text is parsed on its own. *)
Definition date_in_column (column : list (option string)) (t : string)
  : option date :=
  match first_text column with
  | Some t0 =>
      if bool_decide (is_Some (date_of_text t0)) then date_of_text t
      else if bool_decide (is_Some (us_date_of_text t0)) then us_date_of_text t
      else any_date_of_text t
  | None => any_date_of_text t
  end.

(** [pd.to_datetime] on a number: nanoseconds since 1970-01-01 (the first
    day only). *)
Definition date_of_number (z : Z) : option date :=
  if (0 <=? z)%Z && (z <? 86400000000000)%Z then Some (Date 1970 1 1) else None.

(** a whole number written without [.0] *)
Definition whole_literal (t : string) : bool :=
  bool_decide (is_Some (DecimalString.NilZero.int_of_string t)).

(** [read_csv] reads a column as floats when each of its fields is missing
    or a number and one of them is missing or written with [.0].  A column
    of whole-number literals stays as its texts here (pandas reads it as
    integers, whose texts are the literals without leading zeros). *)
Definition number_in_column (column : list string) (t : string) : option Z :=
  if forallb (fun f => is_missing f || bool_decide (is_Some (Z_of_text f))) column
     && negb (forallb whole_literal column)
  then Z_of_text t
  else None.

#[export] Instance Z_env : PyEnv Z := {|
  f_zero := 0%Z;
  f_add := Z.add;
  f_ltb := Z.ltb;
  f_leb := Z.leb;
  f_str := Z_str;
  read_csv_number := number_in_column;
  to_numeric_text := Z_of_text;
  to_datetime_text := date_in_column;
  to_datetime_number := date_of_number
|}.

#[export] Instance Z_exact : ExactArith Z.
Proof. split; cbn; intros; lia. Qed.

#[export] Instance Z_ordered : OrderedNum Z.
Proof.
  split; cbn; intros *; rewrite ?Z.ltb_lt, ?Z.ltb_ge; lia.
Qed.

(** A world with one DataFrame object and nothing else. *)
Definition world_with (l : loc) (df : DataFrame Z) : World Z :=
  MkWorld {[ l := df ]} ∅ ∅ [].

(** A world with the expenses file and nothing else. *)
Definition world_with_file (table : list csv_row) : World Z :=
  MkWorld ∅ {[ CSV_PATH := table ]} ∅ [].

(** A world with the expenses file and a confirmation pending. *)
Definition world_pending (table : list csv_row) : World Z :=
  MkWorld ∅ {[ CSV_PATH := table ]} {[ "confirm_clear" := true ]} [].

(** A line of the file whose date is not a date. *)
Definition broken_line : csv_row := CsvRow "yesterday" "Food" "12.0" "".

(** A line of the file whose date is written [MM/DD/YYYY]. *)
Definition us_line : csv_row := CsvRow "01/06/2024" "Rent" "500.0" "".

(** A line of the file whose date is in ISO form. *)
Definition iso_line : csv_row := CsvRow "2024-01-05" "Food" "12.0" "lunch".

(** The end-to-end example of the specification, in whole amounts. *)
Definition lunch : Expense Z := MkExpense (Date 2024 1 5) "Food" 12%Z "lunch".
Definition rent : Expense Z := MkExpense (Date 2024 1 6) "Rent" 500%Z "".



(** Seventeen expenses of one day, told apart by their amounts 1..17. *)
Definition same_day_17 : list (Expense Z) :=
  map (fun i => MkExpense (Date 2024 1 5) "Food" (Z.of_nat i) "") (seq 1 17).

(** A record whose note is a text that [read_csv] reads as missing. *)
Definition na_note : Expense Z := MkExpense (Date 2024 1 5) "Food" 12%Z "NA".

(** A keyword made of ordinary characters only: no special character of the
    pattern language and no dot. *)
Definition literal (keyword : string) : bool :=
  forallb (fun c => negb (Re.special c) && negb (Ascii.eqb c Re.dot))
          (list_ascii_of_string keyword).

(** The specification's reading of "note with leading/trailing whitespace
    stripped": [t] is [n] without a run of white space at its start and a
    run of white space at its end, and [t] neither starts nor ends with
    white space. *)
Definition stripped_of (n t : string) : Prop :=
  exists pre post : list ascii,
    list_ascii_of_string n = (pre ++ list_ascii_of_string t ++ post)%list
    /\ Forall (fun c => PyStr.isspace c = true) pre
    /\ Forall (fun c => PyStr.isspace c = true) post
    /\ (forall c, head (list_ascii_of_string t) = Some c -> PyStr.isspace c = false)
    /\ (forall c, last (list_ascii_of_string t) = Some c -> PyStr.isspace c = false).


(* ===================================================================== *)
(** ** The page and the file, record by record *)
(* ===================================================================== *)

Section Records.

Context {num : Type} `{PyEnv num}.

(** What the keyword box asks for: nothing when the stripped keyword is
    empty, otherwise the pattern compiled from its lower case; [None] when
    the keyword is not a pattern of the modelled fragment. *)
Definition keyword_pattern (search_note : string)
  : option (option (list Re.atom)) :=
  if PyStr.truthy (PyStr.strip search_note)
  then Some <$> Re.compile (PyStr.lower (PyStr.strip search_note))
  else Some None.

(** The rows that pass both quick filters. *)
Definition passes_filters (selected_category : string)
           (pattern : option (list Re.atom)) (r : row num) : bool :=
  category_matches selected_category r
  && match pattern with
     | Some rx => str_contains_cell rx (str_lower_cell (r_note r))
     | None => true
     end.

(** The line of the file for one record. *)
Definition csv_of (e : Expense num) : csv_row :=
  CsvRow (isoformat (e_date e)) (e_category e) (f_str (e_amount e)) (e_note e).

(** A record whose fields the file gives back, when it is saved among the
    records [es]: its category is one of the form's; the category column
    and the date column of the saved file are read as texts; the date
    parsing of the saved column gives its date back from the ISO text; and
    its amount is read back from its text as it was. *)
Definition reads_back (es : list (Expense num)) (e : Expense num) : Prop :=
  e_category e ∈ CATEGORIES
  /\ read_csv_number (map e_category es) (e_category e) = None
  /\ read_csv_number (map (fun e' => isoformat (e_date e')) es)
                     (isoformat (e_date e)) = None
  /\ to_datetime_text (map (fun e' => Some (isoformat (e_date e'))) es)
                      (isoformat (e_date e)) = Some (e_date e)
  /\ parsed_amount (map csv_of es) (csv_of e) = Some (e_amount e).

End Records.

(* ===================================================================== *)
(** ** One run of the script *)
(* ===================================================================== *)

Section Run_of_script.

Context {num : Type} `{PyEnv num}.

(** The values of the form [add_expense_form]. *)
Record form := MkForm {
  form_date : date; form_category : string; form_amount : num;
  form_note : string }.

(** Streamlit runs the script from the top at every interaction; at most
    one button is pressed in a run. *)
Inductive click :=
| NoClick
| AddExpense (f : form)
| DownloadCSV
| ClearAllData.

(** [CSV_PATH.read_bytes()]: the content of the file; raises when there is
    no file. *)
Definition read_bytes (path : string) : Py num (list csv_row) :=
  fun w => match files w !! path with
           | Some table => Some (table, w)
           | None => None
           end.

(** a computation without effect that may raise *)
Definition lift {X : Type} (o : option X) : Py num X :=
  fun w => match o with
           | Some x => Some (x, w)
           | None => None
           end.

(** What a run leaves on the page: the listing and the summary, the data
    offered for download, and whether a rerun is asked for. *)
Record page := MkPage {
  shown : view num; download : option (list csv_row); rerun : bool }.

(** "Load existing data" and the body of [if submitted:]: the frame that
    [df] names when the page is drawn. *)
Definition current_df (c : click) : Py num loc :=
  df <- load_expenses CSV_PATH ;;
  match c with
  | AddExpense f =>
      submitted df (form_date f) (form_category f) (form_amount f) (form_note f)
  | _ => ret df
  end.

(** "Your expenses", "Summary" and "Manage".  The two buttons of "Manage"
    are in the branch of a frame that is not empty. *)
Definition draw (c : click) (selected_category search_note : string) (df : loc)
  : Py num page :=
  rows <- read_frame df ;;
  if empty rows then
    show (st_info "No expenses yet. Add your first one above.") ;;;
    ret (MkPage NoExpensesYet None false)
  else
    v <- lift (your_expenses rows selected_category search_note) ;;
    data <- match c with
            | DownloadCSV => t <- read_bytes CSV_PATH ;; ret (Some t)
            | _ => ret None
            end ;;
    again <- match c with
             | ClearAllData => clear_all_data
             | _ => ret false
             end ;;
    ret (MkPage v data again).

(** One run of the script. *)
Definition script (c : click) (selected_category search_note : string)
  : Py num page :=
  df <- current_df c ;;
  draw c selected_category search_note df.

End Run_of_script.

Arguments form : clear implicits.
Arguments click : clear implicits.
Arguments page : clear implicits.


(* ===================================================================== *)
(** * Properties *)
(* ===================================================================== *)

(** ** Running the computations of the script *)

Section Run.

Context {num : Type} `{PyEnv num}.

Lemma fresh_not_allocated (h : gmap loc (DataFrame num)) :
  h !! fresh (dom h) = None.
Proof. apply not_elem_of_dom, is_fresh. Qed.

Lemma allocated_not_fresh (h : gmap loc (DataFrame num)) l df :
  h !! l = Some df -> l <> fresh (dom h).
Proof. intros Hl ->. rewrite fresh_not_allocated in Hl. discriminate. Qed.

Lemma new_frame_run (df : DataFrame num) (w : World num) :
  new_frame df w =
    Some (fresh (dom (heap w)),
          MkWorld (<[fresh (dom (heap w)) := df]> (heap w)) (files w)
                  (session_state w) (screen w)).
Proof. reflexivity. Qed.

Lemma setitem_map (df : DataFrame num) c f :
  setitem df c (map f (getitem df c)) = map (fun r => row_set c r (f (row_get c r))) df.
Proof.
  unfold setitem, getitem. induction df as [|r df IH]; simpl; [done|].
  by rewrite IH.
Qed.

(** [save_expenses] in one step: the copy is a new object, its [date] column
    becomes text, and the file is the table of the copy. *)
Lemma save_expenses_run (w : World num) df path rows :
  heap w !! df = Some rows ->
  let l := fresh (dom (heap w)) in
  let saved := setitem rows Col_date (astype_str (getitem rows Col_date)) in
  save_expenses df path w =
    Some (tt, MkWorld (<[l := saved]> (<[l := rows]> (heap w)))
                      (<[path := map write_row saved]> (files w))
                      (session_state w) (screen w)).
Proof.
  intros Hdf l saved.
  unfold save_expenses, copy, df_getitem, df_setitem, to_csv, read_frame,
    write_frame, new_frame, bind, ret; simpl.
  rewrite Hdf; simpl. fold l.
  repeat (rewrite lookup_insert_eq; simpl).
  done.
Qed.

(** [add_expense] in one step. *)
Lemma add_expense_run (w : World num) df rows d c a n :
  heap w !! df = Some rows ->
  let new_row := [Row (CDate d) (CStr c) (CFloat (float a)) (CStr (PyStr.strip n))] in
  let l1 := fresh (dom (heap w)) in
  let h1 := <[l1 := new_row]> (heap w) in
  let l2 := fresh (dom h1) in
  add_expense df d c a n w =
    Some (l2, MkWorld (<[l2 := (rows ++ new_row)%list]> h1) (files w)
                      (session_state w) (screen w)).
Proof.
  intros Hdf new_row l1 h1 l2.
  unfold add_expense, pd_concat, read_frame, new_frame, bind, ret; simpl.
  fold l1. rewrite lookup_insert_ne by (symmetry; eapply allocated_not_fresh; eauto).
  rewrite Hdf; simpl. rewrite lookup_insert_eq. done.
Qed.

Lemma bind_run {X Y} (m : Py num X) (k : X -> Py num Y) w x w' :
  m w = Some (x, w') -> bind m k w = k x w'.
Proof. unfold bind. by intros ->. Qed.

Lemma df_getitem_run (w : World num) l (df : DataFrame num) c :
  heap w !! l = Some df -> df_getitem l c w = Some (getitem df c, w).
Proof. intros Hl. unfold df_getitem, read_frame, bind, ret. by rewrite Hl. Qed.

Lemma df_setitem_run (w : World num) l (df : DataFrame num) c s :
  heap w !! l = Some df ->
  df_setitem l c s w =
    Some (tt, MkWorld (<[l := setitem df c s]> (heap w)) (files w)
                      (session_state w) (screen w)).
Proof.
  intros Hl. unfold df_setitem, read_frame, write_frame, bind, ret.
  rewrite Hl; simpl. by rewrite Hl.
Qed.

Lemma clean_types (df : DataFrame num) :
  let df1 := setitem df Col_date (to_datetime (getitem df Col_date)) in
  let df2 := setitem df1 Col_category (astype_str (getitem df1 Col_category)) in
  let df3 := setitem df2 Col_amount (to_numeric (getitem df2 Col_amount)) in
  setitem df3 Col_note (astype_str (fillna (CStr "") (getitem df3 Col_note)))
  = map (clean_row (getitem df Col_date)) df.
Proof.
  simpl. unfold to_datetime, astype_str, to_numeric, fillna.
  rewrite map_map. rewrite !setitem_map. rewrite !map_map.
  apply map_ext. by intros [].
Qed.

(** [load_expenses] when there is no file: a new, empty frame. *)
Lemma load_expenses_run_missing (w : World num) path :
  files w !! path = None ->
  load_expenses path w =
    Some (fresh (dom (heap w)),
          MkWorld (<[fresh (dom (heap w)) := []]> (heap w)) (files w)
                  (session_state w) (screen w)).
Proof.
  intros Hf. unfold load_expenses, path_exists, bind; simpl.
  rewrite Hf. rewrite bool_decide_eq_false_2 by (by intros [? ?]). done.
Qed.

(** [load_expenses] when the file holds [table]: the result is a new object
    that holds the cleaned rows without the broken ones; objects that
    existed before are as they were. *)
Lemma load_expenses_run_file (w : World num) path table :
  files w !! path = Some table ->
  exists l h',
    load_expenses path w =
      Some (l, MkWorld h' (files w) (session_state w) (screen w))
    /\ h' !! l = Some (let rows := map (read_row table) table in
                       dropna (map (clean_row (getitem rows Col_date)) rows)
                              [Col_date; Col_amount])
    /\ heap w !! l = None
    /\ forall l0 r, heap w !! l0 = Some r -> h' !! l0 = Some r.
Proof.
  intros Hf. unfold load_expenses.
  erewrite bind_run; last first.
  { unfold path_exists. rewrite Hf. rewrite bool_decide_eq_true_2 by eauto. done. }
  simpl.
  set (l1 := fresh (dom (heap w))).
  erewrite bind_run; last first.
  { unfold read_csv. rewrite Hf. apply new_frame_run. }
  fold l1.
  repeat (erewrite bind_run;
          [| first [ apply df_getitem_run | apply df_setitem_run ];
             simpl; apply lookup_insert_eq ]; simpl).
  rewrite !insert_insert_eq.
  pose proof (clean_types (map (read_row table) table)) as Hc. simpl in Hc. rewrite Hc.
  clear Hc.
  unfold df_dropna, copy, read_frame, new_frame, bind, ret; simpl.
  rewrite lookup_insert_eq; simpl. rewrite lookup_insert_eq; simpl.
  set (kept := dropna _ _).
  set (h1 := <[l1 := _]> (heap w)).
  set (l2 := fresh (dom h1)).
  set (h2 := <[l2 := kept]> h1).
  set (l3 := fresh (dom h2)).
  exists l3, (<[l3 := kept]> h2). split; [done|]. split; [apply lookup_insert_eq|].
  assert (Hh1 : forall l0 r, heap w !! l0 = Some r -> h1 !! l0 = Some r).
  { intros l0 r Hl0. unfold h1. rewrite lookup_insert_ne; [done|].
    symmetry. eapply allocated_not_fresh; eauto. }
  assert (Hh2 : forall l0 r, h1 !! l0 = Some r -> h2 !! l0 = Some r).
  { intros l0 r Hl0. unfold h2. rewrite lookup_insert_ne; [done|].
    symmetry. eapply allocated_not_fresh; eauto. }
  split.
  - destruct (heap w !! l3) eqn:E; [|done].
    apply Hh1, Hh2 in E. pose proof (fresh_not_allocated h2) as Hn.
    fold l3 in Hn. congruence.
  - intros l0 r Hl0. rewrite lookup_insert_ne; [by apply Hh2, Hh1|].
    symmetry. eapply allocated_not_fresh. by apply Hh2, Hh1.
Qed.

End Run.

(** ** The repository: [add_expense], [save_expenses], [load_expenses] *)

Section Repository.

Context {num : Type} `{PyEnv num}.

(** C10. [save_expenses] does not change the frame it is given: after the
    call [df] still names the same rows (the dates are still dates), every
    other object that existed is as it was, and the text form of the dates
    is held by a new object, the copy, whose table is written to the file. *)
Theorem save_expenses_keeps_input (w : World num) (df : loc) (path : string)
        (rows : DataFrame num) :
  heap w !! df = Some rows ->
  exists w' df_to_save,
    save_expenses df path w = Some (tt, w')
    /\ heap w' !! df = Some rows
    /\ (forall l r, heap w !! l = Some r -> heap w' !! l = Some r)
    /\ heap w !! df_to_save = None
    /\ heap w' !! df_to_save =
         Some (setitem rows Col_date (astype_str (getitem rows Col_date)))
    /\ files w' !! path =
         Some (map write_row
                   (setitem rows Col_date (astype_str (getitem rows Col_date)))).
Proof.
  intros Hdf. pose proof (save_expenses_run w df path rows Hdf) as Hrun.
  simpl in Hrun. eexists _, (fresh (dom (heap w))). split; [exact Hrun|]. simpl.
  assert (Hold : forall l (r : DataFrame num), heap w !! l = Some r ->
            <[fresh (dom (heap w)) :=
                setitem rows Col_date (astype_str (getitem rows Col_date))]>
              (<[fresh (dom (heap w)) := rows]> (heap w)) !! l = Some r).
  { intros l r Hl. rewrite !lookup_insert_ne; [done| |];
      symmetry; eapply allocated_not_fresh; eauto. }
  split; [by apply Hold|]. split; [exact Hold|].
  split; [apply fresh_not_allocated|].
  split; apply lookup_insert_eq.
Qed.

Lemma to_datetime_cell_cases (s : list (cell num)) (c : cell num) :
  (exists d, to_datetime_cell s c = CDate d) \/ to_datetime_cell s c = CNaN.
Proof.
  destruct c as [d|t|x|]; cbn; [by eauto| | |by right].
  - destruct (to_datetime_text _ t); by eauto.
  - destruct (to_datetime_number x); by eauto.
Qed.

Lemma to_numeric_cell_cases (c : cell num) :
  (exists x, to_numeric_cell c = CFloat x) \/ to_numeric_cell c = CNaN.
Proof.
  destruct c as [d|t|x|]; cbn; [by right| |by eauto|by right].
  destruct (to_numeric_text t); by eauto.
Qed.

Lemma astype_str_cell_str (c : cell num) : astype_str_cell c = CStr (str_cell c).
Proof. by destruct c. Qed.

(** The rows that [dropna] keeps are the rows with a date and an amount,
    loaded as [loaded_row] says. *)
Lemma dropna_clean_rows (table : list csv_row) :
  let rows := map (read_row table) table in
  dropna (map (clean_row (getitem rows Col_date)) rows) [Col_date; Col_amount]
  = omap (loaded_row table) table.
Proof.
  cbv zeta.
  assert (Hdates : getitem (map (read_row table) table) Col_date
                   = map (read_cell (map csv_date table)) (map csv_date table)).
  { unfold getitem. rewrite !map_map. done. }
  rewrite Hdates. set (dates := map (read_cell _) _).
  assert (Hrow : forall r : csv_row,
            (if forallb (fun c => negb (isna (row_get c (clean_row dates (read_row table r)))))
                        [Col_date; Col_amount]
             then Some (clean_row dates (read_row table r)) else None)
            = loaded_row table r).
  { intros [dt ct am nt].
    unfold loaded_row, parsed_date, parsed_amount, read_row, clean_row.
    cbn [csv_date csv_category csv_amount csv_note forallb row_get
         r_date r_category r_amount r_note]. fold dates.
    rewrite !astype_str_cell_str.
    destruct (to_datetime_cell_cases dates (read_cell (map csv_date table) dt))
      as [[d ->]| ->]; cbn; [|done].
    destruct (to_numeric_cell_cases (read_cell (map csv_amount table) am))
      as [[x ->]| ->]; cbn; done. }
  generalize table at 2 4 as l.
  induction l as [|r l IH]; [done|].
  unfold dropna, select in *. cbn [map zip zip_with omap list_omap].
  rewrite filter_cons. rewrite <- Hrow. cbn [snd fst].
  destruct (forallb _ _) eqn:E.
  - rewrite decide_True by done. cbn [map]. by rewrite IH.
  - rewrite decide_False by done. by rewrite IH.
Qed.

(** [load_expenses] always returns a new frame, which holds what the
    specification's reading of [load] says, and leaves the files alone. *)
Lemma load_expenses_result (w : World num) (path : string) :
  exists l w',
    load_expenses path w = Some (l, w')
    /\ heap w' !! l = Some (load_spec (files w !! path))
    /\ heap w !! l = None
    /\ files w' = files w.
Proof.
  destruct (files w !! path) as [table|] eqn:Hf.
  - destruct (load_expenses_run_file w path table Hf) as (l & h' & Hrun & Hl & Hnew & _).
    exists l, (MkWorld h' (files w) (session_state w) (screen w)).
    split; [exact Hrun|]. cbn [heap files load_spec].
    by rewrite Hl, dropna_clean_rows.
  - rewrite (load_expenses_run_missing w path Hf).
    eexists _, _. split; [done|]. cbn [heap files load_spec].
    rewrite lookup_insert_eq. split; [done|]. split; [apply fresh_not_allocated|done].
Qed.

(** Which rows are loaded, and as what: a row is loaded exactly when the
    date parsing of the column gives its date field a date and its amount
    field is a number; a missing field is neither; the category plays no
    part, and a missing note is the empty string. *)
Lemma loaded_row_spec (table : list csv_row) (r : csv_row) :
  (is_Some (loaded_row table r)
   <-> is_Some (parsed_date table r) /\ is_Some (parsed_amount table r))
  /\ (is_missing (csv_date r) = true -> parsed_date table r = None)
  /\ (is_missing (csv_amount r) = true -> parsed_amount table r = None)
  /\ (forall out, loaded_row table r = Some out ->
        exists d c x n,
          out = Row (CDate d) (CStr c) (CFloat x) (CStr n)
          /\ parsed_date table r = Some d
          /\ parsed_amount table r = Some x
          /\ (is_missing (csv_note r) = true -> n = "")).
Proof.
  split; [|split; [|split]].
  - unfold loaded_row.
    destruct (parsed_date table r), (parsed_amount table r); cbn;
      split; intros Hx; try done; try (by eauto);
      try (destruct Hx as [[? ?] [? ?]]; done); destruct Hx; done.
  - intros Hm. unfold parsed_date, read_cell at 2. by rewrite Hm.
  - intros Hm. unfold parsed_amount, read_cell. by rewrite Hm.
  - intros out. unfold loaded_row.
    destruct (parsed_date table r) as [d|]; cbn; [|done].
    destruct (parsed_amount table r) as [x|]; cbn; [|done].
    intros [= <-]. eexists _, _, _, _. split; [reflexivity|].
    split; [done|]. split; [done|].
    intros Hm. unfold read_cell. by rewrite Hm.
Qed.

(** C5, as the code has it.  [load_expenses] always returns a frame and
    leaves the files as they are.  The frame is empty when there is no
    file; otherwise it holds, in the order of the file, the rows that have
    a date and an amount, and only them: a row is dropped exactly when the
    date parsing of the date column gives its date field no date or its
    amount field is no number (a missing field is neither), whatever its
    category; a row that is kept has its category as a text, and its note
    is the empty string when the note field is missing.  The date of a
    field is the one that pandas gives it within the column, so whether a
    row is kept can depend on the other rows. *)
Theorem load_expenses_tolerant (w : World num) (path : string) :
  exists l w',
    load_expenses path w = Some (l, w')
    /\ heap w' !! l = Some (load_spec (files w !! path))
    /\ heap w !! l = None
    /\ files w' = files w
    /\ (files w !! path = None -> heap w' !! l = Some [])
    /\ (forall table, files w !! path = Some table ->
          heap w' !! l = Some (omap (loaded_row table) table)
          /\ forall r,
               (is_Some (loaded_row table r)
                <-> is_Some (parsed_date table r) /\ is_Some (parsed_amount table r))
               /\ (is_missing (csv_date r) = true -> parsed_date table r = None)
               /\ (is_missing (csv_amount r) = true -> parsed_amount table r = None)
               /\ (forall out, loaded_row table r = Some out ->
                     exists d c x n,
                       out = Row (CDate d) (CStr c) (CFloat x) (CStr n)
                       /\ parsed_date table r = Some d
                       /\ parsed_amount table r = Some x
                       /\ (is_missing (csv_note r) = true -> n = ""))).
Proof.
  destruct (load_expenses_result w path) as (l & w' & Hrun & Hl & Hnew & Hfiles).
  exists l, w'. do 4 (split; [done|]). split.
  - intros Hf. by rewrite Hl, Hf.
  - intros table Hf. split; [by rewrite Hl, Hf|].
    intros r. apply loaded_row_spec.
Qed.

End Repository.

(** C5, as stated, fails: whether a row is loaded is not a property of the
    row.  The row with the date [01/06/2024] is well formed (alone in the
    file it is loaded, with the date 2024-01-06), and it is dropped when it
    follows a row with an ISO date, where the specification's [load] keeps
    both rows; so no predicate on rows tells for every file which rows are
    loaded. *)
Lemma load_expenses_not_row_by_row :
  well_formed (num := Z) us_line = true
  /\ load_spec (Some [us_line]) = frame_of [MkExpense (Date 2024 1 6) "Rent" 500%Z ""]
  /\ (exists l w',
        load_expenses CSV_PATH (world_with_file [iso_line; us_line]) = Some (l, w')
        /\ heap w' !! l = Some (frame_of [lunch]))
  /\ load_row_by_row (num := Z) [iso_line; us_line] = [iso_line; us_line]
  /\ forall wf : csv_row -> bool,
       exists table,
         length (load_spec (num := Z) (Some table)) <> length (List.filter wf table).
Proof.
  split; [reflexivity|]. split; [reflexivity|]. split; [|split; [reflexivity|]].
  - destruct (load_expenses_result (world_with_file [iso_line; us_line]) CSV_PATH)
      as (l & w' & Hrun & Hl & _).
    exists l, w'. split; [exact Hrun|]. rewrite Hl. reflexivity.
  - intros wf. destruct (wf us_line) eqn:Hus; [destruct (wf iso_line) eqn:Hiso|].
    + exists [iso_line; us_line]. cbn [List.filter]. rewrite Hus, Hiso.
      vm_compute. discriminate.
    + exists [iso_line]. cbn [List.filter]. rewrite Hiso. vm_compute. discriminate.
    + exists [us_line]. cbn [List.filter]. rewrite Hus. vm_compute. discriminate.
Qed.

(** ** The script: submitting the form, clearing the data, the summary *)

Section Script.

Context {num : Type} `{PyEnv num}.

(** C7. Validation atomicity.  When the submitted amount is [<= 0] the
    script shows the validation error and does nothing else: [df] names the
    same object, no object is created or changed, the files and the session
    state are as they were. *)
Theorem submitted_rejects_nonpositive (w : World num) (df : loc) (d : date)
        (c : string) (a : num) (n : string) :
  f_leb a f_zero = true ->
  submitted df d c a n w =
    Some (df, MkWorld (heap w) (files w) (session_state w)
                      (screen w ++ [st_error "Amount must be greater than 0."])).
Proof. intros Ha. unfold submitted. rewrite Ha. reflexivity. Qed.

(** When the amount is accepted, the new frame is the old one with one more
    row, and the file is its table. *)
Lemma submitted_accepts (w : World num) (df : loc) (rows : DataFrame num)
      (d : date) (c : string) (a : num) (n : string) :
  f_leb a f_zero = false ->
  heap w !! df = Some rows ->
  let rows' := (rows ++ [Row (CDate d) (CStr c) (CFloat (float a))
                             (CStr (PyStr.strip n))])%list in
  exists df' w',
    submitted df d c a n w = Some (df', w')
    /\ heap w' !! df' = Some rows'
    /\ files w' !! CSV_PATH =
         Some (map write_row
                   (setitem rows' Col_date (astype_str (getitem rows' Col_date))))
    /\ screen w' = (screen w ++ [st_success "Expense added ✅"])%list.
Proof.
  intros Ha Hdf rows'. unfold submitted. rewrite Ha.
  assert (exists df' w1,
             add_expense df d c a n w = Some (df', w1)
             /\ heap w1 !! df' = Some rows'
             /\ screen w1 = screen w) as (df' & w1 & Hadd & Hdf' & Hscr).
  { eexists _, _. split; [apply add_expense_run; exact Hdf|]. simpl.
    split; [apply lookup_insert_eq|done]. }
  erewrite bind_run by exact Hadd.
  pose proof (save_expenses_run w1 df' CSV_PATH rows' Hdf') as Hsave.
  simpl in Hsave. erewrite bind_run by exact Hsave.
  unfold show, bind, ret. eexists _, _. split; [reflexivity|]. simpl.
  split.
  { rewrite !lookup_insert_ne; [done| |];
      symmetry; eapply allocated_not_fresh; eauto. }
  split; [apply lookup_insert_eq|]. by rewrite Hscr.
Qed.

Lemma clear_all_data_idle (w : World num) :
  session_state w !! "confirm_clear" = None ->
  clear_all_data w =
    Some (false,
          MkWorld (heap w) (files w) (<["confirm_clear" := true]> (session_state w))
                  (screen w ++ [st_warning "Click again to confirm deletion."])).
Proof.
  intros Hs. unfold clear_all_data, show, session_has, session_set, bind, ret.
  cbn [session_state files heap screen].
  rewrite Hs. rewrite bool_decide_eq_false_2 by (by intros [? ?]). reflexivity.
Qed.

Lemma clear_all_data_pending (w : World num) b :
  session_state w !! "confirm_clear" = Some b ->
  clear_all_data w =
    Some (true,
          MkWorld (heap w) (delete CSV_PATH (files w))
                  (delete "confirm_clear" (session_state w))
                  ((screen w ++ [st_warning "Click again to confirm deletion."])
                     ++ [st_success "All data cleared. Refreshing..."])).
Proof.
  intros Hs. unfold clear_all_data, show, session_has, session_pop, unlink, bind, ret.
  cbn [session_state files heap screen].
  rewrite Hs. rewrite bool_decide_eq_true_2 by eauto. reflexivity.
Qed.

(** C6. The clear-all control is a two-state machine.  In [Idle] a click
    only warns and moves to [PendingConfirm]: the files and the objects are
    untouched.  In [PendingConfirm] a click deletes the file, returns to
    [Idle] and asks for a rerun, and loading then gives the empty frame. *)
Theorem clear_all_data_two_steps (w : World num) :
  match confirm_state_of w with
  | Idle =>
      exists w',
        clear_all_data w = Some (false, w')
        /\ files w' = files w
        /\ heap w' = heap w
        /\ confirm_state_of w' = PendingConfirm
  | PendingConfirm =>
      exists w',
        clear_all_data w = Some (true, w')
        /\ files w' = delete CSV_PATH (files w)
        /\ files w' !! CSV_PATH = None
        /\ confirm_state_of w' = Idle
        /\ exists l w'',
             load_expenses CSV_PATH w' = Some (l, w'') /\ heap w'' !! l = Some []
  end.
Proof.
  unfold confirm_state_of.
  destruct (session_state w !! "confirm_clear") as [b|] eqn:Hs.
  - eexists. split; [eapply clear_all_data_pending; eauto|].
    cbn [session_state files heap screen].
    split; [done|]. split; [apply lookup_delete_eq|].
    rewrite lookup_delete_eq. split; [done|].
    eexists _, _. rewrite load_expenses_run_missing by apply lookup_delete_eq.
    split; [reflexivity|]. apply lookup_insert_eq.
  - eexists. split; [eapply clear_all_data_idle; eauto|].
    cbn [session_state files heap screen].
    rewrite lookup_insert_eq. done.
Qed.

Lemma sum_from_frame (es : list (Expense num)) (acc : num) :
  sum_from acc (getitem (frame_of es) Col_amount)
  = Some (fold_left f_add (map e_amount es) acc).
Proof.
  revert acc. induction es as [|e es IH]; intros acc; [done|].
  cbn. apply IH.
Qed.

Lemma total_spent_frame (es : list (Expense num)) :
  total_spent (frame_of es) = Some (sum_amounts (map e_amount es)).
Proof. apply sum_from_frame. Qed.

End Script.

(** *** Witnesses *)

Lemma save_expenses_keeps_input_witness :
  exists w' df_to_save,
    save_expenses 1%positive CSV_PATH (world_with 1%positive (frame_of [lunch; rent]))
      = Some (tt, w')
    /\ heap w' !! 1%positive = Some (frame_of [lunch; rent])
    /\ (forall l r, heap (world_with 1%positive (frame_of [lunch; rent])) !! l = Some r ->
                    heap w' !! l = Some r)
    /\ heap (world_with 1%positive (frame_of [lunch; rent])) !! df_to_save = None
    /\ heap w' !! df_to_save =
         Some (setitem (frame_of [lunch; rent]) Col_date
                       (astype_str (getitem (frame_of [lunch; rent]) Col_date)))
    /\ files w' !! CSV_PATH =
         Some (map write_row
                   (setitem (frame_of [lunch; rent]) Col_date
                            (astype_str (getitem (frame_of [lunch; rent]) Col_date)))).
Proof.
  apply (save_expenses_keeps_input (world_with 1%positive (frame_of [lunch; rent]))
                                   1%positive CSV_PATH (frame_of [lunch; rent])).
  reflexivity.
Defined.

Lemma submitted_rejects_nonpositive_witness :
  submitted 1%positive (Date 2024 1 7) "Food" 0%Z "free lunch"
            (world_with 1%positive (frame_of [lunch]))
  = Some (1%positive,
          MkWorld (heap (world_with 1%positive (frame_of [lunch])))
                  (files (world_with 1%positive (frame_of [lunch])))
                  (session_state (world_with 1%positive (frame_of [lunch])))
                  (screen (world_with 1%positive (frame_of [lunch]))
                     ++ [st_error "Amount must be greater than 0."])).
Proof.
  apply (submitted_rejects_nonpositive (world_with 1%positive (frame_of [lunch]))
           1%positive (Date 2024 1 7) "Food" 0%Z "free lunch").
  reflexivity.
Defined.

(** ** Persistence round trip *)

Section RoundTrip.

Context {num : Type} `{PyEnv num}.

(** Whatever the parsers are, no loaded row has the note [NA] (no number
    being written [NA]): the text is read as a missing value and replaced
    by the empty string. *)
Lemma loaded_note_never_NA (store : option (list csv_row)) (r : row num) :
  (forall x : num, f_str x <> "NA") ->
  r ∈ load_spec store -> r_note r <> CStr "NA".
Proof.
  intros Hstr.
  destruct store as [table|]; cbn; [|by intros ?%elem_of_nil].
  intros (r0 & _ & Hr)%list_elem_of_omap. unfold loaded_row in Hr.
  destruct (parsed_date table r0); cbn in Hr; [|done].
  destruct (parsed_amount table r0); cbn in Hr; [|done].
  injection Hr as <-. cbn [r_note]. unfold read_cell.
  destruct (is_missing (csv_note r0)) eqn:E; [done|].
  destruct (read_csv_number _ _) as [x|]; cbn.
  - intros [= Hx]. by apply (Hstr x).
  - intros [= Hn]. rewrite Hn in E. vm_compute in E. done.
Qed.

End RoundTrip.

(** C1. Round-trip persistence fails for a valid record whose note is the
    text [NA]: saving it and loading it back gives the record with an empty
    note. *)
Theorem roundtrip_loses_NA_note :
  exists w1 l w2,
    save_expenses 1%positive CSV_PATH (world_with 1%positive (frame_of [na_note]))
      = Some (tt, w1)
    /\ load_expenses CSV_PATH w1 = Some (l, w2)
    /\ heap w2 !! l = Some (frame_of [MkExpense (Date 2024 1 5) "Food" 12%Z ""])
    /\ frame_of [MkExpense (Date 2024 1 5) "Food" 12%Z ""] <> frame_of [na_note].
Proof.
  pose proof (save_expenses_run (world_with 1%positive (frame_of [na_note]))
                1%positive CSV_PATH (frame_of [na_note]) eq_refl) as Hsave.
  cbv zeta in Hsave.
  match type of Hsave with _ = Some (_, ?w) => set (w1 := w) in * end.
  destruct (load_expenses_result w1 CSV_PATH) as (l & w2 & Hload & Hl & _).
  exists w1, l, w2. split; [exact Hsave|]. split; [exact Hload|].
  rewrite Hl. split; [|discriminate].
  unfold w1. cbn [files]. rewrite lookup_insert_eq. vm_compute. reflexivity.
Qed.

(** ** The quick filters *)

Section Filter.

Context {num : Type} `{PyEnv num}.

Lemma select_map (df : DataFrame num) (f : row num -> bool) :
  select df (map f df) = List.filter f df.
Proof.
  unfold select. induction df as [|r df IH]; [done|].
  cbn [map zip zip_with List.filter]. rewrite filter_cons. cbn [snd].
  destruct (f r).
  - rewrite decide_True by done. cbn [map fst]. by rewrite IH.
  - rewrite decide_False by done. exact IH.
Qed.

Lemma select_getitem (df : DataFrame num) (c : column) (f : cell num -> bool) :
  select df (map f (getitem df c)) = List.filter (fun r => f (row_get c r)) df.
Proof. unfold getitem. rewrite map_map. apply select_map. Qed.

Lemma filter_filter_andb {X} (f g : X -> bool) (l : list X) :
  List.filter g (List.filter f l) = List.filter (fun x => f x && g x) l.
Proof.
  induction l as [|x l IH]; [done|]. cbn. destruct (f x); cbn; [|done].
  destruct (g x); by rewrite IH.
Qed.

Lemma compile_literal (p : list ascii) :
  forallb (fun c => negb (Re.special c) && negb (Ascii.eqb c Re.dot)) p = true ->
  Re.compile_chars p = Some (map Re.Lit p).
Proof.
  induction p as [|c p IH]; [done|]. cbn [forallb Re.compile_chars map].
  intros [[Hs Hd]%andb_true_iff Hp]%andb_true_iff.
  apply negb_true_iff in Hs, Hd. rewrite Hd, Hs, (IH Hp). done.
Qed.

Lemma match_here_literal (p s : list ascii) :
  Re.match_here (map Re.Lit p) s = PyStr.startswith p s.
Proof.
  revert s. induction p as [|a p IH]; intros [|b s]; cbn; try done.
  rewrite IH. by destruct (Ascii.eqb a b).
Qed.

Lemma search_literal (p s : list ascii) :
  Re.search_chars (map Re.Lit p) s = PyStr.contains_chars p s.
Proof.
  induction s as [|b s IH]; cbn [Re.search_chars PyStr.contains_chars];
    rewrite match_here_literal; [done|]. by rewrite IH.
Qed.

(** X16. For a keyword of ordinary characters the two filters are the
    specification's: exact category unless "All", and the stripped keyword
    as a case-insensitive substring of the note unless it is empty. *)
Lemma filtered_literal_keyword (df : DataFrame num)
      (selected_category search_note : string) :
  literal (PyStr.lower (PyStr.strip search_note)) = true ->
  filtered df selected_category search_note
  = Some (filter_spec df selected_category search_note).
Proof.
  intros Hlit. unfold filtered, filter_spec.
  set (by_cat := if negb (String.eqb selected_category "All") then _ else df).
  assert (Hcat : by_cat = List.filter (category_matches selected_category) df).
  { unfold by_cat, category_matches.
    destruct (String.eqb selected_category "All"); cbn.
    - clear. induction df as [|r df IH]; [done|]. cbn. by rewrite <- IH.
    - apply select_getitem. }
  rewrite Hcat.
  unfold note_matches.
  destruct (PyStr.truthy (PyStr.strip search_note)); cbn.
  - unfold Re.compile. rewrite (compile_literal _ Hlit). cbn.
    rewrite select_getitem, filter_filter_andb. f_equal.
    apply filter_ext. intros r. f_equal. cbn.
    destruct (r_note r); cbn; try done.
    unfold Re.search, PyStr.contains. apply search_literal.
  - f_equal. apply filter_ext. intros r. by rewrite andb_true_r.
Qed.

End Filter.

(** C2. The note filter treats the keyword as a regular expression, not as
    a substring: with the keyword [.] the record with the note [lunch] is
    kept, although [.] does not occur in that note, and the specification's
    filter keeps nothing. *)
Theorem filtered_keyword_is_a_pattern :
  filtered (frame_of [lunch]) "All" "." = Some (frame_of [lunch])
  /\ PyStr.contains (PyStr.lower (PyStr.strip ".")) (PyStr.lower "lunch") = false
  /\ filter_spec (frame_of [lunch]) "All" "." = [].
Proof. vm_compute. done. Qed.

(* ===================================================================== *)
(** ** numpy's sort returns a sorted permutation *)
(* ===================================================================== *)

(** The comparison is assumed to be a strict weak order: irreflexive,
    transitive, and with a transitive "not less than". *)

Local Open Scope list_scope.
Section SortFacts.

Context {A : Type}.
Variable lt : A -> A -> bool.

Hypothesis lt_irrefl : forall x, lt x x = false.
Hypothesis lt_trans : forall x y z, lt x y = true -> lt y z = true -> lt x z = true.
Hypothesis lt_ntrans :
  forall x y z, lt x y = false -> lt y z = false -> lt x z = false.

Local Abbreviation le := (Npysort.le lt).
Local Abbreviation descending := (Npysort.descending lt).
Local Abbreviation heap_from := (Npysort.heap_from lt).
Local Abbreviation heap_except := (Npysort.heap_except lt).


Lemma lt_asym x y : lt x y = true -> lt y x = false.
Proof.
  intros Hxy. destruct (lt y x) eqn:Hyx; [|done].
  pose proof (lt_trans _ _ _ Hxy Hyx) as Hxx. by rewrite lt_irrefl in Hxx.
Qed.

Lemma le_refl x : le x x.
Proof. apply lt_irrefl. Qed.

Lemma le_trans x y z : le x y -> le y z -> le x z.
Proof. unfold Npysort.le. intros Hxy Hyz. eapply lt_ntrans; eauto. Qed.

Lemma lt_le x y : lt x y = true -> le x y.
Proof. apply lt_asym. Qed.

Lemma le_total x y : le x y \/ le y x.
Proof. unfold Npysort.le. destruct (lt y x) eqn:E; [right; by apply lt_asym|by left]. Qed.

Lemma elem_of_rev (x : A) (l : list A) : x ∈ rev l <-> x ∈ l.
Proof. rewrite !list_elem_of_In. symmetry. apply in_rev. Qed.

(** *** Swaps *)

Lemma insert_head_Permutation (a : list A) (j : nat) (x y : A) :
  a !! j = Some y -> y :: <[j := x]> a ≡ₚ x :: a.
Proof.
  revert j. induction a as [|z a IH]; intros [|j] Hj; simplify_eq/=.
  - apply perm_swap.
  - rewrite (perm_swap z y). rewrite (IH j Hj). apply perm_swap.
Qed.

Lemma swap_Permutation (a : list A) (i j : nat) : Npysort.swap a i j ≡ₚ a.
Proof.
  unfold Npysort.swap.
  destruct (a !! i) as [x|] eqn:Hi; [|done].
  destruct (a !! j) as [y|] eqn:Hj; [|done].
  revert i j Hi Hj. induction a as [|z a IH]; intros [|i] [|j] Hi Hj; simplify_eq/=.
  - done.
  - by apply insert_head_Permutation.
  - by apply insert_head_Permutation.
  - f_equiv. by apply IH.
Qed.

Lemma swap_length (a : list A) (i j : nat) :
  length (Npysort.swap a i j) = length a.
Proof.
  unfold Npysort.swap. destruct (a !! i), (a !! j); try done.
  by rewrite !length_insert.
Qed.

Lemma swap_lookup (a : list A) (i j : nat) (x y : A) :
  a !! i = Some x -> a !! j = Some y ->
  Npysort.swap a i j !! i = Some y
  /\ Npysort.swap a i j !! j = Some x
  /\ forall k, k <> i -> k <> j -> Npysort.swap a i j !! k = a !! k.
Proof.
  intros Hi Hj. unfold Npysort.swap. rewrite Hi, Hj.
  pose proof (lookup_lt_Some _ _ _ Hi). pose proof (lookup_lt_Some _ _ _ Hj).
  destruct (decide (i = j)) as [->|Hne].
  - simplify_eq. rewrite list_lookup_insert_eq by (by rewrite length_insert).
    repeat split; try done.
    intros k Hk _. by rewrite !list_lookup_insert_ne.
  - split; [|split].
    + rewrite list_lookup_insert_ne by done. by rewrite list_lookup_insert_eq.
    + rewrite list_lookup_insert_eq; [done|by rewrite length_insert].
    + intros k Hki Hkj. by rewrite !list_lookup_insert_ne.
Qed.

(** *** Insertion sort *)

Lemma insert_from_right_Permutation (vi : A) (rp : list A) :
  Npysort.insert_from_right lt vi rp ≡ₚ vi :: rp.
Proof.
  induction rp as [|y rp IH]; [done|]. cbn.
  destruct (lt vi y); [|done]. rewrite IH. apply perm_swap.
Qed.

Lemma insertion_fold_Permutation (a rp : list A) :
  fold_left (fun rp vi => Npysort.insert_from_right lt vi rp) a rp ≡ₚ a ++ rp.
Proof.
  revert rp. induction a as [|x a IH]; intros rp; [done|]. cbn.
  rewrite IH, insert_from_right_Permutation. by rewrite Permutation_middle.
Qed.

Lemma insertion_sort_Permutation (a : list A) : Npysort.insertion_sort lt a ≡ₚ a.
Proof.
  unfold Npysort.insertion_sort. rewrite <- Permutation_rev.
  rewrite insertion_fold_Permutation. by rewrite app_nil_r.
Qed.


Lemma insert_from_right_descending (vi : A) (rp : list A) :
  descending rp -> descending (Npysort.insert_from_right lt vi rp).
Proof.
  unfold Npysort.descending. induction rp as [|y rp IH]; intros Hs.
  - repeat constructor.
  - cbn. inversion_clear Hs as [|? ? Hrp Hy].
    destruct (lt vi y) eqn:E.
    + constructor; [by apply IH|].
      rewrite insert_from_right_Permutation. constructor; [by apply lt_le|done].
    + constructor; [by constructor|]. constructor; [exact E|].
      eapply Forall_impl; [exact Hy|]. intros z Hz. cbn in *.
      eapply le_trans; [exact Hz|exact E].
Qed.

Lemma descending_rev (l : list A) : descending l -> StronglySorted le (rev l).
Proof.
  unfold Npysort.descending. induction 1 as [|x l Hl IH Hx]; cbn; [constructor|].
  apply StronglySorted_app_2; [|done|repeat constructor].
  intros y z Hy ->%list_elem_of_singleton.
  apply (proj1 (elem_of_rev _ _)) in Hy.
  rewrite Forall_forall in Hx. by apply Hx.
Qed.

Lemma insertion_sort_sorted (a : list A) :
  StronglySorted le (Npysort.insertion_sort lt a).
Proof.
  unfold Npysort.insertion_sort. apply descending_rev.
  generalize (@nil A) (SSorted_nil (fun x y : A => le y x)).
  induction a as [|x a IH]; intros rp Hrp; [done|]. cbn.
  apply IH. by apply insert_from_right_descending.
Qed.

(** Insertion sort is stable: the elements of one class of equivalent
    elements (no one less than another) keep their order. *)
Lemma insert_from_right_stable (P : A -> bool) (vi : A) (rp : list A) :
  (forall x y, P x = true -> P y = true -> lt x y = false) ->
  List.filter P (rev (Npysort.insert_from_right lt vi rp))
  = List.filter P (rev rp ++ [vi]).
Proof.
  intros HP. induction rp as [|y rp IH]; [done|]. cbn.
  destruct (lt vi y) eqn:E; [|done]. cbn.
  rewrite !List.filter_app, IH, !List.filter_app. cbn.
  rewrite <- !app_assoc. f_equal.
  destruct (P vi) eqn:Hvi, (P y) eqn:Hy; try done.
  by rewrite (HP _ _ Hvi Hy) in E.
Qed.

Lemma insertion_sort_stable (P : A -> bool) (a : list A) :
  (forall x y, P x = true -> P y = true -> lt x y = false) ->
  List.filter P (Npysort.insertion_sort lt a) = List.filter P a.
Proof.
  intros HP. unfold Npysort.insertion_sort.
  enough (Hgen : forall rp,
             List.filter P (rev (fold_left (fun rp vi => Npysort.insert_from_right lt vi rp) a rp))
             = List.filter P (rev rp ++ a)) by apply (Hgen []).
  induction a as [|x a IH]; intros rp; cbn; [by rewrite app_nil_r|].
  rewrite IH, !List.filter_app, insert_from_right_stable by done.
  rewrite List.filter_app. cbn. rewrite <- app_assoc. f_equal.
  by destruct (P x).
Qed.


(** *** The partition step *)

Lemma rev_lookup (l : list A) (i : nat) :
  i < length l -> rev l !! i = l !! (length l - S i).
Proof. intros Hi. rewrite rev_alt. by apply reverse_lookup. Qed.

Lemma skip_while_spec (p : A -> bool) (l : list A) :
  (forall i x, i < Npysort.skip_while p l -> l !! i = Some x -> p x = true)
  /\ (forall x, l !! Npysort.skip_while p l = Some x -> p x = false)
  /\ Npysort.skip_while p l <= length l.
Proof.
  induction l as [|y l (IH1 & IH2 & IH3)]; cbn.
  - split; [intros; lia|]. split; [done|lia].
  - destruct (p y) eqn:E; cbn.
    + split; [|split].
      * intros [|i] x Hi Hx; simplify_eq/=; [done|]. eapply IH1; [|done]. lia.
      * exact IH2.
      * lia.
    + split; [intros; lia|]. split; [|lia]. by intros x [= <-].
Qed.

Lemma skip_while_stops (p : A -> bool) (l : list A) (m : nat) (x : A) :
  l !! m = Some x -> p x = false -> Npysort.skip_while p l <= m.
Proof.
  intros Hm Hx. destruct (skip_while_spec p l) as (H1 & _ & _).
  destruct (decide (Npysort.skip_while p l <= m)); [done|].
  rewrite (H1 m x) in Hx; [done|lia|done].
Qed.

Lemma scan_up_spec (a : list A) (vp : A) (pi pj : nat) (y : A) :
  pi < pj -> a !! pj = Some y -> lt y vp = false ->
  pi < Npysort.scan_up lt a vp pi <= pj
  /\ (forall k x, pi < k < Npysort.scan_up lt a vp pi -> a !! k = Some x ->
                  lt x vp = true)
  /\ (exists x, a !! Npysort.scan_up lt a vp pi = Some x /\ lt x vp = false).
Proof.
  intros Hlt Hpj Hy. unfold Npysort.scan_up.
  set (p := fun x => lt x vp). set (l := drop (S pi) a).
  destruct (skip_while_spec p l) as (H1 & H2 & _).
  assert (Hstop : Npysort.skip_while p l <= pj - S pi).
  { apply (skip_while_stops p l _ y); [|done].
    unfold l. rewrite lookup_drop. rewrite <- Hpj. f_equal. lia. }
  split; [lia|]. split.
  - intros k x Hk Hx. apply (H1 (k - S pi)); [lia|].
    unfold l. rewrite lookup_drop. rewrite <- Hx. f_equal. lia.
  - pose proof (lookup_lt_Some _ _ _ Hpj) as Hlen.
    destruct (lookup_lt_is_Some_2 a (S pi + Npysort.skip_while p l)) as [x Hx]; [lia|].
    exists x. split; [done|]. apply H2. unfold l. by rewrite lookup_drop.
Qed.

Lemma scan_down_spec (a : list A) (vp : A) (pi pj : nat) (y : A) :
  pi < pj -> pj <= length a -> a !! pi = Some y -> lt vp y = false ->
  pi <= Npysort.scan_down lt a vp pj < pj
  /\ (forall k x, Npysort.scan_down lt a vp pj < k < pj -> a !! k = Some x ->
                  lt vp x = true)
  /\ (exists x, a !! Npysort.scan_down lt a vp pj = Some x /\ lt vp x = false).
Proof.
  intros Hlt Hlen Hpi Hy. unfold Npysort.scan_down.
  set (p := fun x => lt vp x). set (l := rev (take pj a)).
  assert (Hl : length (take pj a) = pj) by (by apply length_take_le).
  assert (Hlook : forall i, i < pj -> l !! i = a !! (pj - S i)).
  { intros i Hi. unfold l. rewrite rev_lookup by lia. rewrite Hl.
    apply lookup_take_lt. lia. }
  destruct (skip_while_spec p l) as (H1 & H2 & _).
  assert (Hstop : Npysort.skip_while p l <= pj - S pi).
  { apply (skip_while_stops p l _ y); [|done].
    rewrite Hlook by lia. rewrite <- Hpi. f_equal. lia. }
  split; [lia|]. split.
  - intros k x Hk Hx. apply (H1 (pj - S k)); [lia|].
    rewrite Hlook by lia. rewrite <- Hx. f_equal. lia.
  - destruct (lookup_lt_is_Some_2 a (pj - 1 - Npysort.skip_while p l)) as [x Hx]; [lia|].
    exists x. split; [done|]. apply H2.
    rewrite Hlook by lia. rewrite <- Hx. f_equal. lia.
Qed.

Lemma partition_loop_S (fuel : nat) (a : list A) (vp : A) (pi pj : nat) :
  Npysort.partition_loop lt (S fuel) a vp pi pj =
    if Npysort.scan_down lt a vp pj <=? Npysort.scan_up lt a vp pi
    then (a, Npysort.scan_up lt a vp pi)
    else Npysort.partition_loop lt fuel
           (Npysort.swap a (Npysort.scan_up lt a vp pi) (Npysort.scan_down lt a vp pj))
           vp (Npysort.scan_up lt a vp pi) (Npysort.scan_down lt a vp pj).
Proof. reflexivity. Qed.

(** The loop of the partition, from a state in which everything up to [pi]
    is not greater than the pivot and everything from [pj] on is not less. *)
Lemma partition_loop_spec (fuel : nat) (a : list A) (vp : A) (pi pj : nat) :
  pj - pi < fuel -> pi < pj -> pj < length a ->
  (forall k x, k <= pi -> a !! k = Some x -> lt vp x = false) ->
  (forall k x, pj <= k -> a !! k = Some x -> lt x vp = false) ->
  forall a' pi', Npysort.partition_loop lt fuel a vp pi pj = (a', pi') ->
    a' ≡ₚ a /\ length a' = length a /\ pi < pi' <= pj
    /\ (forall k, pj <= k -> a' !! k = a !! k)
    /\ (forall k x, k < pi' -> a' !! k = Some x -> lt vp x = false)
    /\ (forall k x, pi' <= k -> a' !! k = Some x -> lt x vp = false).
Proof.
  revert a pi pj. induction fuel as [|fuel IH]; intros a pi pj Hfuel Hlt Hlen Hlo Hhi a' pi' Hrun;
    [lia|].
  rewrite partition_loop_S in Hrun.
  destruct (lookup_lt_is_Some_2 a pj Hlen) as [y Hy].
  destruct (lookup_lt_is_Some_2 a pi ltac:(lia)) as [z Hz].
  destruct (scan_up_spec a vp pi pj y Hlt Hy (Hhi pj y ltac:(lia) Hy))
    as (Hu1 & Hu2 & xu & Hxu & Hu3).
  destruct (scan_down_spec a vp pi pj z Hlt ltac:(lia) Hz (Hlo pi z ltac:(lia) Hz))
    as (Hd1 & Hd2 & xd & Hxd & Hd3).
  set (qi := Npysort.scan_up lt a vp pi) in *.
  set (qj := Npysort.scan_down lt a vp pj) in *.
  destruct (qj <=? qi) eqn:Hcmp.
  - apply Nat.leb_le in Hcmp. injection Hrun as <- <-.
    split; [done|]. split; [done|]. split; [lia|]. split; [done|]. split.
    + intros k x Hk Hx. destruct (decide (k <= pi)); [by eapply Hlo|].
      apply lt_asym. apply (Hu2 k x); [lia|done].
    + intros k x Hk Hx. destruct (decide (pj <= k)); [by eapply Hhi|].
      destruct (decide (k = qi)) as [->|]; [by simplify_eq|].
      apply lt_asym. apply (Hd2 k x); [lia|done].
  - apply Nat.leb_gt in Hcmp.
    destruct (swap_lookup a qi qj xu xd Hxu Hxd) as (Hs1 & Hs2 & Hs3).
    apply IH in Hrun; [| lia | lia | rewrite swap_length; lia | |].
    + destruct Hrun as (Hp & Hl & Hr & Hsame & Hlo' & Hhi').
      split; [by rewrite Hp, swap_Permutation|].
      split; [by rewrite Hl, swap_length|].
      split; [lia|].
      split; [intros k Hk; rewrite Hsame by lia; apply Hs3; lia|].
      done.
    + intros k x Hk Hx. destruct (decide (k = qi)) as [->|Hne].
      * by simplify_eq.
      * rewrite Hs3 in Hx by lia.
        destruct (decide (k <= pi)); [by eapply Hlo|].
        apply lt_asym. apply (Hu2 k x); [lia|done].
    + intros k x Hk Hx. destruct (decide (k = qj)) as [->|Hne].
      * by simplify_eq.
      * rewrite Hs3 in Hx by lia.
        destruct (decide (pj <= k)); [by eapply Hhi|].
        apply lt_asym. apply (Hd2 k x); [lia|done].
Qed.

Lemma swap_if_less_spec (a : list A) (i j : nat) (x y : A) :
  i <> j -> a !! i = Some x -> a !! j = Some y ->
  exists x' y',
    Npysort.swap_if_less lt a i j !! i = Some x'
    /\ Npysort.swap_if_less lt a i j !! j = Some y'
    /\ lt x' y' = false
    /\ ((x' = x /\ y' = y) \/ (x' = y /\ y' = x /\ lt x y = true))
    /\ (forall k, k <> i -> k <> j -> Npysort.swap_if_less lt a i j !! k = a !! k)
    /\ Npysort.swap_if_less lt a i j ≡ₚ a
    /\ length (Npysort.swap_if_less lt a i j) = length a.
Proof.
  intros Hne Hi Hj. unfold Npysort.swap_if_less. rewrite Hi, Hj.
  destruct (lt x y) eqn:E.
  - destruct (swap_lookup a i j x y Hi Hj) as (H1 & H2 & H3).
    exists y, x. repeat split; try done.
    + by apply lt_asym.
    + right. done.
    + apply swap_Permutation.
    + apply swap_length.
  - exists x, y. repeat split; try done. by left.
Qed.

(** One partition step on a segment of at least three elements: the pivot
    ends at [pi], nothing before it is greater, nothing after it is less. *)
Lemma partition_spec (a : list A) :
  3 <= length a ->
  forall a' pi, Npysort.partition lt a = (a', pi) ->
    a' ≡ₚ a /\ pi < length a
    /\ exists p, a' !! pi = Some p
         /\ Forall (fun x => le x p) (take pi a')
         /\ Forall (fun x => le p x) (drop (S pi) a').
Proof.
  intros Hlen a' pi. unfold Npysort.partition.
  set (pr := length a - 1). set (pm := Nat.div2 pr).
  assert (Hpm : 0 < pm < pr).
  { unfold pm. rewrite Nat.div2_div.
    pose proof (Nat.div_mod_eq pr 2). pose proof (Nat.mod_upper_bound pr 2).
    unfold pr in *. lia. }
  destruct (lookup_lt_is_Some_2 a 0 ltac:(lia)) as [x0 Hx0].
  destruct (lookup_lt_is_Some_2 a pm ltac:(lia)) as [xm Hxm].
  destruct (lookup_lt_is_Some_2 a pr ltac:(lia)) as [xr Hxr].
  (* first conditional swap *)
  destruct (swap_if_less_spec a pm 0 xm x0 ltac:(lia) Hxm Hx0)
    as (m1 & l1 & Hm1 & Hl1 & Hc1 & Hw1 & Ho1 & Hp1 & Hn1).
  set (a1 := Npysort.swap_if_less lt a pm 0) in *.
  assert (Hr1 : a1 !! pr = Some xr) by (rewrite Ho1 by lia; done).
  (* second *)
  destruct (swap_if_less_spec a1 pr pm xr m1 ltac:(lia) Hr1 Hm1)
    as (r2 & m2 & Hr2 & Hm2 & Hc2 & Hw2 & Ho2 & Hp2 & Hn2).
  set (a2 := Npysort.swap_if_less lt a1 pr pm) in *.
  assert (Hl2 : a2 !! 0 = Some l1) by (rewrite Ho2 by lia; done).
  (* third *)
  destruct (swap_if_less_spec a2 pm 0 m2 l1 ltac:(lia) Hm2 Hl2)
    as (m3 & l3 & Hm3 & Hl3 & Hc3 & Hw3 & Ho3 & Hp3 & Hn3).
  set (a3 := Npysort.swap_if_less lt a2 pm 0) in *.
  assert (Hr3 : a3 !! pr = Some r2) by (rewrite Ho3 by lia; done).
  assert (Hmr : lt r2 m3 = false).
  { destruct Hw3 as [[-> ->]|(-> & -> & Hsw)]; [done|].
    destruct Hw2 as [[-> ->]|(-> & -> & Hsw2)]; [by rewrite Hc1 in Hsw|].
    done. }
  rewrite Hm3.
  destruct (lookup_lt_is_Some_2 a3 (pr - 1) ltac:(lia)) as [xq Hxq].
  destruct (swap_lookup a3 pm (pr - 1) m3 xq Hm3 Hxq) as (Hs1 & Hs2 & Hs3).
  set (a4 := Npysort.swap a3 pm (pr - 1)) in *.
  assert (Hlen4 : length a4 = length a).
  { unfold a4. rewrite swap_length. lia. }
  destruct (Npysort.partition_loop lt (length a4) a4 m3 0 (pr - 1)) as [a5 qi] eqn:Hloop.
  intros [= <- <-].
  assert (H0 : a4 !! 0 = Some l3).
  { destruct (decide (pr - 1 = 0)); [lia|]. rewrite Hs3 by lia. done. }
  assert (Hr4 : a4 !! pr = Some r2).
  { rewrite Hs3 by lia. done. }
  eapply partition_loop_spec in Hloop; [| lia | lia | lia | |].
  2:{ intros k x Hk Hx. assert (k = 0) as -> by lia. by simplify_eq. }
  2:{ intros k x Hk Hx. pose proof (lookup_lt_Some _ _ _ Hx).
      assert (k = pr - 1 \/ k = pr) as [->| ->] by (unfold pr in *; lia).
      - by simplify_eq.
      - by simplify_eq. }
  destruct Hloop as (Hp5 & Hl5 & Hqi & Hsame & Hlo & Hhi).
  assert (Hpiv : a5 !! (pr - 1) = Some m3) by (rewrite Hsame by lia; done).
  destruct (lookup_lt_is_Some_2 a5 qi ltac:(lia)) as [xi Hxi].
  destruct (swap_lookup a5 qi (pr - 1) xi m3 Hxi Hpiv) as (Ht1 & Ht2 & Ht3).
  split.
  { rewrite swap_Permutation, Hp5. unfold a4. rewrite swap_Permutation.
    by rewrite Hp3, Hp2, Hp1. }
  split; [unfold pr in *; lia|].
  exists m3. split; [done|]. split.
  - apply Forall_forall. intros x (k & Hk & Hkq)%elem_of_take.
    rewrite Ht3 in Hk by lia. by eapply Hlo.
  - apply Forall_forall. intros x (k & Hk)%list_elem_of_lookup.
    rewrite lookup_drop in Hk.
    destruct (decide (S qi + k = pr - 1)) as [Heq|Hne].
    + rewrite Heq in Hk. simplify_eq. by eapply (Hhi qi).
    + rewrite Ht3 in Hk by lia. eapply (Hhi (S qi + k)); [lia|done].
Qed.


(** *** Heapsort *)



Lemma heap_set_lookup_eq (a : list A) (i : nat) (x : A) :
  1 <= i <= length a -> Npysort.heap_set a i x !! (i - 1) = Some x.
Proof. intros Hi. unfold Npysort.heap_set. apply list_lookup_insert_eq. lia. Qed.

Lemma heap_set_lookup_ne (a : list A) (i k : nat) (x : A) :
  1 <= i -> 1 <= k -> k <> i ->
  Npysort.heap_set a i x !! (k - 1) = a !! (k - 1).
Proof. intros Hi Hk Hne. unfold Npysort.heap_set. apply list_lookup_insert_ne. lia. Qed.

Lemma heap_get_lookup (a : list A) (k : nat) (d x : A) :
  a !! (k - 1) = Some x -> Npysort.heap_get a k d = x.
Proof. intros Hk. unfold Npysort.heap_get. by rewrite Hk. Qed.

(** Placing [tmp] in the hole gives a heap when [tmp] is not less than the
    children of the hole. *)
Lemma heap_from_fill (a : list A) (tmp : A) (l i n : nat) :
  1 <= l <= i -> i <= length a ->
  heap_except a tmp l i n ->
  (forall c y, c = 2 * i \/ c = 2 * i + 1 -> c <= n -> a !! (c - 1) = Some y ->
               lt tmp y = false) ->
  heap_from (Npysort.heap_set a i tmp) l n.
Proof.
  intros Hl Hi [Ha Hb] Hch k c x y Hk Hc Hcn Hx Hy.
  destruct (decide (k = i)) as [->|Hki].
  - rewrite heap_set_lookup_eq in Hx by lia. simplify_eq.
    rewrite heap_set_lookup_ne in Hy by lia. by eapply Hch.
  - rewrite heap_set_lookup_ne in Hx by lia.
    destruct (decide (c = i)) as [->|Hci].
    + rewrite heap_set_lookup_eq in Hy by lia. simplify_eq.
      by apply (Hb k x Hk Hc Hx).
    + rewrite heap_set_lookup_ne in Hy by lia. by eapply (Ha k c).
Qed.

Lemma sift_down_S (fuel : nat) (a : list A) (tmp : A) (i n : nat) :
  Npysort.sift_down lt (S fuel) a tmp i n =
    if n <? 2 * i then Npysort.heap_set a i tmp
    else
      let j := if (2 * i <? n)
                  && lt (Npysort.heap_get a (2 * i) tmp)
                        (Npysort.heap_get a (S (2 * i)) tmp)
               then S (2 * i) else 2 * i in
      if lt tmp (Npysort.heap_get a j tmp)
      then Npysort.sift_down lt fuel
             (Npysort.heap_set a i (Npysort.heap_get a j tmp)) tmp j n
      else Npysort.heap_set a i tmp.
Proof. reflexivity. Qed.

Lemma sift_down_spec (fuel : nat) (a : list A) (tmp : A) (l i n : nat) :
  1 <= l <= i -> i <= n -> n <= length a -> n - i < fuel ->
  heap_except a tmp l i n ->
  Npysort.sift_down lt fuel a tmp i n ≡ₚ Npysort.heap_set a i tmp
  /\ length (Npysort.sift_down lt fuel a tmp i n) = length a
  /\ (forall p, p + 1 < i \/ n <= p ->
        Npysort.sift_down lt fuel a tmp i n !! p = Npysort.heap_set a i tmp !! p)
  /\ heap_from (Npysort.sift_down lt fuel a tmp i n) l n.
Proof.
  revert a i. induction fuel as [|fuel IH]; intros a i Hl Hin Hn Hfuel Hex; [lia|].
  rewrite sift_down_S.
  destruct (n <? 2 * i) eqn:Hleaf.
  { apply Nat.ltb_lt in Hleaf.
    split; [done|]. split; [apply length_insert|]. split; [done|].
    apply heap_from_fill; [lia|lia|done|]. intros c y Hc Hcn. lia. }
  apply Nat.ltb_ge in Hleaf.
  set (j0 := 2 * i) in *.
  destruct (lookup_lt_is_Some_2 a (j0 - 1) ltac:(lia)) as [v0 Hv0].
  (* the greater child [j], its value [vj], and the fact about the other child *)
  assert (exists j vj,
             (if (j0 <? n) && lt (Npysort.heap_get a j0 tmp)
                                 (Npysort.heap_get a (S j0) tmp)
              then S j0 else j0) = j
             /\ (j = j0 \/ j = j0 + 1) /\ j <= n
             /\ a !! (j - 1) = Some vj
             /\ forall c y, c = j0 \/ c = j0 + 1 -> c <= n ->
                  a !! (c - 1) = Some y -> lt vj y = false)
    as (j & vj & -> & Hj & Hjn & Hvj & Hother).
  { destruct (j0 <? n) eqn:Hlt; cbn [andb].
    - apply Nat.ltb_lt in Hlt.
      destruct (lookup_lt_is_Some_2 a (S j0 - 1) ltac:(lia)) as [v1 Hv1].
      rewrite (heap_get_lookup a j0 tmp v0 Hv0), (heap_get_lookup a (S j0) tmp v1 Hv1).
      destruct (lt v0 v1) eqn:E.
      + exists (S j0), v1. split; [done|]. split; [lia|]. split; [lia|].
        split; [done|]. intros c y [->| ->] _ Hy.
        * simplify_eq. by apply lt_asym.
        * replace (j0 + 1 - 1) with (S j0 - 1) in Hy by lia. simplify_eq.
          apply lt_irrefl.
      + exists j0, v0. split; [done|]. split; [lia|]. split; [lia|].
        split; [done|]. intros c y [->| ->] _ Hy.
        * simplify_eq. apply lt_irrefl.
        * replace (j0 + 1 - 1) with (S j0 - 1) in Hy by lia. by simplify_eq.
    - apply Nat.ltb_ge in Hlt.
      exists j0, v0. split; [done|]. split; [lia|]. split; [lia|].
      split; [done|]. intros c y [->| ->] Hcn Hy; [|lia].
      simplify_eq. apply lt_irrefl. }
  cbv zeta. rewrite (heap_get_lookup a j tmp vj Hvj).
  destruct (lt tmp vj) eqn:Hcmp.
  - (* the child moves up, the hole moves down *)
    set (a' := Npysort.heap_set a i vj).
    assert (Hlen' : length a' = length a) by apply length_insert.
    assert (Hex' : heap_except a' tmp l j n).
    { destruct Hex as [Ha Hb]. split.
      - intros k c x y Hk Hkj Hc Hcn Hcj Hx Hy.
        destruct (decide (k = i)) as [->|Hki].
        + unfold a' in Hx, Hy. rewrite heap_set_lookup_eq in Hx by lia.
          rewrite heap_set_lookup_ne in Hy by lia. simplify_eq.
          eapply Hother; [|exact Hcn|exact Hy]. unfold j0. lia.
        + unfold a' in Hx, Hy. rewrite heap_set_lookup_ne in Hx by lia.
          destruct (decide (c = i)) as [->|Hci].
          * rewrite heap_set_lookup_eq in Hy by lia. simplify_eq.
            destruct (Hb k x Hk Hc Hx) as [_ Hgrand].
            eapply (Hgrand j); [unfold j0 in *; lia|done|done].
          * rewrite heap_set_lookup_ne in Hy by lia. by eapply (Ha k c).
      - intros k x Hk Hjk Hx.
        assert (k = i) as -> by (unfold j0 in *; lia).
        unfold a' in Hx. rewrite heap_set_lookup_eq in Hx by lia. simplify_eq.
        split; [by apply lt_asym|].
        intros c y Hc Hcn Hy. unfold a' in Hy.
        rewrite heap_set_lookup_ne in Hy by (unfold j0 in *; lia).
        eapply (Ha j c); [unfold j0 in *; lia|unfold j0 in *; lia|done|done|
                          unfold j0 in *; lia|done|done]. }
    destruct (IH a' j ltac:(unfold j0 in *; lia) Hjn ltac:(lia)
                 ltac:(unfold j0 in *; lia) Hex')
      as (Hp & Hlen & Hsame & Hheap).
    split.
    { rewrite Hp. unfold a', Npysort.heap_set.
      assert (Hsw : Npysort.swap (<[i - 1 := tmp]> a) (i - 1) (j - 1)
                    = <[j - 1 := tmp]> (<[i - 1 := vj]> a)).
      { unfold Npysort.swap.
        rewrite list_lookup_insert_eq by lia.
        rewrite list_lookup_insert_ne by (unfold j0 in *; lia).
        rewrite Hvj. by rewrite list_insert_insert_eq. }
      rewrite <- Hsw. apply swap_Permutation. }
    split; [lia|]. split; [|done].
    intros p Hp'. rewrite Hsame by (unfold j0 in *; lia).
    unfold a', Npysort.heap_set.
    destruct (decide (p = i - 1)) as [->|Hpi]; [lia|].
    rewrite !list_lookup_insert_ne; [done|done|lia|unfold j0 in *; lia].
  - split; [done|]. split; [apply length_insert|]. split; [done|].
    apply heap_from_fill; [lia|lia|done|].
    intros c y Hc Hcn Hy.
    eapply lt_ntrans; [exact Hcmp|]. eapply Hother; [|exact Hcn|exact Hy].
    unfold j0. lia.
Qed.


Lemma rev_seq_S (s m : nat) : rev (seq s (S m)) = (s + m) :: rev (seq s m).
Proof. rewrite seq_S, rev_app_distr. reflexivity. Qed.

Lemma build_heap_steps (n m : nat) (a : list A) :
  2 * m <= n -> length a = n -> heap_from a (m + 1) n ->
  let r := fold_left
             (fun a l => match a !! (l - 1) with
                         | Some tmp => Npysort.sift_down lt n a tmp l n
                         | None => a
                         end)
             (rev (seq 1 m)) a in
  r ≡ₚ a /\ length r = n /\ heap_from r 1 n.
Proof.
  revert a. induction m as [|m IH]; intros a Hm Hlen Hheap; cbn zeta.
  - cbn. split; [done|]. split; [done|]. exact Hheap.
  - rewrite rev_seq_S. cbn [fold_left]. replace (1 + m) with (S m) by lia.
    destruct (lookup_lt_is_Some_2 a (S m - 1) ltac:(lia)) as [tmp Htmp].
    rewrite Htmp.
    assert (Hex : heap_except a tmp (S m) (S m) n).
    { split.
      - intros k c x y Hk Hne Hc Hcn _ Hx Hy. eapply (Hheap k c); eauto. lia.
      - intros k x Hk Hc. lia. }
    destruct (sift_down_spec n a tmp (S m) (S m) n ltac:(lia) ltac:(lia)
                             ltac:(lia) ltac:(lia) Hex)
      as (Hp & Hl & _ & Hh).
    assert (Hid : Npysort.heap_set a (S m) tmp = a).
    { unfold Npysort.heap_set. by apply list_insert_id. }
    rewrite Hid in Hp.
    destruct (IH (Npysort.sift_down lt n a tmp (S m) n)) as (Hp' & Hl' & Hh').
    + lia.
    + lia.
    + replace (m + 1) with (S m) by lia. exact Hh.
    + cbn zeta in Hp'. split; [by rewrite Hp', Hp|]. done.
Qed.

Lemma build_heap_spec (a : list A) :
  Npysort.build_heap lt a ≡ₚ a
  /\ length (Npysort.build_heap lt a) = length a
  /\ heap_from (Npysort.build_heap lt a) 1 (length a).
Proof.
  unfold Npysort.build_heap.
  apply (build_heap_steps (length a) (Nat.div2 (length a)) a).
  - rewrite Nat.div2_div. pose proof (Nat.div_mod_eq (length a) 2). lia.
  - done.
  - intros k c x y Hk Hc Hcn. rewrite Nat.div2_div in Hk.
    pose proof (Nat.div_mod_eq (length a) 2).
    pose proof (Nat.mod_upper_bound (length a) 2). lia.
Qed.

(** The root of a heap is not less than any of its elements. *)
Lemma heap_root_max (a : list A) (m : nat) (top : A) :
  heap_from a 1 m -> a !! 0 = Some top ->
  forall k x, 1 <= k <= m -> a !! (k - 1) = Some x -> lt top x = false.
Proof.
  intros Hheap Htop k. induction (lt_wf k) as [k _ IH]. intros x Hk Hx.
  destruct (decide (k = 1)) as [->|Hk1].
  - cbn in Hx. simplify_eq. apply lt_irrefl.
  - set (p := k / 2).
    pose proof (Nat.div_mod_eq k 2). pose proof (Nat.mod_upper_bound k 2).
    assert (Hp : 1 <= p < k) by (unfold p; lia).
    destruct (lookup_lt_is_Some_2 a (p - 1)) as [y Hy].
    { pose proof (lookup_lt_Some _ _ _ Hx). lia. }
    eapply lt_ntrans; [apply (IH p); [lia|lia|exact Hy]|].
    eapply (Hheap p k); [lia|unfold p; lia|lia|done|done].
Qed.

Lemma extract_steps (c : nat) (a : list A) :
  S c <= length a ->
  heap_from a 1 (S c) ->
  StronglySorted le (drop (S c) a) ->
  (forall x y, x ∈ take (S c) a -> y ∈ drop (S c) a -> le x y) ->
  let r := fold_left
             (fun a n => match a !! (n - 1), a !! 0 with
                         | Some tmp, Some top =>
                             Npysort.sift_down lt n (Npysort.heap_set a n top)
                                               tmp 1 (n - 1)
                         | _, _ => a
                         end)
             (rev (seq 2 c)) a in
  r ≡ₚ a /\ StronglySorted le r.
Proof.
  revert a. induction c as [|c IH]; intros a Hlen Hheap Hsorted Hcross; cbn zeta.
  - cbn [seq rev fold_left]. split; [done|].
    destruct a as [|x a]; [cbn in Hlen; lia|]. cbn in *.
    rewrite drop_0 in *. constructor; [done|].
    apply Forall_forall. intros y Hy. apply (Hcross x y); [|done].
    rewrite take_0. by apply list_elem_of_singleton.
  - rewrite rev_seq_S. cbn [fold_left]. set (m := 2 + c).
    destruct (lookup_lt_is_Some_2 a (m - 1) ltac:(unfold m; lia)) as [tmp Htmp].
    destruct (lookup_lt_is_Some_2 a 0 ltac:(lia)) as [top Htop].
    rewrite Htmp, Htop.
    set (a1 := Npysort.heap_set a m top).
    assert (Hlen1 : length a1 = length a) by apply length_insert.
    assert (Hex : heap_except a1 tmp 1 1 (m - 1)).
    { split.
      - intros k ch x y Hk Hne Hc Hcn _ Hx Hy. unfold a1 in Hx, Hy.
        rewrite heap_set_lookup_ne in Hx, Hy by (unfold m in *; lia).
        eapply (Hheap k ch); eauto; unfold m in *; lia.
      - intros k x Hk Hc. lia. }
    destruct (sift_down_spec m a1 tmp 1 1 (m - 1) ltac:(lia) ltac:(unfold m; lia)
                             ltac:(lia) ltac:(lia) Hex)
      as (Hp & Hl & Hsame & Hh).
    set (r1 := Npysort.sift_down lt m a1 tmp 1 (m - 1)) in *.
    assert (Hperm1 : r1 ≡ₚ a).
    { rewrite Hp. unfold a1, Npysort.heap_set.
      assert (Hsw : Npysort.swap a (m - 1) 0 = <[1 - 1 := tmp]> (<[m - 1 := top]> a)).
      { unfold Npysort.swap. by rewrite Htmp, Htop. }
      rewrite <- Hsw. apply swap_Permutation. }
    assert (Hdrop : drop (m - 1) r1 = top :: drop m a).
    { apply list_eq. intros p. rewrite lookup_drop.
      rewrite Hsame by lia. unfold a1, Npysort.heap_set.
      rewrite list_lookup_insert_ne by (unfold m; lia).
      destruct p as [|p].
      - rewrite Nat.add_0_r. rewrite list_lookup_insert_eq by lia. done.
      - rewrite list_lookup_insert_ne by lia.
        change ((top :: drop m a) !! S p) with (drop m a !! p).
        rewrite lookup_drop. f_equal. lia. }
    assert (Htake : take (m - 1) r1 ++ [top] ≡ₚ take m a).
    { apply (Permutation_app_inv_r (drop m a)).
      rewrite <- app_assoc.
      change ([top] ++ drop m a) with (top :: drop m a).
      rewrite <- Hdrop, !take_drop. exact Hperm1. }
    assert (Hmax : forall x, x ∈ take m a -> le x top).
    { intros x (k & Hk & Hkm)%elem_of_take.
      apply (heap_root_max a m top Hheap Htop (S k)); [lia|].
      cbn. by rewrite Nat.sub_0_r. }
    destruct (IH r1) as (Hp' & Hs').
    + unfold m in *. lia.
    + replace (S c) with (m - 1) by (unfold m; lia). exact Hh.
    + replace (S c) with (m - 1) by (unfold m; lia). rewrite Hdrop.
      constructor; [exact Hsorted|].
      apply Forall_forall. intros y Hy. apply Hcross; [|done].
      apply elem_of_take. exists 0. split; [done|lia].
    + replace (S c) with (m - 1) by (unfold m; lia). rewrite Hdrop.
      intros x y Hx Hy.
      assert (Hxm : x ∈ take m a).
      { rewrite <- Htake. apply elem_of_app. by left. }
      apply elem_of_cons in Hy as [->|Hy].
      * by apply Hmax.
      * by apply Hcross.
    + cbn zeta in Hp'. split; [by rewrite Hp'|done].
Qed.

Lemma heapsort_spec (a : list A) :
  Npysort.heapsort lt a ≡ₚ a /\ StronglySorted le (Npysort.heapsort lt a).
Proof.
  unfold Npysort.heapsort, Npysort.extract_all.
  destruct (build_heap_spec a) as (Hp & Hl & Hh).
  set (b := Npysort.build_heap lt a) in *.
  destruct (decide (length a = 0)) as [Hz|Hnz].
  - rewrite Hl, Hz. cbn. destruct b; [|cbn in Hl; lia].
    split; [done|constructor].
  - destruct (extract_steps (length b - 1) b) as (Hp' & Hs').
    + lia.
    + replace (S (length b - 1)) with (length a) by lia. exact Hh.
    + rewrite drop_ge by lia. constructor.
    + intros x y _. rewrite drop_ge by lia. by intros ?%elem_of_nil.
    + cbn zeta in Hp'. split; [by rewrite Hp'|done].
Qed.


(** *** The introsort *)

Lemma quicksort_segment_S (fuel : nat) (check : bool) (cdepth : Z) (a : list A) :
  Npysort.quicksort_segment lt (S fuel) check cdepth a =
    if check && (cdepth <? 0)%Z then Npysort.heapsort lt a
    else if Npysort.SMALL_QUICKSORT <? length a - 1 then
      let '(a', pi) := Npysort.partition lt a in
      let left := take pi a' in
      let right := drop (S pi) a' in
      let pivot := take 1 (drop pi a') in
      if length left <? length right
      then Npysort.quicksort_segment lt fuel false (cdepth - 1) left ++ pivot
             ++ Npysort.quicksort_segment lt fuel true (cdepth - 1) right
      else Npysort.quicksort_segment lt fuel true (cdepth - 1) left ++ pivot
             ++ Npysort.quicksort_segment lt fuel false (cdepth - 1) right
    else Npysort.insertion_sort lt a.
Proof. reflexivity. Qed.

Lemma sorted_around_pivot (l r : list A) (p : A) :
  StronglySorted le l -> StronglySorted le r ->
  Forall (fun x => le x p) l -> Forall (fun x => le p x) r ->
  StronglySorted le (l ++ [p] ++ r).
Proof.
  intros Hl Hr Hlp Hpr. rewrite Forall_forall in Hlp, Hpr.
  apply StronglySorted_app_2; [|done|].
  - intros x y Hx [->%list_elem_of_singleton|Hy]%elem_of_app; [by apply Hlp|].
    eapply le_trans; [by apply Hlp|by apply Hpr].
  - cbn. constructor; [done|]. by apply Forall_forall.
Qed.

Lemma quicksort_segment_spec (fuel : nat) (check : bool) (cdepth : Z) (a : list A) :
  length a < fuel ->
  Npysort.quicksort_segment lt fuel check cdepth a ≡ₚ a
  /\ StronglySorted le (Npysort.quicksort_segment lt fuel check cdepth a).
Proof.
  revert check cdepth a.
  induction fuel as [|fuel IH]; intros check cdepth a Hfuel; [lia|].
  rewrite quicksort_segment_S.
  destruct (check && (cdepth <? 0)%Z); [apply heapsort_spec|].
  destruct (Npysort.SMALL_QUICKSORT <? length a - 1) eqn:Hbig.
  - apply Nat.ltb_lt in Hbig. unfold Npysort.SMALL_QUICKSORT in Hbig.
    destruct (Npysort.partition lt a) as [a' pi] eqn:Hpart.
    destruct (partition_spec a ltac:(lia) a' pi Hpart)
      as (Hperm & Hpi & p & Hp & Hleft & Hright).
    pose proof (Permutation_length Hperm) as Hlen.
    assert (Hpiv : take 1 (drop pi a') = [p]).
    { rewrite (drop_S _ _ _ Hp). reflexivity. }
    cbv zeta. rewrite Hpiv.
    assert (Hl : length (take pi a') < fuel) by (rewrite length_take; lia).
    assert (Hr : length (drop (S pi) a') < fuel) by (rewrite length_drop; lia).
    assert (Hall : forall c1 c2,
               let L := Npysort.quicksort_segment lt fuel c1 (cdepth - 1) (take pi a') in
               let R := Npysort.quicksort_segment lt fuel c2 (cdepth - 1) (drop (S pi) a') in
               L ++ [p] ++ R ≡ₚ a /\ StronglySorted le (L ++ [p] ++ R)).
    { intros c1 c2.
      destruct (IH c1 (cdepth - 1)%Z _ Hl) as (HpL & HsL).
      destruct (IH c2 (cdepth - 1)%Z _ Hr) as (HpR & HsR).
      cbv zeta. split.
      - rewrite HpL, HpR. cbn. rewrite (take_drop_middle _ _ _ Hp). done.
      - apply sorted_around_pivot; [done|done| |].
        + by rewrite HpL.
        + by rewrite HpR. }
    destruct (length (take pi a') <? length (drop (S pi) a')); apply Hall.
  - split; [apply insertion_sort_Permutation|apply insertion_sort_sorted].
Qed.

(** [quicksort] returns a sorted permutation of its input. *)
Lemma quicksort_spec (a : list A) :
  Npysort.quicksort lt a ≡ₚ a /\ StronglySorted le (Npysort.quicksort lt a).
Proof. apply quicksort_segment_spec. lia. Qed.

(** Up to [SMALL_QUICKSORT + 1] elements it is the insertion sort. *)
Lemma quicksort_small (a : list A) :
  length a <= 16 -> Npysort.quicksort lt a = Npysort.insertion_sort lt a.
Proof.
  intros Hlen. unfold Npysort.quicksort. rewrite quicksort_segment_S.
  assert (Hd : (Npysort.depth_limit (length a) <? 0)%Z = false).
  { apply Z.ltb_ge. unfold Npysort.depth_limit. lia. }
  rewrite Hd. cbn [andb].
  assert (Hs : (Npysort.SMALL_QUICKSORT <? length a - 1) = false).
  { apply Nat.ltb_ge. unfold Npysort.SMALL_QUICKSORT. lia. }
  by rewrite Hs.
Qed.

End SortFacts.

(** ** Sorting the rows of a frame by a key *)

Section SortByKey.

Context {K X : Type}.
Variable klt : K -> K -> bool.
Variable key : X -> K.

Hypothesis klt_irrefl : forall x, klt x x = false.
Hypothesis klt_trans :
  forall x y z, klt x y = true -> klt y z = true -> klt x z = true.
Hypothesis klt_ntrans :
  forall x y z, klt x y = false -> klt y z = false -> klt x z = false.

Lemma take_rows_rev {Y : Type} (d : list Y) (I : list nat) :
  take_rows d (rev I) = rev (take_rows d I).
Proof.
  unfold take_rows. induction I as [|i I IH]; [done|]. cbn.
  rewrite omap_app, IH. cbn.
  destruct (d !! i); cbn; [done|by rewrite app_nil_r].
Qed.

Lemma take_rows_map {Y Z : Type} (f : Y -> Z) (d : list Y) (I : list nat) :
  take_rows (map f d) I = map f (take_rows d I).
Proof.
  unfold take_rows. induction I as [|i I IH]; [done|]. cbn.
  change (map f d !! i) with ((f <$> d) !! i). rewrite list_lookup_fmap.
  destruct (d !! i); cbn; by rewrite IH.
Qed.

Lemma take_rows_mirror {Y : Type} (d : list Y) (I : list nat) :
  Forall (fun i => i < length d) I ->
  take_rows d (take_rows (rev (seq 0 (length d))) I) = take_rows (rev d) I.
Proof.
  unfold take_rows. induction 1 as [|i I Hi _ IH]; [done|]. cbn.
  rewrite !rev_lookup by (by rewrite ?length_seq).
  rewrite length_seq, lookup_seq_lt by lia. cbn [omap list_omap].
  rewrite Nat.add_0_l.
  destruct (lookup_lt_is_Some_2 d (length d - S i) ltac:(lia)) as [x Hx].
  rewrite Hx. by rewrite IH.
Qed.

Lemma omap_zip_seq {Y : Type} (d : list Y) (ks : list K) (s : nat) :
  length ks + s = length d ->
  omap (fun p : K * nat => d !! snd p) (zip ks (seq s (length ks))) = drop s d.
Proof.
  revert s. induction ks as [|k ks IH]; intros s Hlen; cbn.
  - by rewrite drop_ge by (cbn in Hlen; lia).
  - destruct (lookup_lt_is_Some_2 d s ltac:(cbn in Hlen; lia)) as [x Hx].
    rewrite Hx. rewrite (drop_S _ _ _ Hx). f_equal. apply IH. cbn in Hlen. lia.
Qed.

(** The ascending sort of [d] by [key], as [argsort] and [take] do it. *)
Lemma sort_by_key_spec (d : list X) :
  let out := take_rows d (Npysort.argsort klt (map key d)) in
  out ≡ₚ d
  /\ StronglySorted (fun x y => klt (key y) (key x) = false) out
  /\ Forall (fun i => i < length d) (Npysort.argsort klt (map key d))
  /\ (length d <= 16 ->
      forall P : K -> bool,
        (forall k1 k2, P k1 = true -> P k2 = true -> klt k1 k2 = false) ->
        List.filter (fun x => P (key x)) out = List.filter (fun x => P (key x)) d).
Proof.
  cbv zeta. unfold Npysort.argsort, take_rows.
  set (lt' := fun x y : K * nat => klt (fst x) (fst y)).
  set (Z := zip (map key d) (seq 0 (length (map key d)))).
  set (g := fun p : K * nat => d !! snd p).
  assert (Hlt1 : forall x, lt' x x = false) by (intros; apply klt_irrefl).
  assert (Hlt2 : forall x y z, lt' x y = true -> lt' y z = true -> lt' x z = true)
    by (intros ? ? ?; apply klt_trans).
  assert (Hlt3 : forall x y z, lt' x y = false -> lt' y z = false -> lt' x z = false)
    by (intros ? ? ?; apply klt_ntrans).
  destruct (quicksort_spec lt' Hlt1 Hlt2 Hlt3 Z) as (Hperm & Hsorted).
  set (q := Npysort.quicksort lt' Z) in *.
  assert (Hg : omap g Z = d).
  { unfold g, Z. rewrite (omap_zip_seq d (map key d) 0); [apply drop_0|].
    rewrite length_map. lia. }
  assert (HZ : forall p, p ∈ Z -> exists x, g p = Some x /\ key x = fst p
                                      /\ snd p < length d).
  { intros [k i] (j & Hj)%list_elem_of_lookup. unfold Z in Hj.
    apply lookup_zip_Some in Hj as [Hk Hi].
    apply lookup_seq in Hi as [-> Hi]. rewrite length_map in Hi.
    change (map key d) with (key <$> d) in Hk. rewrite list_lookup_fmap in Hk.
    destruct (d !! j) as [x|] eqn:Hx; [|done]. cbn in Hk. simplify_eq.
    exists x. by rewrite Nat.add_0_l. }
  assert (Hq : forall p, p ∈ q -> exists x, g p = Some x /\ key x = fst p
                                      /\ snd p < length d).
  { intros p Hp. apply HZ. by rewrite <- Hperm. }
  assert (Homap : forall l : list (K * nat), omap (fun i => d !! i) (map snd l) = omap g l).
  { induction l as [|p l IH]; [done|]. cbn. unfold g at 1. by rewrite IH. }
  rewrite Homap.
  split; [by rewrite Hperm, Hg|]. split; [|split].
  - clear Homap Hperm. induction Hsorted as [|p l Hl IH Hall]; cbn; [constructor|].
    destruct (Hq p) as (x & Hx & Hkx & _); [by left|]. rewrite Hx.
    constructor.
    + apply IH. intros p' Hp'. apply Hq. by right.
    + apply Forall_forall. intros y (p' & Hp' & Hy)%list_elem_of_omap.
      destruct (Hq p') as (y' & Hy' & Hky & _); [by right|].
      rewrite Hy in Hy'. simplify_eq.
      rewrite Forall_forall in Hall. specialize (Hall p' Hp').
      unfold Npysort.le, lt' in Hall. by rewrite Hkx, Hky.
  - apply Forall_forall. intros i (p & -> & Hp)%list_elem_of_fmap.
    by destruct (Hq p Hp) as (_ & _ & _ & ?).
  - intros Hsmall P HP.
    assert (Hfilter : forall l : list (K * nat),
               (forall p, p ∈ l -> exists x, g p = Some x /\ key x = fst p
                                        /\ snd p < length d) ->
               List.filter (fun x => P (key x)) (omap g l)
               = omap g (List.filter (fun p => P (fst p)) l)).
    { induction l as [|p l IH]; intros Hl; [done|]. cbn.
      destruct (Hl p) as (x & Hx & Hkx & _); [by left|].
      rewrite Hx. cbn. rewrite Hkx.
      destruct (P (fst p)); cbn; rewrite ?Hx, IH; try done;
        intros p' Hp'; apply Hl; by right. }
    rewrite Hfilter by done.
    unfold q. rewrite quicksort_small
      by (unfold Z; rewrite length_zip_with, ?length_map, length_seq; lia).
    rewrite (insertion_sort_stable lt' (fun p => P (fst p))).
    + rewrite <- Hfilter by done. by rewrite Hg.
    + intros p1 p2. apply HP.
Qed.

(** The descending sort of [d] by [key], as [nargsort] with
    [ascending=False] and [take] do it when no key is missing. *)
Lemma nargsort_no_missing (ascending : bool) (ks : list K) :
  nargsort klt ascending (map Some ks) =
    if ascending then take_rows (seq 0 (length ks)) (Npysort.argsort klt ks)
    else rev (take_rows (rev (seq 0 (length ks))) (Npysort.argsort klt (rev ks))).
Proof.
  unfold nargsort. rewrite length_map.
  assert (H1 : forall s, omap (fun p : option K * nat => (fun k => (k, snd p)) <$> fst p)
                  (zip (map Some ks) (seq s (length ks)))
               = zip ks (seq s (length ks))).
  { induction ks as [|k ks IH]; intros s; [done|]. cbn. by rewrite IH. }
  assert (H2 : forall s, filter (fun p : option K * nat => fst p = None)
                  (zip (map Some ks) (seq s (length ks))) = []).
  { clear H1. induction ks as [|k ks IH]; intros s; [done|].
    cbn [map length seq zip_with]. rewrite filter_cons. cbn [fst].
    rewrite decide_False by done. apply IH. }
  rewrite H1, H2. cbn [map]. rewrite app_nil_r.
  change (map fst (zip ks (seq 0 (length ks)))) with ((zip ks (seq 0 (length ks))).*1).
  change (map snd (zip ks (seq 0 (length ks)))) with ((zip ks (seq 0 (length ks))).*2).
  rewrite fst_zip, snd_zip by (rewrite length_seq; lia).
  by destruct ascending.
Qed.

Lemma sort_descending_spec (d : list X) :
  let out := take_rows d (nargsort klt false (map (fun x => Some (key x)) d)) in
  out ≡ₚ d
  /\ StronglySorted (fun x y => klt (key x) (key y) = false) out
  /\ (length d <= 16 ->
      forall P : K -> bool,
        (forall k1 k2, P k1 = true -> P k2 = true -> klt k1 k2 = false) ->
        List.filter (fun x => P (key x)) out = List.filter (fun x => P (key x)) d).
Proof.
  cbv zeta.
  assert (Hmap : map (fun x => Some (key x)) d = map Some (map key d))
    by (by rewrite map_map).
  rewrite Hmap, nargsort_no_missing, length_map.
  rewrite take_rows_rev. rewrite <- (map_rev key).
  destruct (sort_by_key_spec (rev d)) as (Hperm & Hsorted & Hrange & Hstable).
  cbv zeta in *. rewrite length_rev in *.
  rewrite take_rows_mirror by done.
  split; [|split].
  - by rewrite <- Permutation_rev, Hperm, <- Permutation_rev.
  - clear Hperm Hstable.
    induction Hsorted as [|x l Hl IH Hall]; cbn; [constructor|].
    apply StronglySorted_app_2; [|done|repeat constructor].
    intros y z Hy ->%list_elem_of_singleton.
    apply (proj1 (elem_of_rev _ _)) in Hy.
    rewrite Forall_forall in Hall. by apply Hall.
  - intros Hsmall P HP.
    rewrite filter_rev, (Hstable Hsmall P HP), <- filter_rev. by rewrite rev_involutive.
Qed.

End SortByKey.

(** ** The listing: newest first *)

Lemma date_ltb_spec (a b : date) :
  date_ltb a b = true <->
  year a < year b
  \/ (year a = year b
      /\ (month a < month b \/ (month a = month b /\ day a < day b))).
Proof.
  unfold date_ltb.
  rewrite !orb_true_iff, !andb_true_iff, !orb_true_iff, !andb_true_iff,
    !Nat.ltb_lt, !Nat.eqb_eq. tauto.
Qed.

Lemma date_ltb_irrefl (a : date) : date_ltb a a = false.
Proof. apply not_true_iff_false. rewrite date_ltb_spec. lia. Qed.

Lemma date_ltb_trans (a b c : date) :
  date_ltb a b = true -> date_ltb b c = true -> date_ltb a c = true.
Proof. rewrite !date_ltb_spec. lia. Qed.

Lemma date_ltb_ntrans (a b c : date) :
  date_ltb a b = false -> date_ltb b c = false -> date_ltb a c = false.
Proof. rewrite <- !not_true_iff_false, !date_ltb_spec. lia. Qed.

Lemma date_eqb_eq (a b : date) : date_eqb a b = true <-> a = b.
Proof.
  unfold date_eqb. rewrite !andb_true_iff, !Nat.eqb_eq.
  destruct a, b; cbn. split; [intros [[-> ->] ->]; done|intros [= -> -> ->]; done].
Qed.

Section Listing.

Context {num : Type} `{PyEnv num}.

Lemma mapM_date_key (es : list (Expense num)) :
  mapM date_key (getitem (frame_of es) Col_date)
  = Some (map (fun e => Some (e_date e)) es).
Proof.
  apply mapM_Some_2. induction es as [|e es IH]; cbn; by constructor.
Qed.

Lemma df_display_frame (es : list (Expense num)) :
  df_display (frame_of es)
  = Some (frame_of (take_rows es (nargsort date_ltb false
                                           (map (fun e => Some (e_date e)) es)))).
Proof.
  unfold df_display, sort_values_date. rewrite mapM_date_key.
  cbn [mbind option_bind]. unfold frame_of. by rewrite take_rows_map.
Qed.

Lemma filter_has_date (d : date) (es : list (Expense num)) :
  List.filter (has_date d) (frame_of es)
  = frame_of (List.filter (fun e => date_eqb (e_date e) d) es).
Proof.
  induction es as [|e es IH]; [done|].
  cbn [frame_of map List.filter] in *.
  replace (has_date d (row_of e)) with (date_eqb (e_date e) d) by reflexivity.
  unfold frame_of in IH.
  destruct (date_eqb (e_date e) d); cbn [map]; by rewrite IH.
Qed.

(** C8, as the code has it.  [df_display] holds the same records, the most
    recent date first: no record comes before one of a later date.  Records
    of equal dates keep their order when there are at most 16 records (the
    default sort is then an insertion sort). *)
Theorem df_display_newest_first (es : list (Expense num)) :
  exists out,
    df_display (frame_of es) = Some (frame_of out)
    /\ out ≡ₚ es
    /\ StronglySorted (fun x y => date_ltb (e_date x) (e_date y) = false) out
    /\ (length es <= 16 ->
        keeps_order_of_equal_dates (frame_of es) (frame_of out)).
Proof.
  eexists. split; [apply df_display_frame|].
  destruct (sort_descending_spec date_ltb (@e_date num) date_ltb_irrefl
              date_ltb_trans date_ltb_ntrans es) as (Hperm & Hsorted & Hstable).
  cbv zeta in *. split; [exact Hperm|]. split; [exact Hsorted|].
  intros Hsmall d. rewrite !filter_has_date. f_equal.
  apply (Hstable Hsmall (fun k => date_eqb k d)).
  intros k1 k2 ->%date_eqb_eq ->%date_eqb_eq. apply date_ltb_irrefl.
Qed.

End Listing.

(** C8, as stated, fails: seventeen records of one day are not listed in
    their original order. *)
Lemma df_display_not_stable :
  exists out,
    df_display (frame_of same_day_17) = Some out
    /\ map r_amount out =
         map CFloat [1; 10; 16; 15; 14; 13; 12; 11; 9; 2; 8; 7; 6; 5; 4; 3; 17]%Z
    /\ ~ keeps_order_of_equal_dates (frame_of same_day_17) out.
Proof.
  eexists. split; [vm_compute; reflexivity|]. split; [reflexivity|].
  intros Hkeep. specialize (Hkeep (Date 2024 1 5)).
  vm_compute in Hkeep. discriminate.
Qed.

(** ** The summary by category *)

(** *** The order of strings *)







(** *** The group keys: the distinct categories in ascending order *)

Abbreviation ascending := (StronglySorted (fun a b : string => String.ltb a b = true)).






Lemma StronglySorted_filter {Y : Type} (R : Y -> Y -> Prop) (P : Y -> bool) (l : list Y) :
  StronglySorted R l -> StronglySorted R (List.filter P l).
Proof.
  induction 1 as [|x l Hl IH Hall]; cbn; [constructor|].
  destruct (P x); [|done]. constructor; [done|].
  apply Forall_forall. intros y [Hy _]%list_elem_of_In%filter_In.
  rewrite Forall_forall in Hall. apply Hall. by apply list_elem_of_In.
Qed.


Section Summary.

Context {num : Type} `{PyEnv num}.

(** the grouped frame before it is sorted by total *)
Lemma groupby_frame (es : list (Expense num)) :
  groupby_category_sum (frame_of es)
  = Some (map (fun k => (k, group_total es k)) (group_keys (map e_category es))).
Proof.
  unfold groupby_category_sum.
  assert (Hcats : mapM str_key (getitem (frame_of es) Col_category)
                  = Some (map e_category es)).
  { apply mapM_Some_2. induction es as [|e es IH]; cbn; by constructor. }
  rewrite Hcats. cbn [mbind option_bind].
  apply mapM_Some_2. induction (group_keys (map e_category es)) as [|k ks IH];
    cbn [map]; constructor; [|exact IH].
  rewrite select_getitem.
  assert (Hsel : forall l : list (Expense num),
             List.filter (fun r => eq_str_cell k (row_get Col_category r)) (frame_of l)
             = frame_of (List.filter (fun e => String.eqb (e_category e) k) l)).
  { induction l as [|e l IHl]; [done|]. cbn [frame_of map List.filter] in *.
    unfold frame_of in IHl.
    replace (eq_str_cell k (row_get Col_category (row_of e)))
      with (String.eqb (e_category e) k) by reflexivity.
    destruct (String.eqb (e_category e) k); cbn [map]; by rewrite IHl. }
  rewrite Hsel. change (Series_sum (getitem ?df Col_amount)) with (total_spent df).
  by rewrite total_spent_frame.
Qed.

Lemma by_category_frame (es : list (Expense num)) :
  by_category (frame_of es)
  = Some (sort_values_amount
            (map (fun k => (k, group_total es k)) (group_keys (map e_category es)))
            false).
Proof. unfold by_category. by rewrite groupby_frame. Qed.

Context `{!ExactArith num}.

Lemma fold_left_f_add (xs : list num) (acc : num) :
  fold_left f_add xs acc = f_add acc (sum_amounts xs).
Proof.
  unfold sum_amounts. revert acc. induction xs as [|x xs IH]; intros acc; cbn.
  - by rewrite f_add_comm, f_add_zero_l.
  - rewrite IH, (IH (f_add f_zero x)). rewrite f_add_zero_l. apply eq_sym, f_add_assoc.
Qed.

Lemma sum_amounts_cons (x : num) (xs : list num) :
  sum_amounts (x :: xs) = f_add x (sum_amounts xs).
Proof.
  unfold sum_amounts at 1. cbn. rewrite fold_left_f_add. by rewrite f_add_zero_l.
Qed.

Lemma sum_amounts_Permutation (xs ys : list num) :
  xs ≡ₚ ys -> sum_amounts xs = sum_amounts ys.
Proof.
  induction 1 as [|x xs ys _ IH|x y xs|xs ys zs _ IH1 _ IH2]; [done| | |congruence].
  - by rewrite !sum_amounts_cons, IH.
  - rewrite !sum_amounts_cons, !f_add_assoc. f_equal. apply f_add_comm.
Qed.



Context `{!OrderedNum num}.


End Summary.



(** ** The end-to-end example of the specification, in whole amounts *)

Example your_expenses_food :
  your_expenses (frame_of [lunch; rent]) "Food" ""
  = Some (Expenses (frame_of [lunch]) 512%Z [("Rent", 500%Z); ("Food", 12%Z)]).
Proof. vm_compute. reflexivity. Qed.

Example your_expenses_keyword :
  your_expenses (frame_of [lunch; rent]) "All" " LUN "
  = Some (Expenses (frame_of [lunch]) 512%Z [("Rent", 500%Z); ("Food", 12%Z)])
  /\ your_expenses (frame_of [lunch; rent]) "All" "xyz"
    = Some (Expenses [] 512%Z [("Rent", 500%Z); ("Food", 12%Z)])
  /\ your_expenses (frame_of []) "All" "" = Some (NoExpensesYet (num := Z)).
Proof. vm_compute. done. Qed.

(** ** The string operations on examples *)

Example strip_example :
  PyStr.strip " lunch " = "lunch"
  /\ PyStr.strip "   " = ""
  /\ PyStr.strip "rent split" = "rent split".
Proof. vm_compute. done. Qed.

Example lower_contains_example :
  PyStr.lower "Lunch at UNI" = "lunch at uni"
  /\ PyStr.contains "lun" "lunch" = true
  /\ PyStr.contains "xyz" "lunch" = false
  /\ PyStr.contains "" "" = true.
Proof. vm_compute. done. Qed.

Example isoformat_example : isoformat (Date 2024 1 5) = "2024-01-05".
Proof. reflexivity. Qed.

(* ===================================================================== *)
(** * Further properties of the program *)
(* ===================================================================== *)

(** ** The quick filters, for every keyword of the fragment *)

Section FilterMore.

Context {num : Type} `{PyEnv num}.

(** The two filters in one pass. *)
Lemma filtered_closed_form (d : DataFrame num) (selected_category search_note : string) :
  filtered d selected_category search_note
  = (fun p => List.filter (passes_filters selected_category p) d)
      <$> keyword_pattern search_note.
Proof.
  unfold filtered, keyword_pattern.
  set (by_cat := if negb (String.eqb selected_category "All") then _ else d).
  assert (Hcat : by_cat = List.filter (category_matches selected_category) d).
  { unfold by_cat, category_matches.
    destruct (String.eqb selected_category "All"); cbn.
    - clear. induction d as [|r d IH]; [done|]. cbn. by rewrite <- IH.
    - exact (select_getitem d Col_category (eq_str_cell selected_category)). }
  rewrite Hcat.
  destruct (PyStr.truthy (PyStr.strip search_note)).
  - destruct (Re.compile (PyStr.lower (PyStr.strip search_note))) as [rx|]; [|done].
    cbn. rewrite select_getitem, filter_filter_andb. done.
  - cbn. f_equal. apply filter_ext. intros r. unfold passes_filters.
    by rewrite andb_true_r.
Qed.

Lemma filter_idem {Y : Type} (p : Y -> bool) (l : list Y) :
  List.filter p (List.filter p l) = List.filter p l.
Proof.
  induction l as [|x l IH]; [done|]. cbn. destruct (p x) eqn:E; [|done].
  cbn. by rewrite E, IH.
Qed.

Lemma filter_sublist {Y : Type} (p : Y -> bool) (l : list Y) :
  List.filter p l `sublist_of` l.
Proof.
  induction l as [|x l IH]; [constructor|]. cbn.
  destruct (p x); by constructor.
Qed.

(** X2. Filtering is idempotent: applying the same category and keyword to
    a table that was filtered with them changes nothing. *)
Theorem filtered_idempotent (d f : DataFrame num)
        (selected_category search_note : string) :
  filtered d selected_category search_note = Some f ->
  filtered f selected_category search_note = Some f.
Proof.
  rewrite !filtered_closed_form.
  destruct (keyword_pattern search_note) as [p|]; [|done]. cbn.
  intros [= <-]. by rewrite filter_idem.
Qed.

(** X3. The filters only drop rows: the table they give holds rows of the
    table they are given, in the same order; every row kept has the
    selected category unless the selection is "All"; a row with a missing
    note is dropped by every keyword that is not blank; and with "All" and
    a blank keyword nothing is dropped. *)
Theorem filtered_only_drops (d f : DataFrame num)
        (selected_category search_note : string) :
  filtered d selected_category search_note = Some f ->
  f `sublist_of` d
  /\ (selected_category <> "All" ->
      forall r, r ∈ f -> r_category r = CStr selected_category)
  /\ (PyStr.truthy (PyStr.strip search_note) = true ->
      forall r, r ∈ f -> r_note r <> CNaN)
  /\ (selected_category = "All" ->
      PyStr.truthy (PyStr.strip search_note) = false -> f = d).
Proof.
  rewrite filtered_closed_form. unfold keyword_pattern.
  destruct (PyStr.truthy (PyStr.strip search_note)) eqn:Hk.
  - destruct (Re.compile _) as [rx|]; [|done]. cbn. intros [= <-].
    split; [apply filter_sublist|]. split; [|split; [|done]].
    + intros Hne r [_ Hr]%list_elem_of_In%filter_In.
      unfold passes_filters, category_matches in Hr.
      apply andb_true_iff in Hr as [Hc _].
      apply orb_true_iff in Hc as [Hc|Hc].
      * by apply String.eqb_eq in Hc.
      * unfold eq_str_cell in Hc. destruct (r_category r); try done.
        by apply String.eqb_eq in Hc as ->.
    + intros _ r [_ Hr]%list_elem_of_In%filter_In Hnan.
      unfold passes_filters in Hr. rewrite Hnan in Hr. cbn in Hr.
      by rewrite andb_false_r in Hr.
  - cbn. intros [= <-].
    split; [apply filter_sublist|]. split; [|split; [done|]].
    + intros Hne r [_ Hr]%list_elem_of_In%filter_In.
      unfold passes_filters, category_matches in Hr.
      apply andb_true_iff in Hr as [Hc _].
      apply orb_true_iff in Hc as [Hc|Hc].
      * by apply String.eqb_eq in Hc.
      * unfold eq_str_cell in Hc. destruct (r_category r); try done.
        by apply String.eqb_eq in Hc as ->.
    + intros -> _. clear. induction d as [|r d IH]; [done|]. cbn. by rewrite IH.
Qed.

End FilterMore.

(** ** Loading and saving, record by record *)

Section Codec.

Context {num : Type} `{PyEnv num}.

Lemma loaded_rows_are_records (table l : list csv_row) :
  exists es : list (Expense num), omap (loaded_row table) l = frame_of es.
Proof.
  induction l as [|r l [es IH]]; [by exists []|].
  cbn [omap list_omap]. fold (omap (@loaded_row num _ table) l). rewrite IH.
  unfold loaded_row.
  destruct (parsed_date table r) as [d|]; cbn; [|by exists es].
  destruct (parsed_amount table r) as [x|]; cbn; [|by exists es].
  by eexists (MkExpense d _ x _ :: es).
Qed.

(** [load_expenses] in one step: a new frame of records, and nothing else
    changes. *)
Lemma load_expenses_effect (w : World num) (path : string) :
  exists l h' (es : list (Expense num)),
    load_expenses path w
    = Some (l, MkWorld h' (files w) (session_state w) (screen w))
    /\ h' !! l = Some (frame_of es)
    /\ frame_of es = load_spec (files w !! path)
    /\ heap w !! l = None
    /\ forall l0 r, heap w !! l0 = Some r -> h' !! l0 = Some r.
Proof.
  destruct (files w !! path) as [table|] eqn:Hf.
  - destruct (load_expenses_run_file w path table Hf) as (l & h' & Hrun & Hl & Hnew & Hold).
    destruct (loaded_rows_are_records table table) as [es Hes].
    exists l, h', es. split; [exact Hrun|].
    rewrite Hl, dropna_clean_rows. by rewrite Hes.
  - rewrite (load_expenses_run_missing w path Hf). eexists _, _, [].
    split; [done|]. split; [apply lookup_insert_eq|]. split; [done|].
    split; [apply fresh_not_allocated|].
    intros l0 r Hl0. rewrite lookup_insert_ne; [done|].
    symmetry. eapply allocated_not_fresh; eauto.
Qed.


(** X11. [load_expenses] changes nothing that existed: every DataFrame
    object is as it was (the clean-up assignments act on the frame that was
    just read), and so are the files, the session state and the screen. *)
Theorem load_expenses_changes_nothing (w : World num) (path : string) :
  exists l w',
    load_expenses path w = Some (l, w')
    /\ heap w !! l = None
    /\ (forall l0 r, heap w !! l0 = Some r -> heap w' !! l0 = Some r)
    /\ files w' = files w
    /\ session_state w' = session_state w
    /\ screen w' = screen w.
Proof.
  destruct (files w !! path) as [table|] eqn:Hf.
  - destruct (load_expenses_run_file w path table Hf) as (l & h' & Hrun & _ & Hnew & Hold).
    by eexists _, _.
  - rewrite (load_expenses_run_missing w path Hf). eexists _, _.
    split; [done|]. cbn. split; [apply fresh_not_allocated|].
    split; [|done]. intros l0 r Hl0. rewrite lookup_insert_ne; [done|].
    symmetry. eapply allocated_not_fresh; eauto.
Qed.

Lemma saved_table_of_records (es : list (Expense num)) :
  map write_row (setitem (frame_of es) Col_date
                         (astype_str (getitem (frame_of es) Col_date)))
  = map csv_of es.
Proof.
  unfold astype_str. rewrite setitem_map. unfold frame_of. rewrite !map_map.
  apply map_ext. by intros [].
Qed.

(** X12. [save_expenses] overwrites the file in full and touches nothing
    else: afterwards the file at [path] holds one line per record of the
    frame, in order, with the date in ISO form, whatever it held before;
    every other file, the session state and the screen are unchanged. *)
Theorem save_expenses_overwrites (w : World num) (df : loc) (path : string)
        (es : list (Expense num)) :
  heap w !! df = Some (frame_of es) ->
  exists w',
    save_expenses df path w = Some (tt, w')
    /\ files w' !! path = Some (map csv_of es)
    /\ (forall p, p <> path -> files w' !! p = files w !! p)
    /\ session_state w' = session_state w
    /\ screen w' = screen w.
Proof.
  intros Hdf. pose proof (save_expenses_run w df path _ Hdf) as Hrun.
  cbv zeta in Hrun. eexists. split; [exact Hrun|]. cbn [files session_state screen].
  rewrite saved_table_of_records.
  split; [apply lookup_insert_eq|]. split; [|done].
  intros p Hp. by rewrite lookup_insert_ne.
Qed.

Lemma is_missing_length_10 (t : string) : String.length t = 10 -> is_missing t = false.
Proof.
  intros Hlen. unfold is_missing.
  assert (Hall : Forall (fun x => String.length x <> 10) na_values).
  { unfold na_values. repeat constructor; cbn; lia. }
  induction Hall as [|x l Hx _ IH]; [done|]. cbn.
  destruct (String.eqb t x) eqn:E; [|exact IH].
  apply String.eqb_eq in E. by subst.
Qed.

Lemma zfill2_length (n : nat) : String.length (zfill2 n) = 2.
Proof. reflexivity. Qed.

Lemma string_length_append (s t : string) :
  String.length (s ++ t) = String.length s + String.length t.
Proof. induction s as [|c s IH]; [done|]. simpl. f_equal. exact IH. Qed.

(** the ISO form of a date is never read as a missing value *)
Lemma is_missing_isoformat (d : date) : is_missing (isoformat d) = false.
Proof.
  apply is_missing_length_10. unfold isoformat.
  rewrite !string_length_append. reflexivity.
Qed.

Lemma is_missing_CATEGORIES (c : string) : c ∈ CATEGORIES -> is_missing c = false.
Proof.
  unfold CATEGORIES. intros Hc.
  repeat (apply elem_of_cons in Hc as [->|Hc]; [reflexivity|]).
  by apply elem_of_nil in Hc.
Qed.

(** the date column of a saved file that is read as texts *)
Lemma saved_dates_read_as_texts (es : list (Expense num)) :
  Forall (reads_back es) es ->
  let column := map csv_date (map csv_of es) in
  map text_of (map (read_cell column) column)
  = map (fun e => Some (isoformat (e_date e))) es.
Proof.
  intros Hall. cbv zeta. rewrite !map_map. cbn [csv_date csv_of].
  rewrite Forall_forall in Hall. apply map_ext_in. intros e He.
  destruct (Hall e ltac:(by apply list_elem_of_In)) as (_ & _ & Hd & _).
  unfold read_cell. rewrite is_missing_isoformat.
  by rewrite Hd.
Qed.

Lemma loaded_row_csv_of (es : list (Expense num)) (e : Expense num) :
  Forall (reads_back es) es -> reads_back es e ->
  exists n,
    loaded_row (map csv_of es) (csv_of e)
    = Some (Row (CDate (e_date e)) (CStr (e_category e)) (CFloat (e_amount e))
                (CStr n)).
Proof.
  intros Hall (Hc & Hcat & Hd & Hdate & Hx). unfold loaded_row.
  assert (Hpd : parsed_date (map csv_of es) (csv_of e) = Some (e_date e)).
  { unfold parsed_date. cbv zeta.
    assert (Hcell : read_cell (map csv_date (map csv_of es)) (csv_date (csv_of e))
                    = CStr (isoformat (e_date e))).
    { unfold read_cell. cbn [csv_date csv_of]. rewrite is_missing_isoformat.
      rewrite map_map. cbn [csv_date csv_of]. by rewrite Hd. }
    rewrite Hcell. cbn [to_datetime_cell].
    rewrite (saved_dates_read_as_texts es Hall). by rewrite Hdate. }
  rewrite Hpd, Hx. cbn [mbind option_bind].
  assert (Hcell : read_cell (map csv_category (map csv_of es)) (csv_category (csv_of e))
                  = CStr (e_category e)).
  { unfold read_cell. cbn [csv_category csv_of].
    rewrite (is_missing_CATEGORIES _ Hc). rewrite map_map. cbn [csv_category csv_of].
    change (read_csv_number _ (e_category e))
      with (read_csv_number (map e_category es) (e_category e)).
    by rewrite Hcat. }
  rewrite Hcell. cbn [str_cell]. by eexists.
Qed.

(** X5. Saving and loading back keeps the records, their order, and the
    date, category and amount of each, for records that read back. *)
Theorem save_then_load_keeps_fields (w : World num) (df : loc)
        (es : list (Expense num)) :
  heap w !! df = Some (frame_of es) ->
  Forall (reads_back es) es ->
  exists w1 l w2 rows,
    save_expenses df CSV_PATH w = Some (tt, w1)
    /\ load_expenses CSV_PATH w1 = Some (l, w2)
    /\ heap w2 !! l = Some rows
    /\ length rows = length es
    /\ map r_date rows = map r_date (frame_of es)
    /\ map r_category rows = map r_category (frame_of es)
    /\ map r_amount rows = map r_amount (frame_of es).
Proof.
  intros Hdf Hall.
  pose proof (save_expenses_run w df CSV_PATH _ Hdf) as Hsave. cbv zeta in Hsave.
  match type of Hsave with _ = Some (_, ?ww) => set (w1 := ww) in * end.
  destruct (load_expenses_result w1 CSV_PATH) as (l & w2 & Hload & Hl & _).
  assert (Hfile : files w1 !! CSV_PATH = Some (map csv_of es)).
  { unfold w1. cbn [files]. rewrite lookup_insert_eq. by rewrite saved_table_of_records. }
  rewrite Hfile in Hl. cbn [load_spec] in Hl.
  exists w1, l, w2, (omap (loaded_row (map csv_of es)) (map csv_of es)).
  split; [exact Hsave|]. split; [exact Hload|]. split; [exact Hl|].
  assert (Hsub : forall l0 : list (Expense num),
             Forall (reads_back es) l0 ->
             let rows := omap (loaded_row (map csv_of es)) (map csv_of l0) in
             length rows = length l0
             /\ map r_date rows = map r_date (frame_of l0)
             /\ map r_category rows = map r_category (frame_of l0)
             /\ map r_amount rows = map r_amount (frame_of l0)).
  { intros l0 Hl0. cbv zeta. induction Hl0 as [|e l0 He _ IH]; [done|].
    cbn [map omap list_omap frame_of].
    fold (omap (@loaded_row num _ (map csv_of es)) (map csv_of l0)).
    destruct (loaded_row_csv_of es e Hall He) as [n ->].
    cbn [length map r_date r_category r_amount row_of].
    destruct IH as (-> & -> & -> & ->). done. }
  by apply Hsub.
Qed.

End Codec.

Lemma save_expenses_overwrites_witness :
  exists w',
    save_expenses 1%positive CSV_PATH (world_with 1%positive (frame_of [lunch; rent]))
      = Some (tt, w')
    /\ files w' !! CSV_PATH = Some (map csv_of [lunch; rent])
    /\ (forall p, p <> CSV_PATH ->
          files w' !! p = files (world_with 1%positive (frame_of [lunch; rent])) !! p)
    /\ session_state w' = session_state (world_with 1%positive (frame_of [lunch; rent]))
    /\ screen w' = screen (world_with 1%positive (frame_of [lunch; rent])).
Proof.
  apply (save_expenses_overwrites (world_with 1%positive (frame_of [lunch; rent]))
           1%positive CSV_PATH [lunch; rent]).
  reflexivity.
Defined.

Lemma save_then_load_keeps_fields_witness :
  exists w1 l w2 rows,
    save_expenses 1%positive CSV_PATH (world_with 1%positive (frame_of [lunch; rent]))
      = Some (tt, w1)
    /\ load_expenses CSV_PATH w1 = Some (l, w2)
    /\ heap w2 !! l = Some rows
    /\ length rows = length [lunch; rent]
    /\ map r_date rows = map r_date (frame_of [lunch; rent])
    /\ map r_category rows = map r_category (frame_of [lunch; rent])
    /\ map r_amount rows = map r_amount (frame_of [lunch; rent]).
Proof.
  apply (save_then_load_keeps_fields (world_with 1%positive (frame_of [lunch; rent]))
           1%positive [lunch; rent]).
  - reflexivity.
  - repeat constructor; vm_compute; repeat constructor.
Defined.

(** ** The page and the form, for frames of records *)

Section PageMore.

Context {num : Type} `{PyEnv num}.

Lemma frame_of_app (es fs : list (Expense num)) :
  frame_of (es ++ fs) = (frame_of es ++ frame_of fs)%list.
Proof. apply map_app. Qed.

Lemma filter_frame_of (P : row num -> bool) (es : list (Expense num)) :
  List.filter P (frame_of es) = frame_of (List.filter (fun e => P (row_of e)) es).
Proof.
  induction es as [|e es IH]; [done|]. cbn [frame_of map List.filter] in *.
  unfold frame_of in IH. destruct (P (row_of e)); cbn [map]; by rewrite IH.
Qed.

Lemma List_filter_Permutation {Y : Type} (P : Y -> bool) (l l' : list Y) :
  l ≡ₚ l' -> List.filter P l ≡ₚ List.filter P l'.
Proof.
  induction 1 as [|x l l' _ IH|x y l|l l' l'' _ IH1 _ IH2]; cbn.
  - done.
  - destruct (P x); [by constructor|done].
  - destruct (P x), (P y); try done. apply perm_swap.
  - by etrans.
Qed.

(** the listing, the total and the summary of a frame of records *)
Lemma your_expenses_frame (es : list (Expense num)) (c k : string)
      (p : option (list Re.atom)) :
  es <> [] -> keyword_pattern k = Some p ->
  your_expenses (frame_of es) c k
  = Some (Expenses
            (frame_of
               (List.filter (fun e => passes_filters c p (row_of e))
                  (take_rows es (nargsort date_ltb false
                                          (map (fun e => Some (e_date e)) es)))))
            (sum_amounts (map e_amount es))
            (sort_values_amount
               (map (fun k => (k, group_total es k)) (group_keys (map e_category es)))
               false)).
Proof.
  intros Hne Hk. unfold your_expenses.
  destruct es as [|e es]; [done|].
  change (empty (frame_of (e :: es))) with false. cbv iota.
  rewrite df_display_frame. cbn [mbind option_bind].
  rewrite filtered_closed_form, Hk. cbn [fmap option_fmap option_map mbind option_bind].
  rewrite total_spent_frame. cbn [mbind option_bind].
  rewrite by_category_frame. cbn [mbind option_bind].
  by rewrite filter_frame_of.
Qed.

(** X8. The page of a frame of records, for a keyword of the fragment: the
    listing holds exactly the records that pass both filters, the most
    recent date first (filtering after sorting keeps the order), while the
    total and the summary by category are those of all the records,
    whatever the filters are. *)
Theorem your_expenses_page (es : list (Expense num)) (c k : string)
        (p : option (list Re.atom)) :
  es <> [] -> keyword_pattern k = Some p ->
  exists listed g,
    your_expenses (frame_of es) c k
    = Some (Expenses (frame_of listed) (sum_amounts (map e_amount es)) g)
    /\ by_category (frame_of es) = Some g
    /\ listed ≡ₚ List.filter (fun e => passes_filters c p (row_of e)) es
    /\ StronglySorted (fun x y => date_ltb (e_date x) (e_date y) = false) listed.
Proof.
  intros Hne Hk. eexists _, _.
  split; [by apply your_expenses_frame|].
  split; [apply by_category_frame|].
  destruct (sort_descending_spec date_ltb (@e_date num) date_ltb_irrefl
              date_ltb_trans date_ltb_ntrans es) as (Hperm & Hsorted & _).
  cbv zeta in *. split.
  - by apply List_filter_Permutation.
  - by apply StronglySorted_filter.
Qed.

(** an accepted submission, in one step *)
Lemma submitted_effect (w : World num) (df : loc) (es : list (Expense num))
      (d : date) (c : string) (a : num) (n : string) :
  f_leb a f_zero = false ->
  heap w !! df = Some (frame_of es) ->
  let es' := (es ++ [MkExpense d c (float a) (PyStr.strip n)])%list in
  exists df' h',
    submitted df d c a n w =
      Some (df', MkWorld h' (<[CSV_PATH := map csv_of es']> (files w))
                         (session_state w)
                         (screen w ++ [st_success "Expense added ✅"])%list)
    /\ h' !! df' = Some (frame_of es')
    /\ heap w !! df' = None
    /\ forall l r, heap w !! l = Some r -> h' !! l = Some r.
Proof.
  intros Ha Hdf es'. unfold submitted. rewrite Ha.
  pose proof (add_expense_run w df _ d c a n Hdf) as Hadd. cbv zeta in Hadd.
  set (l1 := fresh (dom (heap w))) in *.
  set (h1 := <[l1 := _]> (heap w)) in *.
  set (l2 := fresh (dom h1)) in *.
  erewrite bind_run by exact Hadd.
  assert (Hrows : (frame_of es ++ [Row (CDate d) (CStr c) (CFloat (float a))
                                       (CStr (PyStr.strip n))])%list = frame_of es').
  { unfold es'. by rewrite frame_of_app. }
  rewrite Hrows in *.
  match type of Hadd with _ = Some (_, ?ww) => set (w1 := ww) in * end.
  assert (Hl2 : heap w1 !! l2 = Some (frame_of es')) by apply lookup_insert_eq.
  pose proof (save_expenses_run w1 l2 CSV_PATH _ Hl2) as Hsave. cbv zeta in Hsave.
  erewrite bind_run by exact Hsave.
  rewrite saved_table_of_records.
  unfold show, bind, ret. cbn [heap files session_state screen].
  eexists _, _. split; [reflexivity|].
  set (l3 := fresh (dom (heap w1))).
  assert (H12 : l1 <> l2).
  { intros E. pose proof (fresh_not_allocated h1) as Hf. fold l2 in Hf.
    rewrite <- E in Hf. unfold h1 in Hf. by rewrite lookup_insert_eq in Hf. }
  assert (H23 : l2 <> l3) by (eapply allocated_not_fresh; exact Hl2).
  assert (Hnew2 : heap w !! l2 = None).
  { pose proof (fresh_not_allocated h1) as Hf. fold l2 in Hf.
    unfold h1 in Hf. by rewrite lookup_insert_ne in Hf. }
  split; [|split; [exact Hnew2|]].
  - rewrite !lookup_insert_ne by done. apply lookup_insert_eq.
  - intros l r Hl.
    assert (l <> l1) by (eapply allocated_not_fresh; exact Hl).
    assert (Hh1 : h1 !! l = Some r) by (unfold h1; by rewrite lookup_insert_ne).
    assert (l <> l2) by (eapply allocated_not_fresh; exact Hh1).
    assert (Hw1 : heap w1 !! l = Some r)
      by (unfold w1; cbn [heap]; by rewrite lookup_insert_ne).
    assert (l <> l3) by (eapply allocated_not_fresh; exact Hw1).
    rewrite !lookup_insert_ne by done. exact Hw1.
Qed.

(** X6. An accepted submission keeps the page and the file in step: [df]
    then names a new frame, the records held before followed by the new
    one with its note stripped; the file holds exactly the lines of those
    records, whatever it held before; the frame held before and every
    other one are unchanged, and so are the other files and the session
    state. *)
Theorem submitted_adds_record (w : World num) (df : loc) (es : list (Expense num))
        (d : date) (c : string) (a : num) (n : string) :
  f_leb a f_zero = false ->
  heap w !! df = Some (frame_of es) ->
  exists df' w',
    submitted df d c a n w = Some (df', w')
    /\ heap w' !! df' = Some (frame_of (es ++ [MkExpense d c a (PyStr.strip n)]))
    /\ files w' !! CSV_PATH = Some (map csv_of (es ++ [MkExpense d c a (PyStr.strip n)]))
    /\ heap w !! df' = None
    /\ (forall l r, heap w !! l = Some r -> heap w' !! l = Some r)
    /\ (forall path, path <> CSV_PATH -> files w' !! path = files w !! path)
    /\ session_state w' = session_state w
    /\ screen w' = (screen w ++ [st_success "Expense added ✅"])%list.
Proof.
  intros Ha Hdf.
  destruct (submitted_effect w df es d c a n Ha Hdf) as (df' & h' & Hrun & Hdf' & Hnew & Hold).
  cbv zeta in Hrun. eexists _, _. split; [exact Hrun|].
  cbn [heap files session_state screen].
  split; [exact Hdf'|]. split; [apply lookup_insert_eq|]. split; [exact Hnew|].
  split; [exact Hold|]. split; [|done].
  intros path Hp. by rewrite lookup_insert_ne.
Qed.

End PageMore.

(** ** One run of the script *)

Section ScriptMore.

Context {num : Type} `{PyEnv num}.

Lemma load_spec_nonempty_file (store : option (list csv_row)) :
  load_spec (num := num) store <> [] -> exists table, store = Some table.
Proof. destruct store as [table|]; [by exists table|done]. Qed.

(** the frame that [df] names when the page is drawn *)
Lemma current_df_run (w : World num) (c : click num) :
  exists df w1 (es : list (Expense num)),
    current_df c w = Some (df, w1)
    /\ heap w1 !! df = Some (frame_of es)
    /\ session_state w1 = session_state w
    /\ (es <> [] -> exists table, files w1 !! CSV_PATH = Some table)
    /\ match c with
       | AddExpense f =>
           if f_leb (form_amount f) f_zero
           then files w1 = files w
                /\ frame_of es = load_spec (files w !! CSV_PATH)
           else files w1 !! CSV_PATH = Some (map csv_of es)
                /\ exists es0,
                     frame_of es0 = load_spec (files w !! CSV_PATH)
                     /\ es = (es0 ++ [MkExpense (form_date f) (form_category f)
                                                (form_amount f)
                                                (PyStr.strip (form_note f))])%list
       | _ => files w1 = files w
              /\ frame_of es = load_spec (files w !! CSV_PATH)
       end.
Proof.
  destruct (load_expenses_effect w CSV_PATH) as (l & h' & es & Hload & Hl & Hes & _).
  unfold current_df. erewrite bind_run by exact Hload.
  assert (Hfile : es <> [] -> exists table, files w !! CSV_PATH = Some table).
  { intros Hne. apply load_spec_nonempty_file. rewrite <- Hes. by destruct es. }
  destruct c as [|f| |]; try (by eexists _, _, es).
  unfold submitted. destruct (f_leb (form_amount f) f_zero) eqn:Ha.
  - unfold show, bind, ret. by eexists _, _, es.
  - set (w0 := MkWorld h' (files w) (session_state w) (screen w)).
    destruct (submitted_effect w0 l es (form_date f) (form_category f)
                (form_amount f) (form_note f) Ha Hl)
      as (df' & h'' & Hrun & Hdf' & _).
    cbv zeta in Hrun. unfold submitted in Hrun. rewrite Ha in Hrun.
    eexists _, _, _. split; [exact Hrun|]. cbn [heap files session_state].
    split; [exact Hdf'|]. split; [done|].
    rewrite lookup_insert_eq. split; [by eauto|]. split; [done|].
    by exists es.
Qed.

(** the page of a frame without rows *)
Lemma draw_empty (w : World num) (c : click num) (sc sn : string) (df : loc) :
  heap w !! df = Some [] ->
  draw c sc sn df w
  = Some (MkPage NoExpensesYet None false,
          MkWorld (heap w) (files w) (session_state w)
                  (screen w ++ [st_info "No expenses yet. Add your first one above."])%list).
Proof.
  intros Hdf. unfold draw, read_frame, bind. rewrite Hdf. reflexivity.
Qed.

(** the page of a frame with rows, button by button *)
Lemma draw_rows (w : World num) (c : click num) (sc sn : string) (df : loc)
      (rows : DataFrame num) (v : view num) :
  heap w !! df = Some rows -> empty rows = false ->
  your_expenses rows sc sn = Some v ->
  draw c sc sn df w
  = match c with
    | DownloadCSV =>
        match files w !! CSV_PATH with
        | Some table => Some (MkPage v (Some table) false, w)
        | None => None
        end
    | ClearAllData =>
        match clear_all_data w with
        | Some (again, w') => Some (MkPage v None again, w')
        | None => None
        end
    | _ => Some (MkPage v None false, w)
    end.
Proof.
  intros Hdf Hrows Hv. unfold draw.
  erewrite bind_run by (unfold read_frame; rewrite Hdf; reflexivity).
  rewrite Hrows, Hv. unfold bind at 1, lift.
  destruct c as [|f| |]; try reflexivity.
  unfold bind, ret, read_bytes. by destruct (files w !! CSV_PATH).
Qed.



(** X14. "Clear ALL data" is part of the page only when a record is
    loaded.  When the file gives no valid record (there is no file, or all
    of its rows are broken), a run with that button pressed shows "No
    expenses yet" and changes neither the file nor the session state. *)
Theorem script_clear_needs_records (w : World num) (sc sn : string) :
  load_spec (num := num) (files w !! CSV_PATH) = [] ->
  exists w',
    script ClearAllData sc sn w = Some (MkPage NoExpensesYet None false, w')
    /\ files w' = files w
    /\ session_state w' = session_state w.
Proof.
  intros Hempty.
  destruct (current_df_run w ClearAllData)
    as (df & w1 & es & Hcur & Hdf & Hss & _ & Hfiles & Hes).
  unfold script. erewrite bind_run by exact Hcur.
  rewrite Hempty in Hes. destruct es; [|done].
  rewrite (draw_empty w1 _ sc sn df Hdf). eexists. split; [done|]. done.
Qed.

(** X7. Only the "Clear ALL data" button touches the session state or
    asks for a rerun: after any other run, an accepted or rejected
    submission included, a pending confirmation is still pending. *)
Theorem script_keeps_confirmation (w w' : World num) (c : click num)
        (sc sn : string) (pg : page num) :
  c <> ClearAllData ->
  script c sc sn w = Some (pg, w') ->
  session_state w' = session_state w /\ rerun pg = false.
Proof.
  intros Hc.
  destruct (current_df_run w c) as (df & w1 & es & Hcur & Hdf & Hss & _).
  unfold script. erewrite bind_run by exact Hcur.
  destruct es as [|e es].
  { rewrite (draw_empty w1 c sc sn df Hdf). intros [= <- <-]. done. }
  destruct (your_expenses (frame_of (e :: es)) sc sn) as [v|] eqn:Hv.
  - rewrite (draw_rows w1 c sc sn df _ _ Hdf eq_refl Hv).
    destruct c as [|f| |]; [| | |done].
    + by intros [= <- <-].
    + by intros [= <- <-].
    + destruct (files w1 !! CSV_PATH); [|done]. by intros [= <- <-].
  - unfold draw. erewrite bind_run by (unfold read_frame; rewrite Hdf; reflexivity).
    change (empty (frame_of (e :: es))) with false. cbv iota.
    rewrite Hv. unfold bind at 1, lift. done.
Qed.

(** X15. Clearing from the page, end to end.  With a valid record in the
    file and no confirmation pending, the first run with "Clear ALL data"
    pressed keeps the file and asks for no rerun; the second deletes the
    file and asks for a rerun; the run after that shows "No expenses yet",
    with no confirmation pending. *)
Theorem script_clear_twice (w : World num) (sc sn : string)
        (p : option (list Re.atom)) :
  keyword_pattern sn = Some p ->
  load_spec (num := num) (files w !! CSV_PATH) <> [] ->
  session_state w !! "confirm_clear" = None ->
  exists pg1 w1 pg2 w2 w3,
    script ClearAllData sc sn w = Some (pg1, w1)
    /\ rerun pg1 = false /\ files w1 = files w
    /\ script ClearAllData sc sn w1 = Some (pg2, w2)
    /\ rerun pg2 = true /\ files w2 = delete CSV_PATH (files w)
    /\ script NoClick sc sn w2 = Some (MkPage NoExpensesYet None false, w3)
    /\ session_state w3 !! "confirm_clear" = None.
Proof.
  intros Hk Hne Hidle.
  (* one run with the button pressed, from a world with the same file *)
  assert (Hrun : forall (w0 : World num),
             files w0 = files w ->
             exists v df w1,
               script ClearAllData sc sn w0
               = match clear_all_data w1 with
                 | Some (again, w') => Some (MkPage v None again, w')
                 | None => None
                 end
               /\ files w1 = files w0 /\ session_state w1 = session_state w0
               /\ heap w1 !! df = Some (load_spec (files w !! CSV_PATH))).
  { intros w0 Hw0.
    destruct (current_df_run w0 ClearAllData)
      as (df & w1 & es & Hcur & Hdf & Hss & _ & Hfiles & Hes).
    rewrite Hw0 in Hes.
    destruct es as [|e es]; [by rewrite <- Hes in Hne|].
    pose proof (your_expenses_frame (e :: es) sc sn p ltac:(done) Hk) as Hv.
    eexists _, df, w1. unfold script. erewrite bind_run by exact Hcur.
    rewrite (draw_rows w1 ClearAllData sc sn df _ _ Hdf eq_refl Hv).
    split; [reflexivity|]. split; [done|]. split; [done|]. by rewrite <- Hes. }
  destruct (Hrun w eq_refl) as (v1 & df1 & u1 & Hs1 & Hf1 & Hss1 & _).
  rewrite (clear_all_data_idle u1) in Hs1 by (by rewrite Hss1).
  match type of Hs1 with _ = Some (_, ?ww) => set (w1 := ww) in * end.
  destruct (Hrun w1 Hf1) as (v2 & df2 & u2 & Hs2 & Hf2 & Hss2 & _).
  rewrite (clear_all_data_pending u2 true) in Hs2
    by (rewrite Hss2; unfold w1; cbn [session_state]; apply lookup_insert_eq).
  match type of Hs2 with _ = Some (_, ?ww) => set (w2 := ww) in * end.
  assert (Hgone : files w2 !! CSV_PATH = None).
  { unfold w2. cbn [files]. apply lookup_delete_eq. }
  destruct (current_df_run w2 NoClick)
    as (df3 & u3 & es & Hcur & Hdf & Hss3 & _ & Hfiles & Hes).
  rewrite Hgone in Hes. cbn [load_spec] in Hes. destruct es; [|done].
  exists (MkPage v1 None false), w1, (MkPage v2 None true), w2.
  eexists. split; [exact Hs1|]. split; [done|]. split; [exact Hf1|].
  split; [exact Hs2|]. split; [done|].
  split; [unfold w2; cbn [files]; rewrite Hf2; unfold w1; cbn [files]; by rewrite Hf1|].
  unfold script. erewrite bind_run by exact Hcur.
  rewrite (draw_empty u3 _ sc sn df3 Hdf). split; [reflexivity|].
  cbn [session_state]. rewrite Hss3. unfold w2. cbn [session_state].
  apply lookup_delete_eq.
Qed.

(** X17. An accepted submission rewrites the file from the frame that was
    loaded: afterwards the file holds one line for each record that
    [load_expenses] gave, written from the cleaned record (not the line
    that the file held), in order, followed by the line of the new record,
    and nothing else; a line that was dropped at load has no line in the
    new file. *)
Theorem script_submission_rewrites_file (w : World num) (f : form num)
        (sc sn : string) (p : option (list Re.atom)) :
  f_leb (form_amount f) f_zero = false ->
  keyword_pattern sn = Some p ->
  exists pg w' es,
    script (AddExpense f) sc sn w = Some (pg, w')
    /\ frame_of es = load_spec (files w !! CSV_PATH)
    /\ files w' !! CSV_PATH
       = Some (map csv_of es
                 ++ [csv_of (MkExpense (form_date f) (form_category f) (form_amount f)
                                       (PyStr.strip (form_note f)))])%list
    /\ shown pg <> NoExpensesYet
    /\ rerun pg = false.
Proof.
  intros Ha Hk.
  destruct (current_df_run w (AddExpense f)) as (df & w1 & es & Hcur & Hdf & _ & _ & Hc).
  rewrite Ha in Hc. destruct Hc as (Hfile & es0 & Hes0 & ->).
  unfold script. erewrite bind_run by exact Hcur.
  assert (Hne : (es0 ++ [MkExpense (form_date f) (form_category f) (form_amount f)
                                   (PyStr.strip (form_note f))])%list <> [])
    by (by destruct es0).
  pose proof (your_expenses_frame _ sc sn p Hne Hk) as Hv.
  assert (Hrows : empty (frame_of (es0 ++ [MkExpense (form_date f) (form_category f)
                                                     (form_amount f)
                                                     (PyStr.strip (form_note f))])) = false)
    by (by destruct es0).
  rewrite (draw_rows w1 _ sc sn df _ _ Hdf Hrows Hv).
  eexists _, _, es0. split; [reflexivity|]. split; [exact Hes0|].
  rewrite Hfile, map_app. cbn [shown rerun]. done.
Qed.

End ScriptMore.

(** ** Notes and keywords are stripped *)

Lemma lstrip_chars_fixed (l : list ascii) :
  match l with [] => True | c :: _ => PyStr.isspace c = false end ->
  PyStr.lstrip_chars l = l.
Proof. destruct l as [|c l]; [done|]. cbn. by intros ->. Qed.

Lemma lstrip_chars_head (l : list ascii) :
  match PyStr.lstrip_chars l with
  | [] => True
  | c :: _ => PyStr.isspace c = false
  end.
Proof.
  induction l as [|c l IH]; [done|]. cbn.
  destruct (PyStr.isspace c) eqn:E; [exact IH|exact E].
Qed.

Lemma lstrip_chars_idem (l : list ascii) :
  PyStr.lstrip_chars (PyStr.lstrip_chars l) = PyStr.lstrip_chars l.
Proof. apply lstrip_chars_fixed, lstrip_chars_head. Qed.

Lemma lstrip_chars_snoc (l : list ascii) (c : ascii) :
  PyStr.isspace c = false ->
  PyStr.lstrip_chars (l ++ [c]) = PyStr.lstrip_chars l ++ [c].
Proof.
  intros Hc. induction l as [|x l IH]; cbn; [by rewrite Hc|].
  by destruct (PyStr.isspace x).
Qed.

Lemma rstrip_chars_head (l : list ascii) :
  match l with [] => True | c :: _ => PyStr.isspace c = false end ->
  match PyStr.rstrip_chars l with
  | [] => True
  | c :: _ => PyStr.isspace c = false
  end.
Proof.
  destruct l as [|c l]; [done|]. intros Hc. unfold PyStr.rstrip_chars. cbn [rev].
  rewrite lstrip_chars_snoc by done. rewrite rev_app_distr. exact Hc.
Qed.

Lemma strip_chars_idem (l : list ascii) :
  let s := PyStr.rstrip_chars (PyStr.lstrip_chars l) in
  PyStr.rstrip_chars (PyStr.lstrip_chars s) = s.
Proof.
  cbv zeta.
  rewrite (lstrip_chars_fixed (PyStr.rstrip_chars _))
    by apply rstrip_chars_head, lstrip_chars_head.
  unfold PyStr.rstrip_chars. by rewrite rev_involutive, lstrip_chars_idem.
Qed.

Lemma strip_idem (s : string) : PyStr.strip (PyStr.strip s) = PyStr.strip s.
Proof.
  unfold PyStr.strip. rewrite list_ascii_of_string_of_list_ascii.
  f_equal. apply strip_chars_idem.
Qed.

Lemma lower_truthy (s : string) : PyStr.truthy (PyStr.lower s) = PyStr.truthy s.
Proof. by destruct s. Qed.

Section Stripped.

Context {num : Type} `{PyEnv num}.

(** X9. The note that [add_expense] stores is the note of the form without
    its leading and trailing white space, and stripping it again changes
    nothing: the last row of the new frame has a note that is its own
    strip. *)
Theorem add_expense_note_stripped (w : World num) (df : loc)
        (rows : DataFrame num) (d : date) (c : string) (a : num) (n : string) :
  heap w !! df = Some rows ->
  exists out w' t,
    add_expense df d c a n w = Some (out, w')
    /\ heap w' !! out = Some (rows ++ [Row (CDate d) (CStr c) (CFloat a) (CStr t)])%list
    /\ t = PyStr.strip n
    /\ PyStr.strip t = t.
Proof.
  intros Hdf. eexists _, _, _. split; [by apply add_expense_run|].
  cbn [heap]. split; [apply lookup_insert_eq|]. split; [done|apply strip_idem].
Qed.

(** X1. The keyword counts only through the lower case of its strip: two
    keywords that agree on it give the same table, so the search ignores
    the case of the keyword and the white space around it. *)
Theorem filtered_keyword_normal_form (d : DataFrame num) (c k1 k2 : string) :
  PyStr.lower (PyStr.strip k1) = PyStr.lower (PyStr.strip k2) ->
  filtered d c k1 = filtered d c k2
  /\ filtered d c (PyStr.strip k1) = filtered d c k1.
Proof.
  intros Hk.
  assert (Hsame : forall a b, PyStr.lower (PyStr.strip a) = PyStr.lower (PyStr.strip b) ->
                              filtered d c a = filtered d c b).
  { intros a b Hab. rewrite !filtered_closed_form. f_equal.
    unfold keyword_pattern.
    rewrite <- (lower_truthy (PyStr.strip a)), <- (lower_truthy (PyStr.strip b)).
    by rewrite Hab. }
  split; [by apply Hsame|]. apply Hsame. by rewrite strip_idem.
Qed.

Context `{!ExactArith num}.

Lemma sum_amounts_snoc (xs : list num) (a : num) :
  sum_amounts (xs ++ [a]) = f_add a (sum_amounts xs).
Proof.
  rewrite (sum_amounts_Permutation (xs ++ [a]) (a :: xs)).
  - apply sum_amounts_cons.
  - by rewrite Permutation_app_comm.
Qed.

(** X10. What one more record does to the summary, in exact arithmetic:
    the total grows by its amount, the total of its category grows by its
    amount, and the totals of the other categories stay. *)
Theorem add_expense_summary (w : World num) (df : loc) (es : list (Expense num))
        (d : date) (c : string) (a : num) (n : string) :
  heap w !! df = Some (frame_of es) ->
  exists out w' es',
    add_expense df d c a n w = Some (out, w')
    /\ heap w' !! out = Some (frame_of es')
    /\ total_spent (frame_of es') = Some (f_add a (sum_amounts (map e_amount es)))
    /\ group_total es' c = f_add a (group_total es c)
    /\ forall c', c' <> c -> group_total es' c' = group_total es c'.
Proof.
  intros Hdf. exists (fresh (dom (<[fresh (dom (heap w)) :=
                 [Row (CDate d) (CStr c) (CFloat (float a)) (CStr (PyStr.strip n))]]>
                                     (heap w)))).
  eexists _, (es ++ [MkExpense d c a (PyStr.strip n)])%list.
  split; [by apply add_expense_run|]. cbn [heap].
  split; [rewrite lookup_insert_eq; by rewrite frame_of_app|].
  split.
  { rewrite total_spent_frame, map_app. cbn [map e_amount]. by rewrite sum_amounts_snoc. }
  unfold group_total. split.
  - rewrite List.filter_app. cbn [List.filter e_category].
    rewrite String.eqb_refl, map_app. cbn [map e_amount]. apply sum_amounts_snoc.
  - intros c' Hc'. rewrite List.filter_app. cbn [List.filter e_category].
    rewrite (proj2 (String.eqb_neq c c')) by done. by rewrite app_nil_r.
Qed.

End Stripped.

(** ** The further properties at the records of the example *)

Lemma filtered_keyword_normal_form_witness :
  filtered (frame_of [lunch; rent]) "All" " LUN "
  = filtered (frame_of [lunch; rent]) "All" "lun"
  /\ filtered (frame_of [lunch; rent]) "All" (PyStr.strip " LUN ")
     = filtered (frame_of [lunch; rent]) "All" " LUN ".
Proof.
  apply (filtered_keyword_normal_form (frame_of [lunch; rent]) "All" " LUN " "lun").
  reflexivity.
Defined.

Lemma filtered_idempotent_witness :
  filtered (frame_of [lunch]) "Food" "lun" = Some (frame_of [lunch]).
Proof.
  apply (filtered_idempotent (frame_of [lunch; rent]) (frame_of [lunch]) "Food" "lun").
  reflexivity.
Defined.

Lemma filtered_only_drops_witness :
  frame_of [lunch] `sublist_of` frame_of [lunch; rent]
  /\ ("Food" <> "All" ->
      forall r, r ∈ frame_of [lunch] -> r_category r = CStr "Food")
  /\ (PyStr.truthy (PyStr.strip "lun") = true ->
      forall r, r ∈ frame_of [lunch] -> r_note r <> CNaN)
  /\ ("Food" = "All" ->
      PyStr.truthy (PyStr.strip "lun") = false ->
      frame_of [lunch] = frame_of [lunch; rent]).
Proof.
  apply (filtered_only_drops (frame_of [lunch; rent]) (frame_of [lunch]) "Food" "lun").
  reflexivity.
Defined.

Lemma filtered_literal_keyword_witness :
  filtered (frame_of [lunch; rent]) "Food" " LUN "
  = Some (filter_spec (frame_of [lunch; rent]) "Food" " LUN ").
Proof.
  apply (filtered_literal_keyword (frame_of [lunch; rent]) "Food" " LUN ").
  reflexivity.
Defined.

Lemma your_expenses_page_witness :
  exists listed g,
    your_expenses (frame_of [lunch; rent]) "All" "lun"
    = Some (Expenses (frame_of listed)
                     (sum_amounts (map e_amount [lunch; rent])) g)
    /\ by_category (frame_of [lunch; rent]) = Some g
    /\ listed ≡ₚ List.filter
                   (fun e => passes_filters "All"
                               (Some [Re.Lit "l"%char; Re.Lit "u"%char; Re.Lit "n"%char])
                               (row_of e))
                   [lunch; rent]
    /\ StronglySorted (fun x y => date_ltb (e_date x) (e_date y) = false) listed.
Proof.
  apply (your_expenses_page [lunch; rent] "All" "lun"
           (Some [Re.Lit "l"%char; Re.Lit "u"%char; Re.Lit "n"%char])).
  - discriminate.
  - reflexivity.
Defined.

Lemma submitted_adds_record_witness :
  exists df' w',
    submitted 1%positive (Date 2024 1 6) "Rent" 500%Z " split "
              (world_with 1%positive (frame_of [lunch])) = Some (df', w')
    /\ heap w' !! df'
       = Some (frame_of ([lunch] ++ [MkExpense (Date 2024 1 6) "Rent" 500%Z
                                                (PyStr.strip " split ")]))
    /\ files w' !! CSV_PATH
       = Some (map csv_of ([lunch] ++ [MkExpense (Date 2024 1 6) "Rent" 500%Z
                                                   (PyStr.strip " split ")]))
    /\ heap (world_with 1%positive (frame_of [lunch])) !! df' = None
    /\ (forall l r, heap (world_with 1%positive (frame_of [lunch])) !! l = Some r ->
          heap w' !! l = Some r)
    /\ (forall path, path <> CSV_PATH ->
          files w' !! path = files (world_with 1%positive (frame_of [lunch])) !! path)
    /\ session_state w' = session_state (world_with 1%positive (frame_of [lunch]))
    /\ screen w'
       = (screen (world_with 1%positive (frame_of [lunch]))
            ++ [st_success "Expense added ✅"])%list.
Proof.
  apply (submitted_adds_record (world_with 1%positive (frame_of [lunch])) 1%positive
           [lunch] (Date 2024 1 6) "Rent" 500%Z " split ").
  - reflexivity.
  - reflexivity.
Defined.

Lemma add_expense_note_stripped_witness :
  exists out w' t,
    add_expense 1%positive (Date 2024 1 6) "Rent" 500%Z " split "
                (world_with 1%positive (frame_of [lunch])) = Some (out, w')
    /\ heap w' !! out
       = Some (frame_of [lunch]
                 ++ [Row (CDate (Date 2024 1 6)) (CStr "Rent") (CFloat 500%Z) (CStr t)])%list
    /\ t = PyStr.strip " split "
    /\ PyStr.strip t = t.
Proof.
  apply (add_expense_note_stripped (world_with 1%positive (frame_of [lunch]))
           1%positive (frame_of [lunch])).
  reflexivity.
Defined.

Lemma add_expense_summary_witness :
  exists out w' es',
    add_expense 1%positive (Date 2024 1 7) "Food" 8%Z "snack"
                (world_with 1%positive (frame_of [lunch; rent])) = Some (out, w')
    /\ heap w' !! out = Some (frame_of es')
    /\ total_spent (frame_of es')
       = Some (f_add 8%Z (sum_amounts (map e_amount [lunch; rent])))
    /\ group_total es' "Food" = f_add 8%Z (group_total [lunch; rent] "Food")
    /\ forall c', c' <> "Food" -> group_total es' c' = group_total [lunch; rent] c'.
Proof.
  apply (add_expense_summary (world_with 1%positive (frame_of [lunch; rent]))
           1%positive [lunch; rent]).
  reflexivity.
Defined.


Lemma script_clear_needs_records_witness :
  exists w',
    script ClearAllData "All" "" (world_with_file [broken_line])
    = Some (MkPage NoExpensesYet None false, w')
    /\ files w' = files (world_with_file [broken_line])
    /\ session_state w' = session_state (world_with_file [broken_line]).
Proof.
  apply (script_clear_needs_records (world_with_file [broken_line]) "All" "").
  reflexivity.
Defined.

Lemma script_keeps_confirmation_witness :
  exists pg w',
    script (AddExpense (MkForm (Date 2024 1 6) "Rent" 500%Z " split ")) "All" ""
           (world_pending [csv_of lunch])
    = Some (pg, w')
    /\ session_state w' = session_state (world_pending [csv_of lunch])
    /\ rerun pg = false.
Proof.
  eexists _, _. split; [vm_compute; reflexivity|].
  apply (script_keeps_confirmation (world_pending [csv_of lunch]) _
           (AddExpense (MkForm (Date 2024 1 6) "Rent" 500%Z " split ")) "All" "").
  - discriminate.
  - vm_compute. reflexivity.
Defined.

Lemma script_clear_twice_witness :
  exists pg1 w1 pg2 w2 w3,
    script ClearAllData "All" "" (world_with_file [csv_of lunch]) = Some (pg1, w1)
    /\ rerun pg1 = false /\ files w1 = files (world_with_file [csv_of lunch])
    /\ script ClearAllData "All" "" w1 = Some (pg2, w2)
    /\ rerun pg2 = true
    /\ files w2 = delete CSV_PATH (files (world_with_file [csv_of lunch]))
    /\ script NoClick "All" "" w2 = Some (MkPage NoExpensesYet None false, w3)
    /\ session_state w3 !! "confirm_clear" = None.
Proof.
  apply (script_clear_twice (world_with_file [csv_of lunch]) "All" "" None).
  - reflexivity.
  - vm_compute. discriminate.
  - reflexivity.
Defined.

Lemma script_submission_rewrites_file_witness :
  exists pg w' es,
    script (AddExpense (MkForm (Date 2024 1 6) "Rent" 500%Z " split ")) "All" ""
           (world_with_file [broken_line; csv_of lunch])
    = Some (pg, w')
    /\ frame_of es
       = load_spec (files (world_with_file [broken_line; csv_of lunch]) !! CSV_PATH)
    /\ files w' !! CSV_PATH
       = Some (map csv_of es
                 ++ [csv_of (MkExpense (Date 2024 1 6) "Rent" 500%Z
                                       (PyStr.strip " split "))])%list
    /\ shown pg <> NoExpensesYet
    /\ rerun pg = false.
Proof.
  apply (script_submission_rewrites_file (world_with_file [broken_line; csv_of lunch])
           (MkForm (Date 2024 1 6) "Rent" 500%Z " split ") "All" "" None).
  - reflexivity.
  - reflexivity.
Defined.

(** ** The appended record and the total, as the specification words them *)

Lemma lstrip_chars_split (l : list ascii) :
  exists pre, l = pre ++ PyStr.lstrip_chars l
              /\ Forall (fun c => PyStr.isspace c = true) pre.
Proof.
  induction l as [|c l (pre & Hl & Hpre)]; [by exists []|]. cbn.
  destruct (PyStr.isspace c) eqn:E.
  - exists (c :: pre). split; [cbn; by f_equal|by constructor].
  - by exists [].
Qed.

Lemma rstrip_chars_split (l : list ascii) :
  exists post, l = PyStr.rstrip_chars l ++ post
               /\ Forall (fun c => PyStr.isspace c = true) post.
Proof.
  destruct (lstrip_chars_split (rev l)) as (pre & Hl & Hpre).
  exists (rev pre). unfold PyStr.rstrip_chars. split.
  - rewrite <- rev_app_distr, <- Hl. by rewrite rev_involutive.
  - apply Forall_forall. intros c Hc. apply (proj1 (elem_of_rev _ _)) in Hc.
    rewrite Forall_forall in Hpre. by apply Hpre.
Qed.

Lemma last_rev_head {Y : Type} (l : list Y) : last (rev l) = head l.
Proof.
  destruct l as [|x l]; [done|]. cbn [rev head]. apply last_snoc.
Qed.

Lemma rstrip_chars_last (l : list ascii) (c : ascii) :
  last (PyStr.rstrip_chars l) = Some c -> PyStr.isspace c = false.
Proof.
  unfold PyStr.rstrip_chars. rewrite last_rev_head. intros Hc.
  pose proof (lstrip_chars_head (rev l)) as Hh.
  destruct (PyStr.lstrip_chars (rev l)); [done|]. by injection Hc as <-.
Qed.

(** [strip] gives the note that the specification asks for ... *)
Lemma strip_stripped_of (n : string) : stripped_of n (PyStr.strip n).
Proof.
  unfold stripped_of, PyStr.strip. rewrite list_ascii_of_string_of_list_ascii.
  destruct (lstrip_chars_split (list_ascii_of_string n)) as (pre & Hn & Hpre).
  destruct (rstrip_chars_split (PyStr.lstrip_chars (list_ascii_of_string n)))
    as (post & Hl & Hpost).
  exists pre, post. split; [by rewrite <- Hl|]. split; [done|]. split; [done|].
  split.
  - intros c Hc.
    pose proof (rstrip_chars_head _ (lstrip_chars_head (list_ascii_of_string n))) as Hh.
    destruct (PyStr.rstrip_chars _); [done|]. by injection Hc as <-.
  - apply rstrip_chars_last.
Qed.

Lemma lstrip_chars_spaces (pre l : list ascii) :
  Forall (fun c => PyStr.isspace c = true) pre ->
  PyStr.lstrip_chars (pre ++ l) = PyStr.lstrip_chars l.
Proof. induction 1 as [|c pre Hc _ IH]; [done|]. cbn. by rewrite Hc. Qed.

(** ... and it is the only one. *)
Lemma stripped_of_unique (n t : string) : stripped_of n t -> t = PyStr.strip n.
Proof.
  intros (pre & post & Hn & Hpre & Hpost & Hhead & Hlast).
  unfold PyStr.strip. rewrite Hn. rewrite lstrip_chars_spaces by done.
  rewrite <- (string_of_list_ascii_of_string t) at 1. f_equal.
  set (l := list_ascii_of_string t) in *.
  assert (Hpost' : Forall (fun c => PyStr.isspace c = true) (rev post)).
  { apply Forall_forall. intros c Hc. apply (proj1 (elem_of_rev _ _)) in Hc.
    rewrite Forall_forall in Hpost. by apply Hpost. }
  destruct l as [|c l'] eqn:El.
  - cbn [app]. replace post with ([] ++ post) at 1 by done.
    pose proof (lstrip_chars_spaces post [] Hpost) as Hp. rewrite app_nil_r in Hp.
    cbn [app]. rewrite Hp. done.
  - rewrite lstrip_chars_fixed by (cbn; by apply Hhead).
    unfold PyStr.rstrip_chars. rewrite rev_app_distr.
    rewrite lstrip_chars_spaces by done.
    rewrite lstrip_chars_fixed; [by rewrite rev_involutive|].
    pose proof (last_rev_head (rev (c :: l'))) as Hr. rewrite rev_involutive in Hr.
    destruct (rev (c :: l')) as [|y ys]; [done|]. apply Hlast. by rewrite Hr.
Qed.

Section Append.

Context {num : Type} `{PyEnv num}.

(** C3. Append postcondition.  When [df] names a frame with the rows
    [rows], [add_expense] returns a new frame with one row more: its first
    [length rows] rows are [rows], in order, and its last row is the
    normalized input: the date and the category as given, the amount as a
    float, and as note the note given without its leading and trailing
    white space, which is the one text that the specification's wording
    allows.  The frame that was passed in is unchanged, and so is the
    file. *)
Theorem add_expense_appends (w : World num) (df : loc) (rows : DataFrame num)
        (d : date) (c : string) (a : num) (n : string) :
  heap w !! df = Some rows ->
  exists out w' rows',
    add_expense df d c a n w = Some (out, w')
    /\ heap w' !! out = Some rows'
    /\ length rows' = length rows + 1
    /\ take (length rows) rows' = rows
    /\ last rows' = Some (Row (CDate d) (CStr c) (CFloat (float a))
                              (CStr (PyStr.strip n)))
    /\ stripped_of n (PyStr.strip n)
    /\ (forall t, stripped_of n t -> t = PyStr.strip n)
    /\ (forall es, rows = frame_of es ->
                   rows' = frame_of (es ++ [MkExpense d c (float a) (PyStr.strip n)]))
    /\ heap w' !! df = Some rows
    /\ files w' = files w.
Proof.
  intros Hdf. pose proof (add_expense_run w df rows d c a n Hdf) as Hrun.
  simpl in Hrun. eexists _, _, _. split; [exact Hrun|]. simpl.
  split; [apply lookup_insert_eq|].
  split; [rewrite length_app; simpl; lia|].
  split; [by rewrite take_app_length|].
  split; [by rewrite last_snoc|].
  split; [apply strip_stripped_of|].
  split; [apply stripped_of_unique|].
  split.
  { intros es ->. unfold frame_of. by rewrite map_app. }
  split; [|done].
  rewrite !lookup_insert_ne; [done| |].
  - symmetry. eapply allocated_not_fresh; eauto.
  - symmetry. eapply allocated_not_fresh.
    rewrite lookup_insert_ne; [exact Hdf|].
    symmetry. eapply allocated_not_fresh; eauto.
Qed.

End Append.

Lemma add_expense_appends_witness :
  exists out w' rows',
    add_expense 1%positive (Date 2024 1 6) "Rent" 500%Z " split "
                (world_with 1%positive (frame_of [lunch])) = Some (out, w')
    /\ heap w' !! out = Some rows'
    /\ length rows' = length (frame_of [lunch]) + 1
    /\ take (length (frame_of [lunch])) rows' = frame_of [lunch]
    /\ last rows' = Some (Row (CDate (Date 2024 1 6)) (CStr "Rent")
                              (CFloat 500%Z) (CStr "split"))
    /\ stripped_of " split " "split"
    /\ (forall t, stripped_of " split " t -> t = "split")
    /\ (forall es, frame_of [lunch] = frame_of es ->
          rows' = frame_of (es ++ [MkExpense (Date 2024 1 6) "Rent" 500%Z "split"]))
    /\ heap w' !! 1%positive = Some (frame_of [lunch])
    /\ files w' = files (world_with 1%positive (frame_of [lunch])).
Proof.
  apply (add_expense_appends (world_with 1%positive (frame_of [lunch])) 1%positive
                             (frame_of [lunch]) (Date 2024 1 6) "Rent" 500%Z " split ").
  reflexivity.
Defined.

Section Total.

Context {num : Type} `{PyEnv num} `{!ExactArith num}.





End Total.

